(** * A shallow embedding of coco-healthcare-intelligence

    The Python services of [src/coco] are modelled as Rocq functions:
    - Python [str] values are Rocq [string]s holding their UTF-8 bytes;
      lengths and slices count code points, as Python does;
    - Python [float] values are exact rationals [Q]; floating-point
      rounding is not modelled;
    - exceptions are the [Raise] branch of a [result] type;
    - the values produced by [uuid.uuid4()] and [datetime.utcnow()] are
      inputs of the functions that draw them. *)

From Stdlib Require Import String Ascii List ZArith QArith Qabs Lqa Bool Lia.
From Stdlib Require Import Permutation Sorted.
Import ListNotations.
Open Scope string_scope.
Set Warnings "-register-all".

(* ------------------------------------------------------------------ *)
(** ** Python runtime: exceptions, strings *)

Inductive py_exc :=
| ZeroDivisionError
| TypeError (msg : string)
| ValueError (msg : string)
| RuntimeError (msg : string).

Inductive result (A : Type) :=
| Ok (a : A)
| Raise (e : py_exc).
Arguments Ok {A} a.
Arguments Raise {A} e.

Definition bind {A B} (r : result A) (k : A -> result B) : result B :=
  match r with Ok a => k a | Raise e => Raise e end.

Notation "x <- r ;; k" := (bind r (fun x => k))
  (at level 61, r at next level, right associativity).

(** [str(e)] of an exception. *)
Definition exc_str (e : py_exc) : string :=
  match e with
  | ZeroDivisionError => "division by zero"
  | TypeError m | ValueError m | RuntimeError m => m
  end.

Definition byte_of (c : ascii) : nat := nat_of_ascii c.

(** A UTF-8 continuation byte (10xxxxxx) does not start a code point. *)
Definition utf8_cont (c : ascii) : bool :=
  (128 <=? byte_of c)%nat && (byte_of c <? 192)%nat.

(** [len(s)]: the number of code points. *)
Fixpoint py_len (s : string) : nat :=
  match s with
  | EmptyString => 0
  | String c s' => (if utf8_cont c then 0 else 1) + py_len s'
  end.

(** The first [n] code points of [s] (with their continuation bytes). *)
Fixpoint utf8_take (n : nat) (s : string) : string :=
  match s with
  | EmptyString => EmptyString
  | String c s' =>
      if utf8_cont c then String c (utf8_take n s')
      else match n with
           | O => EmptyString
           | S m => String c (utf8_take m s')
           end
  end.

(** Python's [s[:n]] for an [int] [n]: a negative end counts from the end. *)
Definition py_slice_to (s : string) (n : Z) : string :=
  if (0 <=? n)%Z then utf8_take (Z.to_nat n) s
  else utf8_take (Z.to_nat (Z.of_nat (py_len s) + n)) s.

Definition nl : string := String (ascii_of_nat 10) EmptyString.

Fixpoint digits_of (fuel n : nat) (acc : string) : string :=
  match fuel with
  | O => acc
  | S f =>
      let acc' := String (ascii_of_nat (48 + n mod 10)) acc in
      if (n <? 10)%nat then acc' else digits_of f (n / 10) acc'
  end.

(** [str(n)] of a non-negative [int]. *)
Definition nat_str (n : nat) : string := digits_of (S n) n EmptyString.

(** [str(z)] of an [int]. *)
Definition int_str (z : Z) : string :=
  if (z <? 0)%Z then "-" ++ nat_str (Z.to_nat (- z)) else nat_str (Z.to_nat z).

(* ------------------------------------------------------------------ *)
(** ** [hashlib.sha256(s.encode()).hexdigest()] *)

Module SHA256.
Open Scope Z_scope.

(** The constants of FIPS 180-4, section 4.2.2 and 5.3.3, from their
    definition: the first 32 bits of the fractional parts of the cube roots
    of the first 64 primes (K) and of the square roots of the first 8
    primes (H0). *)
Definition is_prime (n : Z) : bool :=
  (2 <=? n) && forallb (fun d => negb (n mod d =? 0)) (map Z.of_nat (seq 2 (Z.to_nat n - 2))).

Definition first_primes (k : nat) : list Z :=
  firstn k (filter is_prime (map Z.of_nat (seq 0 320))).

(** The integer cube root, one bit at a time from bit [k - 1] down. *)
Fixpoint cbrt_bits (k : nat) (n r : Z) : Z :=
  match k with
  | O => r
  | S k' =>
      let c := r + Z.shiftl 1 (Z.of_nat k') in
      cbrt_bits k' n (if c * c * c <=? n then c else r)
  end.

Definition icbrt (n : Z) : Z := cbrt_bits 40 n 0.

Definition K : list Z :=
  map (fun p => Z.land (icbrt (p * 2 ^ 96)) 0xffffffff) (first_primes 64).

Definition H0 : list Z :=
  map (fun p => Z.land (Z.sqrt (p * 2 ^ 64)) 0xffffffff) (first_primes 8).

Definition w32 (x : Z) : Z := Z.land x 0xffffffff.
Definition rotr (x : Z) (n : Z) : Z :=
  w32 (Z.lor (Z.shiftr x n) (Z.shiftl x (32 - n))).
Definition ch (x y z : Z) : Z := Z.lxor (Z.land x y) (Z.land (Z.lxor x 0xffffffff) z).
Definition maj (x y z : Z) : Z := Z.lxor (Z.lxor (Z.land x y) (Z.land x z)) (Z.land y z).
Definition bsig0 (x : Z) : Z := Z.lxor (Z.lxor (rotr x 2) (rotr x 13)) (rotr x 22).
Definition bsig1 (x : Z) : Z := Z.lxor (Z.lxor (rotr x 6) (rotr x 11)) (rotr x 25).
Definition ssig0 (x : Z) : Z := Z.lxor (Z.lxor (rotr x 7) (rotr x 18)) (Z.shiftr x 3).
Definition ssig1 (x : Z) : Z := Z.lxor (Z.lxor (rotr x 17) (rotr x 19)) (Z.shiftr x 10).

Fixpoint bytes_of_string (s : string) : list Z :=
  match s with
  | EmptyString => []
  | String c s' => Z.of_nat (nat_of_ascii c) :: bytes_of_string s'
  end.

(** Big-endian [n]-byte encoding of [x]. *)
Fixpoint be_bytes (n : nat) (x : Z) : list Z :=
  match n with
  | O => []
  | S m => be_bytes m (Z.shiftr x 8) ++ [Z.land x 255]
  end.

Definition pad (msg : list Z) : list Z :=
  let l := Z.of_nat (length msg) in
  let zeros := Z.to_nat ((55 - l) mod 64) in
  msg ++ [0x80] ++ repeat 0 zeros ++ be_bytes 8 (8 * l).

Fixpoint words_of (n : nat) (bs : list Z) : list Z :=
  match n, bs with
  | S m, b0 :: b1 :: b2 :: b3 :: rest =>
      Z.lor (Z.shiftl b0 24) (Z.lor (Z.shiftl b1 16) (Z.lor (Z.shiftl b2 8) b3))
        :: words_of m rest
  | _, _ => []
  end.

(** The message schedule: 16 words extended to 64, kept newest first. *)
Fixpoint schedule (n : nat) (rev_w : list Z) : list Z :=
  match n with
  | O => rev_w
  | S m =>
      let w k := nth (k - 1) rev_w 0 in
      schedule m (w32 (ssig1 (w 2%nat) + w 7%nat + ssig0 (w 15%nat) + w 16%nat) :: rev_w)
  end.

Definition round (st : list Z) (kw : Z * Z) : list Z :=
  match st with
  | [a; b; c; d; e; f; g; h] =>
      let t1 := h + bsig1 e + ch e f g + fst kw + snd kw in
      let t2 := bsig0 a + maj a b c in
      [w32 (t1 + t2); a; b; c; w32 (d + t1); e; f; g]
  | _ => st
  end.

Definition compress (hs : list Z) (block : list Z) : list Z :=
  let ws := rev (schedule 48 (rev (words_of 16 block))) in
  let st := fold_left round (combine K ws) hs in
  map (fun p => w32 (fst p + snd p)) (combine hs st).

Fixpoint blocks (fuel : nat) (hs : list Z) (bs : list Z) : list Z :=
  match fuel with
  | O => hs
  | S f =>
      match bs with
      | [] => hs
      | _ => blocks f (compress hs (firstn 64 bs)) (skipn 64 bs)
      end
  end.

Definition digest (msg : list Z) : list Z :=
  let p := pad msg in
  concat (map (be_bytes 4) (blocks (length p) H0 p)).

Definition hex_digit (d : Z) : ascii :=
  if d <? 10 then ascii_of_nat (48 + Z.to_nat d) else ascii_of_nat (87 + Z.to_nat d).

Fixpoint hex (bs : list Z) : string :=
  match bs with
  | [] => EmptyString
  | b :: r => String (hex_digit (Z.shiftr b 4)) (String (hex_digit (Z.land b 15)) (hex r))
  end.

End SHA256.

(** [hashlib.sha256(s.encode()).hexdigest()] *)
Definition sha256_hexdigest (s : string) : string :=
  SHA256.hex (SHA256.digest (SHA256.bytes_of_string s)).

Example sha256_abc :
  sha256_hexdigest "abc"
  = "ba7816bf8f01cfea414140de5dae2223b00361a396177a9cb410ff61f20015ad".
Proof. vm_compute. reflexivity. Qed.

Example sha256_two_blocks :
  sha256_hexdigest "abcdbcdecdefdefgefghfghighijhijkijkljklmklmnlmnomnopnopq"
  = "248d6a61d20638b8e5c026930c3e6039a33ce45964ff2167f6ecedd419db06c1".
Proof. vm_compute. reflexivity. Qed.

(* ------------------------------------------------------------------ *)
(** ** Python values: [json.dumps(..., sort_keys=True)] and [str(...)] *)

(** The values the audit details carry.  A [float] is kept as the text of
    its [float.__repr__], which both [json.dumps] and [str] print. *)
Inductive pyval :=
| PNone
| PBool (b : bool)
| PInt (z : Z)
| PFloat (repr : string)
| PStr (s : string)
| PList (l : list pyval)
| PDict (d : list (string * pyval)).

(** The code points of a UTF-8 string. *)
Fixpoint utf8_decode (s : string) : list Z :=
  match s with
  | EmptyString => []
  | String c1 r1 =>
      let b1 := Z.of_nat (byte_of c1) in
      if (b1 <? 128)%Z then b1 :: utf8_decode r1
      else match r1 with
           | EmptyString => [b1]
           | String c2 r2 =>
               let b2 := Z.land (Z.of_nat (byte_of c2)) 63 in
               if (b1 <? 224)%Z then
                 Z.lor (Z.shiftl (Z.land b1 31) 6) b2 :: utf8_decode r2
               else match r2 with
                    | EmptyString => [b1]
                    | String c3 r3 =>
                        let b3 := Z.land (Z.of_nat (byte_of c3)) 63 in
                        if (b1 <? 240)%Z then
                          Z.lor (Z.shiftl (Z.land b1 15) 12)
                                (Z.lor (Z.shiftl b2 6) b3) :: utf8_decode r3
                        else match r3 with
                             | EmptyString => [b1]
                             | String c4 r4 =>
                                 let b4 := Z.land (Z.of_nat (byte_of c4)) 63 in
                                 Z.lor (Z.shiftl (Z.land b1 7) 18)
                                   (Z.lor (Z.shiftl b2 12) (Z.lor (Z.shiftl b3 6) b4))
                                   :: utf8_decode r4
                             end
                    end
           end
  end.

Definition chr (n : Z) : string := String (ascii_of_nat (Z.to_nat n)) EmptyString.

(** [width] lowercase hex digits of [x]. *)
Fixpoint hex_n (width : nat) (x : Z) : string :=
  match width with
  | O => EmptyString
  | S w => hex_n w (Z.shiftr x 4) ++ String (SHA256.hex_digit (Z.land x 15)) EmptyString
  end.

(** The code point [cp] as UTF-8. *)
Definition utf8_encode (cp : Z) : string :=
  if (cp <? 128)%Z then chr cp
  else if (cp <? 2048)%Z then
    chr (Z.lor 192 (Z.shiftr cp 6)) ++ chr (Z.lor 128 (Z.land cp 63))
  else if (cp <? 65536)%Z then
    chr (Z.lor 224 (Z.shiftr cp 12)) ++ chr (Z.lor 128 (Z.land (Z.shiftr cp 6) 63))
      ++ chr (Z.lor 128 (Z.land cp 63))
  else
    chr (Z.lor 240 (Z.shiftr cp 18)) ++ chr (Z.lor 128 (Z.land (Z.shiftr cp 12) 63))
      ++ chr (Z.lor 128 (Z.land (Z.shiftr cp 6) 63)) ++ chr (Z.lor 128 (Z.land cp 63)).

(** One code point as [json.dumps] writes it with [ensure_ascii=True]:
    everything outside space..tilde is escaped, astral code points as a
    surrogate pair. *)
Definition json_escape_cp (cp : Z) : string :=
  if (cp =? 34)%Z then "\" ++ chr 34
  else if (cp =? 92)%Z then "\\"
  else if (cp =? 10)%Z then "\n"
  else if (cp =? 13)%Z then "\r"
  else if (cp =? 9)%Z then "\t"
  else if (cp =? 8)%Z then "\b"
  else if (cp =? 12)%Z then "\f"
  else if ((32 <=? cp) && (cp <=? 126))%Z then chr cp
  else if (cp <? 65536)%Z then "\u" ++ hex_n 4 cp
  else let v := (cp - 65536)%Z in
       "\u" ++ hex_n 4 (55296 + Z.shiftr v 10)%Z ++ "\u" ++ hex_n 4 (56320 + Z.land v 1023)%Z.

Definition json_str (s : string) : string :=
  chr 34 ++ String.concat EmptyString (map json_escape_cp (utf8_decode s)) ++ chr 34.

(** [float.__repr__] of the special values as [json.dumps] spells them. *)
Definition json_float (r : string) : string :=
  if String.eqb r "nan" then "NaN"
  else if String.eqb r "inf" then "Infinity"
  else if String.eqb r "-inf" then "-Infinity"
  else r.

Fixpoint insert_by_key {A} (kv : string * A) (l : list (string * A)) : list (string * A) :=
  match l with
  | [] => [kv]
  | kv' :: r =>
      if String.ltb (fst kv') (fst kv) || String.eqb (fst kv') (fst kv)
      then kv' :: insert_by_key kv r
      else kv :: l
  end.

(** [sorted(d.items())] on [str] keys: code point order is UTF-8 byte order. *)
Definition sort_by_key {A} (l : list (string * A)) : list (string * A) :=
  fold_right insert_by_key [] l.

(** [json.dumps(v, sort_keys=True)] with the default separators [", "] and
    [": "]. *)
Fixpoint json_dumps (v : pyval) : string :=
  match v with
  | PNone => "null"
  | PBool true => "true"
  | PBool false => "false"
  | PInt z => int_str z
  | PFloat r => json_float r
  | PStr s => json_str s
  | PList l =>
      "[" ++ String.concat ", " ((fix go l := match l with
                                             | [] => []
                                             | x :: r => json_dumps x :: go r
                                             end) l) ++ "]"
  | PDict d =>
      let items := (fix go d := match d with
                                | [] => []
                                | (k, x) :: r => (k, json_dumps x) :: go r
                                end) d in
      "{" ++ String.concat ", "
               (map (fun kv => json_str (fst kv) ++ ": " ++ snd kv) (sort_by_key items))
        ++ "}"
  end.

Fixpoint str_contains_cp (cp : Z) (cps : list Z) : bool :=
  match cps with [] => false | c :: r => Z.eqb c cp || str_contains_cp cp r end.

(** [repr] of one code point inside quotes [q]: backslash, the quote and
    the control characters are escaped; printable code points are kept
    (the non-printable code points above U+00A0, which [repr] also escapes,
    are not modelled). *)
Definition repr_escape_cp (q : Z) (cp : Z) : string :=
  if (cp =? 92)%Z then "\\"
  else if (cp =? q)%Z then "\" ++ chr q
  else if (cp =? 10)%Z then "\n"
  else if (cp =? 13)%Z then "\r"
  else if (cp =? 9)%Z then "\t"
  else if ((cp <? 32) || (cp =? 127) || ((128 <=? cp) && (cp <? 161)))%Z
  then "\x" ++ hex_n 2 cp
  else utf8_encode cp.

(** [repr(s)] of a [str]: single quotes unless [s] holds a single quote and
    no double quote. *)
Definition py_repr_str (s : string) : string :=
  let cps := utf8_decode s in
  let q := if str_contains_cp 39 cps && negb (str_contains_cp 34 cps) then 34%Z else 39%Z in
  chr q ++ String.concat EmptyString (map (repr_escape_cp q) cps) ++ chr q.

(** [str(v)] ([repr] inside containers), dicts in insertion order. *)
Fixpoint py_str (v : pyval) : string :=
  match v with
  | PNone => "None"
  | PBool true => "True"
  | PBool false => "False"
  | PInt z => int_str z
  | PFloat r => r
  | PStr s => py_repr_str s
  | PList l =>
      "[" ++ String.concat ", " ((fix go l := match l with
                                             | [] => []
                                             | x :: r => py_str x :: go r
                                             end) l) ++ "]"
  | PDict d =>
      "{" ++ String.concat ", " ((fix go d := match d with
                                             | [] => []
                                             | (k, x) :: r =>
                                                 (py_repr_str k ++ ": " ++ py_str x) :: go r
                                             end) d) ++ "}"
  end.

Example json_dumps_sorted :
  json_dumps (PDict [("b", PInt 1); ("a", PList [PStr "x"; PNone; PFloat "0.5"])])
  = "{" ++ chr 34 ++ "a" ++ chr 34 ++ ": [" ++ chr 34 ++ "x" ++ chr 34 ++ ", null, 0.5], "
      ++ chr 34 ++ "b" ++ chr 34 ++ ": 1}".
Proof. reflexivity. Qed.

(* ------------------------------------------------------------------ *)
(** ** [coco/governance/audit_logger.py] *)

(** The hash of the last element of a chain, [d] for an empty one: what
    [chain[-1].hash if chain else d] reads. *)
Fixpoint last_of {A : Type} (h : A -> string) (d : string) (l : list A) : string :=
  match l with
  | [] => d
  | x :: r => last_of h (h x) r
  end.

Module Audit.

(** [AuditEntry]; [timestamp] is the entry's [datetime] as its
    [isoformat()] text, the only form in which the code reads it for
    hashing. *)
Record AuditEntry := mkAuditEntry {
  entry_id : string;
  timestamp : string;
  component : string;
  operation : string;
  actor : string;
  details : list (string * pyval);
  previous_hash : string;
  hash : string
}.

(** The body of [AuditEntry._compute_hash] on the entry's fields. *)
Definition compute_hash_of (eid ts comp op act : string) (det : list (string * pyval))
    (prev : string) : string :=
  sha256_hexdigest (json_dumps (PDict [
    ("entry_id", PStr eid);
    ("timestamp", PStr ts);
    ("component", PStr comp);
    ("operation", PStr op);
    ("actor", PStr act);
    ("details", PDict det);
    ("previous_hash", PStr prev)])).

(** [entry._compute_hash()]: recomputed from the entry's current fields. *)
Definition _compute_hash (e : AuditEntry) : string :=
  compute_hash_of (entry_id e) (timestamp e) (component e) (operation e) (actor e)
    (details e) (previous_hash e).

(** [AuditEntry.__init__]: stores the fields, then [self.hash =
    self._compute_hash()]. *)
Definition new_AuditEntry (eid ts comp op act : string) (det : list (string * pyval))
    (prev : string) : AuditEntry :=
  {| entry_id := eid; timestamp := ts; component := comp; operation := op;
     actor := act; details := det; previous_hash := prev;
     hash := compute_hash_of eid ts comp op act det prev |}.

(** An [AuditLogger] instance; the class-level [_global_chain] is passed
    and returned explicitly. *)
Record AuditLogger := mkAuditLogger {
  lg_component : string;
  lg_actor : string;
  local_chain : list AuditEntry
}.

(** [AuditLogger(component, actor="system")] *)
Definition new_AuditLogger (comp : string) (act : string) : AuditLogger :=
  {| lg_component := comp; lg_actor := act; local_chain := [] |}.

Definition _genesis_hash : string := "genesis_0000000000000000".

(** [_get_previous_hash]: the last entry's hash, or the genesis constant. *)
Definition _get_previous_hash (global_chain : list AuditEntry) : string :=
  match rev global_chain with
  | e :: _ => hash e
  | [] => _genesis_hash
  end.

Definition ascii_lower (c : ascii) : ascii :=
  let n := nat_of_ascii c in
  if ((65 <=? n) && (n <=? 90))%nat then ascii_of_nat (n + 32) else c.

(** [key.lower()] (ASCII case mapping). *)
Fixpoint str_lower (s : string) : string :=
  match s with
  | EmptyString => EmptyString
  | String c r => String (ascii_lower c) (str_lower r)
  end.

(** [needle in hay] for [str]s. *)
Fixpoint str_in (needle hay : string) : bool :=
  String.prefix needle hay ||
  match hay with
  | EmptyString => false
  | String _ r => str_in needle r
  end.

Definition sensitive_keys : list string :=
  ["ssn"; "social_security"; "dob"; "date_of_birth";
   "address"; "phone"; "email"; "mrn"; "insurance_id"].

(** [_sanitize_details] *)
Definition _sanitize_details (det : list (string * pyval)) : list (string * pyval) :=
  map (fun kv =>
         let key_lower := str_lower (fst kv) in
         if existsb (fun s => str_in s key_lower) sensitive_keys
         then (fst kv, PStr "[REDACTED]")
         else match snd kv with
              | PStr v =>
                  if (1000 <? py_len v)%nat
                  then (fst kv, PStr ("[TRUNCATED:" ++ nat_str (py_len v) ++ " chars]"))
                  else kv
              | _ => kv
              end) det.

(** [actor or self.actor]: [None] and the empty string are falsy. *)
Definition or_actor (a : option string) (dflt : string) : string :=
  match a with
  | Some s => if String.eqb s EmptyString then dflt else s
  | None => dflt
  end.

(** [log_operation(operation, actor, **details)] with [uuid4()] and
    [utcnow().isoformat()] given as [eid] and [ts].  Returns the entry, the
    updated instance and the updated class-level chain. *)
Definition log_operation (self : AuditLogger) (global_chain : list AuditEntry)
    (op : string) (act : option string) (det : list (string * pyval))
    (eid ts : string) : AuditEntry * AuditLogger * list AuditEntry :=
  let entry := new_AuditEntry eid ts (lg_component self) op (or_actor act (lg_actor self))
                 (_sanitize_details det) (_get_previous_hash global_chain) in
  (entry,
   {| lg_component := lg_component self; lg_actor := lg_actor self;
      local_chain := (local_chain self ++ [entry])%list |},
   (global_chain ++ [entry])%list).

Record Failure := mkFailure { f_entry_id : string; f_error : string; f_position : nat }.

Record VerifyResult := mkVerifyResult {
  verified : bool;
  entries_checked : nat;
  failures : list Failure;
  verified_at : string
}.

(** The loop of [verify_chain] from position [i]; [prev] is
    [_global_chain[i - 1]] ([None] at position 0). *)
Fixpoint verify_from (i : nat) (prev : option AuditEntry) (es : list AuditEntry)
    : list Failure :=
  match es with
  | [] => []
  | e :: rest =>
      let f1 := if String.eqb (hash e) (_compute_hash e) then []
                else [mkFailure (entry_id e) "hash_mismatch" i] in
      let f2 := match prev with
                | Some p => if String.eqb (previous_hash e) (hash p) then []
                            else [mkFailure (entry_id e) "chain_break" i]
                | None => []
                end in
      (f1 ++ f2 ++ verify_from (S i) (Some e) rest)%list
  end.

(** [verify_chain()] on the class-level chain; [now] is [utcnow().isoformat()]. *)
Definition verify_chain (global_chain : list AuditEntry) (now : string) : VerifyResult :=
  let fs := verify_from 0 None global_chain in
  {| verified := Nat.eqb (length fs) 0;
     entries_checked := length global_chain;
     failures := fs;
     verified_at := now |}.

(** One call [logger.log_operation(...)] of a run. *)
Record log_call := mkLogCall {
  call_logger : AuditLogger;
  call_operation : string;
  call_actor : option string;
  call_details : list (string * pyval);
  call_entry_id : string;
  call_timestamp : string
}.

(** The class-level chain after a sequence of [log_operation] calls. *)
Fixpoint run_calls (global_chain : list AuditEntry) (calls : list log_call)
    : list AuditEntry :=
  match calls with
  | [] => global_chain
  | c :: rest =>
      let '(_, _, g) := log_operation (call_logger c) global_chain (call_operation c)
                          (call_actor c) (call_details c) (call_entry_id c)
                          (call_timestamp c) in
      run_calls g rest
  end.

(** The chain property: each entry's hash is [_compute_hash] of its own
    fields and its [previous_hash] is the preceding entry's hash. *)
Fixpoint chain_ok (prev : string) (es : list AuditEntry) : Prop :=
  match es with
  | [] => True
  | e :: rest => hash e = _compute_hash e /\ previous_hash e = prev /\ chain_ok (hash e) rest
  end.

End Audit.

(** ** The workflow-local chains ([_generate_audit_hash] and
    [_add_audit_entry], identical in the three workflow classes) *)

Module WorkflowAudit.

(** An entry dict [{"id", "timestamp", "operation", "details", "hash"}]. *)
Record WfEntry := mkWfEntry {
  wf_id : string;
  wf_timestamp : string;
  wf_operation : string;
  wf_details : list (string * pyval);
  wf_hash : string
}.

(** [_generate_audit_hash(data)]; [now] is the [utcnow().isoformat()] it
    draws. *)
Definition _generate_audit_hash (audit_chain : list WfEntry) (data : list (string * pyval))
    (now : string) : string :=
  let previous_hash := match rev audit_chain with
                       | e :: _ => wf_hash e
                       | [] => "genesis"
                       end in
  let content := previous_hash ++ ":" ++ py_str (PDict data) ++ ":" ++ now in
  py_slice_to (sha256_hexdigest content) 16.

(** [_add_audit_entry(operation, details)]: [eid] and [ts] are the
    [uuid4()] and [utcnow()] of the dict literal, [ts_hash] the later
    [utcnow()] inside [_generate_audit_hash]. *)
Definition _add_audit_entry (audit_chain : list WfEntry) (op : string)
    (det : list (string * pyval)) (eid ts ts_hash : string) : list WfEntry :=
  let entry := {| wf_id := eid; wf_timestamp := ts; wf_operation := op;
                  wf_details := det;
                  wf_hash := _generate_audit_hash audit_chain det ts_hash |} in
  (audit_chain ++ [entry])%list.

(** One call [workflow._add_audit_entry(operation, details)] of a run,
    with the values it draws. *)
Record wf_call := mkWfCall {
  wc_operation : string;
  wc_details : list (string * pyval);
  wc_id : string;
  wc_ts : string;
  wc_ts_hash : string
}.

(** [audit_chain] after a sequence of [_add_audit_entry] calls. *)
Fixpoint wf_run (audit_chain : list WfEntry) (calls : list wf_call) : list WfEntry :=
  match calls with
  | [] => audit_chain
  | c :: rest =>
      wf_run (_add_audit_entry audit_chain (wc_operation c) (wc_details c) (wc_id c)
                (wc_ts c) (wc_ts_hash c)) rest
  end.

(** What the entries of a run hold: each entry's fields come from its call,
    and its hash is the first 16 hex digits of SHA-256 of
    [previous:str(details):time] with [previous] the preceding entry's hash
    ("genesis" first). *)
Fixpoint wf_matches (prev : string) (es : list WfEntry) (calls : list wf_call) : Prop :=
  match es, calls with
  | [], [] => True
  | e :: es', c :: cs =>
      wf_id e = wc_id c /\ wf_timestamp e = wc_ts c /\ wf_operation e = wc_operation c /\
      wf_details e = wc_details c /\
      wf_hash e = py_slice_to
                    (sha256_hexdigest (prev ++ ":" ++ py_str (PDict (wc_details c)) ++ ":"
                                         ++ wc_ts_hash c)) 16 /\
      wf_matches (wf_hash e) es' cs
  | _, _ => False
  end.

End WorkflowAudit.

(* ------------------------------------------------------------------ *)
(** ** Python arithmetic on [float] *)

Open Scope Q_scope.

Definition Qltb (x y : Q) : bool := negb (Qle_bool y x).

(** [min(a, b)]: the first argument unless the second is smaller. *)
Definition py_min (a b : Q) : Q := if Qltb b a then b else a.
(** [max(a, b)]: the first argument unless the second is larger. *)
Definition py_max (a b : Q) : Q := if Qltb a b then b else a.

(** [a / b]: [ZeroDivisionError] on a zero divisor. *)
Definition py_div (a b : Q) : result Q :=
  if Qeq_bool b 0 then Raise ZeroDivisionError else Ok (a / b).

(** [sum(l)] *)
Fixpoint sum_Q (l : list Q) : Q :=
  match l with [] => 0 | x :: r => x + sum_Q r end.

Fixpoint lookup {A} (k : string) (d : list (string * A)) : option A :=
  match d with
  | [] => None
  | (k', v) :: r => if String.eqb k k' then Some v else lookup k r
  end.

(** [d.get(k, dflt)] *)
Definition dict_get {A} (d : list (string * A)) (k : string) (dflt : A) : A :=
  match lookup k d with Some v => v | None => dflt end.

(* ------------------------------------------------------------------ *)
(** ** [coco/workflows/readmission_workflow.py] *)

Module Readmission.

Inductive RiskTier := LOW | MEDIUM | HIGH | CRITICAL.

Definition RiskTier_value (t : RiskTier) : string :=
  match t with LOW => "low" | MEDIUM => "medium" | HIGH => "high" | CRITICAL => "critical" end.

(** The feature dict built by [_fetch_features]. *)
Record Features := mkFeatures {
  patient_id : string;
  encounter_id : string;
  prior_admissions_12m : Z;
  length_of_stay : Z;
  charlson_comorbidity_index : Z;
  ed_visits_6m : Z;
  polypharmacy_count : Z;
  discharge_disposition : string;
  primary_diagnosis_category : string;
  social_support_score : Q;
  age : Z;
  insurance_type : string;
  feature_timestamp : string
}.

(** The ranges [_fetch_features] draws from. *)
Definition generated_range (f : Features) : Prop :=
  (0 <= prior_admissions_12m f <= 4)%Z /\ (2 <= length_of_stay f <= 14)%Z /\
  (0 <= charlson_comorbidity_index f <= 8)%Z /\ (0 <= ed_visits_6m f <= 6)%Z /\
  (3 <= polypharmacy_count f <= 15)%Z /\ 0.3 <= social_support_score f <= 1 /\
  (45 <= age f <= 85)%Z.

Definition disposition_risk : list (string * Q) :=
  [("home", 0.0); ("home_health", 0.05); ("snf", 0.10); ("rehab", 0.08)].

(** [_run_model_inference]: the running sum [base_risk] as the code
    accumulates it, then the clamp and the confidence interval. *)
Definition _run_model_inference (features : Features) : Q * (Q * Q) :=
  let base_risk := 0.05 in
  let base_risk := base_risk + inject_Z (prior_admissions_12m features) * 0.08 in
  let base_risk :=
    if (7 <? length_of_stay features)%Z then base_risk + 0.10
    else if (4 <? length_of_stay features)%Z then base_risk + 0.05
    else base_risk in
  let base_risk := base_risk + inject_Z (charlson_comorbidity_index features) * 0.03 in
  let base_risk := base_risk + inject_Z (ed_visits_6m features) * 0.04 in
  let base_risk :=
    if (10 <? polypharmacy_count features)%Z then base_risk + 0.08
    else if (5 <? polypharmacy_count features)%Z then base_risk + 0.04
    else base_risk in
  let base_risk :=
    base_risk + dict_get disposition_risk (discharge_disposition features) 0.05 in
  let base_risk := base_risk + (1 - social_support_score features) * 0.08 in
  let base_risk :=
    if (75 <? age features)%Z then base_risk + 0.05
    else if (65 <? age features)%Z then base_risk + 0.02
    else base_risk in
  let risk_score := py_min (py_max base_risk 0.02) 0.95 in
  let margin := 0.05 + (0.10 * (0.5 - Qabs (risk_score - 0.5))) in
  let ci_lower := py_max 0.0 (risk_score - margin) in
  let ci_upper := py_min 1.0 (risk_score + margin) in
  (risk_score, (ci_lower, ci_upper)).

(** [_determine_risk_tier] *)
Definition _determine_risk_tier (risk_score : Q) : RiskTier :=
  if Qle_bool 0.6 risk_score then CRITICAL
  else if Qle_bool 0.4 risk_score then HIGH
  else if Qle_bool 0.2 risk_score then MEDIUM
  else LOW.

(** The fields of a [ReadmissionPrediction] that [batch_predict] reads. *)
Record Prediction := mkPrediction {
  p_patient_id : string;
  p_encounter_id : string;
  p_risk_score : Q;
  p_risk_tier : RiskTier;
  p_confidence_interval : Q * Q
}.

(** [predict_risk(patient_id)] on the features [_fetch_features] drew. *)
Definition predict_risk (patient_id : string) (features : Features) : Prediction :=
  let '(risk_score, ci) := _run_model_inference features in
  {| p_patient_id := patient_id; p_encounter_id := encounter_id features;
     p_risk_score := risk_score; p_risk_tier := _determine_risk_tier risk_score;
     p_confidence_interval := ci |}.

Record TierCounts := mkTierCounts { n_low : nat; n_medium : nat; n_high : nat; n_critical : nat }.

Definition bump (c : TierCounts) (t : RiskTier) : TierCounts :=
  match t with
  | LOW => {| n_low := S (n_low c); n_medium := n_medium c; n_high := n_high c; n_critical := n_critical c |}
  | MEDIUM => {| n_low := n_low c; n_medium := S (n_medium c); n_high := n_high c; n_critical := n_critical c |}
  | HIGH => {| n_low := n_low c; n_medium := n_medium c; n_high := S (n_high c); n_critical := n_critical c |}
  | CRITICAL => {| n_low := n_low c; n_medium := n_medium c; n_high := n_high c; n_critical := S (n_critical c) |}
  end.

Record BatchPredictionResponse := mkBatch {
  total_patients : nat;
  predictions : list Prediction;
  risk_tier_distribution : TierCounts;
  high_risk_count : nat;
  average_risk_score : Q;
  model_version : string;
  processing_time_ms : Q
}.

(** The loop of [batch_predict]; [draw i] is what [_fetch_features] draws
    for the [i]-th patient. *)
Fixpoint predict_all (draw : nat -> Features) (i : nat) (ids : list string)
    (acc : list Prediction) (counts : TierCounts) : list Prediction * TierCounts :=
  match ids with
  | [] => (acc, counts)
  | pid :: rest =>
      let p := predict_risk pid (draw i) in
      predict_all draw (S i) rest (acc ++ [p])%list (bump counts (p_risk_tier p))
  end.

(** [batch_predict(patient_ids)]; [version] is [self.model_version] and
    [elapsed] the measured processing time. *)
Definition batch_predict (version : string) (elapsed : Q) (draw : nat -> Features)
    (patient_ids : list string) : result BatchPredictionResponse :=
  let '(preds, counts) := predict_all draw 0 patient_ids [] (mkTierCounts 0 0 0 0) in
  avg <- py_div (sum_Q (map p_risk_score preds)) (inject_Z (Z.of_nat (length preds))) ;;
  Ok {| total_patients := length patient_ids;
        predictions := preds;
        risk_tier_distribution := counts;
        high_risk_count := (n_high counts + n_critical counts)%nat;
        average_risk_score := avg;
        model_version := version;
        processing_time_ms := elapsed |}.

End Readmission.

(* ------------------------------------------------------------------ *)
(** ** [coco/workflows/care_gap_workflow.py] *)

Module CareGaps.

Inductive CareGapPriority := P_CRITICAL | P_HIGH | P_MEDIUM | P_LOW.
Inductive CareGapType := SCREENING | VACCINATION | LAB_TEST | MEDICATION | FOLLOW_UP.

Definition priority_value (p : CareGapPriority) : string :=
  match p with P_CRITICAL => "critical" | P_HIGH => "high" | P_MEDIUM => "medium" | P_LOW => "low" end.

Definition type_value (t : CareGapType) : string :=
  match t with
  | SCREENING => "screening" | VACCINATION => "vaccination" | LAB_TEST => "lab_test"
  | MEDICATION => "medication" | FOLLOW_UP => "follow_up"
  end.

Definition priority_eqb (a b : CareGapPriority) : bool := String.eqb (priority_value a) (priority_value b).
Definition type_eqb (a b : CareGapType) : bool := String.eqb (type_value a) (type_value b).

(** [CareGap]; [due_date] as (year, month, day). *)
Record CareGap := mkCareGap {
  gap_id : string;
  gap_type : CareGapType;
  name : string;
  description : string;
  guideline_source : string;
  due_date : Z * Z * Z;
  priority : CareGapPriority;
  icd10_codes : list string;
  cpt_codes : list string;
  estimated_impact : Q
}.

Definition priority_weights (p : CareGapPriority) : Q :=
  match p with P_CRITICAL => 1.0 | P_HIGH => 0.8 | P_MEDIUM => 0.5 | P_LOW => 0.2 end.

(** [_calculate_risk_score] *)
Definition _calculate_risk_score (gaps : list CareGap) : Q :=
  match gaps with
  | [] => 0.0
  | _ =>
      let weighted_sum := sum_Q (map (fun g => priority_weights (priority g) * estimated_impact g) gaps) in
      let max_possible := inject_Z (Z.of_nat (length gaps)) * 1.0 in
      if Qltb 0 max_possible then py_min (weighted_sum / max_possible) 1.0 else 0.0
  end.

Record CareGapSummary := mkCareGapSummary {
  total_patients_analyzed : nat;
  patients_with_gaps : nat;
  total_gaps_identified : nat;
  gaps_by_type : list (string * nat);
  gaps_by_priority : list (string * nat);
  average_risk_score : Q
}.

(** [d[k] = d.get(k, 0) + 1] on an insertion-ordered dict. *)
Fixpoint count_in (k : string) (d : list (string * nat)) : list (string * nat) :=
  match d with
  | [] => [(k, 1%nat)]
  | (k', n) :: r => if String.eqb k k' then (k', S n) :: r else (k', n) :: count_in k r
  end.

Definition priority_order : list CareGapPriority := [P_CRITICAL; P_HIGH; P_MEDIUM; P_LOW].

Fixpoint index_of (p : CareGapPriority) (l : list CareGapPriority) : nat :=
  match l with [] => 0 | q :: r => if priority_eqb p q then 0 else S (index_of p r) end.

(** [analyze_cohort(patient_ids, gap_types, min_priority)]; [detect pid]
    is the [care_gaps] list [detect_gaps(pid)] returns (its [risk_score]
    is [_calculate_risk_score] of that list). *)
Definition analyze_cohort (detect : string -> list CareGap) (patient_ids : list string)
    (gap_types : option (list CareGapType)) (min_priority : option CareGapPriority)
    : CareGapSummary :=
  let '(all_gaps, pwg, total_risk) :=
    fold_left (fun acc pid =>
                 let '(gs, n, tr) := acc in
                 let care_gaps := detect pid in
                 let risk_score := _calculate_risk_score care_gaps in
                 match care_gaps with
                 | [] => (gs, n, tr + risk_score)
                 | _ => ((gs ++ care_gaps)%list, S n, tr + risk_score)
                 end) patient_ids ([], 0%nat, 0.0) in
  let all_gaps := match gap_types with
                  | Some (_ :: _ as ts) =>
                      filter (fun g => existsb (type_eqb (gap_type g)) ts) all_gaps
                  | _ => all_gaps
                  end in
  let all_gaps := match min_priority with
                  | Some mp =>
                      let allowed := firstn (S (index_of mp priority_order)) priority_order in
                      filter (fun g => existsb (priority_eqb (priority g)) allowed) all_gaps
                  | None => all_gaps
                  end in
  {| total_patients_analyzed := length patient_ids;
     patients_with_gaps := pwg;
     total_gaps_identified := length all_gaps;
     gaps_by_type := fold_left (fun d g => count_in (type_value (gap_type g)) d) all_gaps [];
     gaps_by_priority := fold_left (fun d g => count_in (priority_value (priority g)) d) all_gaps [];
     average_risk_score :=
       match patient_ids with
       | [] => 0.0
       | _ => total_risk / inject_Z (Z.of_nat (length patient_ids))
       end |}.

End CareGaps.

(* ------------------------------------------------------------------ *)
(** ** [coco/workflows/summarization_workflow.py] *)

Module Summarization.

Inductive SummaryType := COMPREHENSIVE | PROBLEM_FOCUSED | MEDICATION | LAB_TREND | CARE_TRANSITION.

(** The four literals of [_generate_summary], line breaks written [nl]. *)
Definition template_comprehensive : string :=
  "This 62-year-old patient has a medical history significant for Type 2 diabetes mellitus and essential hypertension, both of which are currently well-controlled on medication therapy. " ++ nl ++
  nl ++ "**Diabetes Management**: Recent HbA1c of 7.2% represents improvement from prior value of 7.8%. The patient continues on Metformin 1000mg twice daily with good tolerance. Glucose levels remain mildly elevated at 142 mg/dL but trending in the correct direction." ++ nl ++
  nl ++ "**Cardiovascular**: Blood pressure control is adequate at 128-134/82-84 mmHg on Lisinopril 10mg daily. Lipid panel shows total cholesterol 185, LDL 98, HDL 52. The patient is on Atorvastatin 20mg for lipid management with good results." ++ nl ++
  nl ++ "**Renal Function**: eGFR 72 mL/min indicates mild CKD Stage 2, likely related to diabetes and hypertension. Creatinine stable at 1.1 mg/dL." ++ nl ++
  nl ++ "**Recent Imaging**: Chest X-ray unremarkable with no acute findings.".

Definition template_medication : string :=
  "**Current Medication Regimen**:" ++ nl ++
  nl ++ "1. **Metformin 1000mg** - Take twice daily with meals (Diabetes)" ++ nl ++
  "2. **Lisinopril 10mg** - Take once daily (Hypertension/Renal protection)" ++ nl ++
  "3. **Atorvastatin 20mg** - Take once daily at bedtime (Hyperlipidemia)" ++ nl ++
  nl ++ "All medications have been well-tolerated with good compliance reported. No significant drug interactions identified. Continue current regimen.".

Definition template_lab_trend : string :=
  "**Laboratory Trends**:" ++ nl ++
  nl ++ "- **HbA1c**: 7.2% (↓ from 7.8%) - Improving glycemic control" ++ nl ++
  "- **Glucose**: 142 mg/dL (H) - Mildly elevated but improving" ++ nl ++
  "- **Creatinine**: 1.1 mg/dL - Stable" ++ nl ++
  "- **eGFR**: 72 mL/min - Mild CKD Stage 2, stable" ++ nl ++
  "- **Total Cholesterol**: 185 mg/dL - At goal" ++ nl ++
  "- **LDL**: 98 mg/dL - At goal (<100)" ++ nl ++
  "- **HDL**: 52 mg/dL - Borderline" ++ nl ++
  "- **Triglycerides**: 175 mg/dL - Mildly elevated".

Definition template_default : string :=
  "Patient with Type 2 diabetes and hypertension, both well-controlled. HbA1c improving at 7.2%. Blood pressure at goal. Continue current management.".

(** A retrieved document dict. *)
Definition Document := list (string * pyval).

(** [_generate_summary(documents, summary_type, max_length)] *)
Definition _generate_summary (documents : list Document) (summary_type : SummaryType)
    (max_length : Z) : string :=
  let summary := match summary_type with
                 | COMPREHENSIVE => template_comprehensive
                 | MEDICATION => template_medication
                 | LAB_TREND => template_lab_trend
                 | _ => template_default
                 end in
  py_slice_to summary (max_length * 4).

End Summarization.

(* ------------------------------------------------------------------ *)
(** ** [coco/governance/phase_gates.py] *)

Module PhaseGates.
Local Open Scope Z_scope.

Inductive GateType := HJG | ECONOMIC | IRREVERSIBILITY | CT.
Inductive PhaseStatus := NOT_STARTED | IN_PROGRESS | PENDING_REVIEW | APPROVED | BLOCKED.

Record ExitContract := mkExitContract {
  truth_contract : list (string * pyval);
  economic_contract : list (string * pyval);
  risk_contract : list (string * pyval);
  ownership_contract : list (string * pyval)
}.

(** [ExitContract()] from the dataclass defaults. *)
Definition empty_contract : ExitContract := mkExitContract [] [] [] [].

Record PhaseGate := mkPhaseGate {
  phase_number : Z;
  phase_name : string;
  quarter : string;
  description : string;
  gate_types : list GateType;
  status : PhaseStatus;
  exit_contract : ExitContract;
  evidence_pack_id : string;
  required_artifacts : list string;
  reviewers : list string;
  approved_at : option string;
  approved_by : option string
}.

(** [_initialize_gates()]: the dict literal in insertion order. *)
Definition _initialize_gates : list (Z * PhaseGate) := [
  (1, {| phase_number := 1; phase_name := "Ontology"; quarter := "Q1";
        description := "Define conceptual foundation - entities, relationships, boundaries";
        gate_types := [HJG]; status := APPROVED; exit_contract := empty_contract;
        evidence_pack_id := "PH1-EVID-1";
        required_artifacts := ["Expert stakeholder map"; "Concept glossary"; "Relationship diagram"; "Contested concept log"];
        reviewers := ["Domain Lead"; "Product"]; approved_at := None; approved_by := None |});
  (2, {| phase_number := 2; phase_name := "Problem Space"; quarter := "Q1";
        description := "Define boundaries, validate assumptions, stress-test problem definition";
        gate_types := [HJG; IRREVERSIBILITY]; status := APPROVED; exit_contract := empty_contract;
        evidence_pack_id := "PH2-EVID-1";
        required_artifacts := ["Boundary stress tests"; "Edge case matrix"; "Scope validation results"];
        reviewers := ["Tech Lead"; "Product"]; approved_at := None; approved_by := None |});
  (3, {| phase_number := 3; phase_name := "Discovery"; quarter := "Q1";
        description := "Gather requirements from multiple perspectives";
        gate_types := [HJG]; status := APPROVED; exit_contract := empty_contract;
        evidence_pack_id := "PH3-EVID-1";
        required_artifacts := ["Stakeholder interview notes"; "Data inventory"; "Regulatory constraint map"];
        reviewers := ["Product"; "Compliance"]; approved_at := None; approved_by := None |});
  (4, {| phase_number := 4; phase_name := "Alignment & Design"; quarter := "Q2";
        description := "Lock stakeholder alignment, design end-to-end architecture";
        gate_types := [HJG; ECONOMIC; IRREVERSIBILITY]; status := APPROVED; exit_contract := empty_contract;
        evidence_pack_id := "PH4-EVID-1";
        required_artifacts := ["Architecture ROI pack"; "Stakeholder sign-off matrix"; "Risk acceptance docs"];
        reviewers := ["Exec Sponsor"; "Finance"]; approved_at := None; approved_by := None |});
  (5, {| phase_number := 5; phase_name := "Integration"; quarter := "Q2";
        description := "Connect ML system to infrastructure, APIs, data sources";
        gate_types := [HJG]; status := APPROVED; exit_contract := empty_contract;
        evidence_pack_id := "PH5-EVID-1";
        required_artifacts := ["IaC validation logs"; "Schema version registry"; "Security scan results"];
        reviewers := ["Platform Lead"; "Security"]; approved_at := None; approved_by := None |});
  (6, {| phase_number := 6; phase_name := "Build"; quarter := "Q2";
        description := "Construct model, pipelines, infrastructure with reproducibility";
        gate_types := [HJG; CT]; status := APPROVED; exit_contract := empty_contract;
        evidence_pack_id := "PH6-EVID-1";
        required_artifacts := ["Baseline model metrics"; "Telemetry contract"; "Reproducibility proof"];
        reviewers := ["ML Lead"; "SRE"]; approved_at := None; approved_by := None |});
  (7, {| phase_number := 7; phase_name := "Validation"; quarter := "Q3";
        description := "Rigorous testing - functional, performance, fairness, security";
        gate_types := [HJG]; status := APPROVED; exit_contract := empty_contract;
        evidence_pack_id := "PH7-EVID-1";
        required_artifacts := ["Test suite results"; "Bias audit"; "Red team report"; "Pen test findings"];
        reviewers := ["QA Lead"; "Security"]; approved_at := None; approved_by := None |});
  (8, {| phase_number := 8; phase_name := "Pre-Production"; quarter := "Q3";
        description := "Staging environment, load testing, final sign-off";
        gate_types := [HJG; ECONOMIC; CT]; status := APPROVED; exit_contract := empty_contract;
        evidence_pack_id := "PH8-EVID-1";
        required_artifacts := ["Load test results"; "Canary metrics"; "Rollback verification"; "Kill drill results"];
        reviewers := ["SRE Lead"; "Ops"]; approved_at := None; approved_by := None |});
  (9, {| phase_number := 9; phase_name := "Hypercare"; quarter := "Q3";
        description := "Intensive post-launch support, high-touch monitoring";
        gate_types := [HJG]; status := APPROVED; exit_contract := empty_contract;
        evidence_pack_id := "PH9-EVID-1";
        required_artifacts := ["Launch checklist"; "Escalation log"; "Rapid iteration tracking"];
        reviewers := ["Product"; "Support Lead"]; approved_at := None; approved_by := None |});
  (10, {| phase_number := 10; phase_name := "Production"; quarter := "Q4";
        description := "Full production rollout with monitoring and scaling";
        gate_types := [HJG]; status := APPROVED; exit_contract := empty_contract;
        evidence_pack_id := "PH10-EVID-1";
        required_artifacts := ["Deployment verification"; "Autoscaling proof"; "Rollback test results"];
        reviewers := ["SRE"; "Platform Lead"]; approved_at := None; approved_by := None |});
  (11, {| phase_number := 11; phase_name := "Reliability"; quarter := "Q4";
        description := "Establish operational excellence - observability, incident response";
        gate_types := [HJG]; status := IN_PROGRESS; exit_contract := empty_contract;
        evidence_pack_id := "PH11-EVID-1";
        required_artifacts := ["Observability dashboard"; "On-call rotation"; "Decay detection baseline"];
        reviewers := ["SRE Lead"; "ML Lead"]; approved_at := None; approved_by := None |});
  (12, {| phase_number := 12; phase_name := "Continuous Improvement"; quarter := "Q4";
        description := "Automation, documentation, architecture reviews, ROI validation";
        gate_types := [HJG; ECONOMIC]; status := NOT_STARTED; exit_contract := empty_contract;
        evidence_pack_id := "PH12-EVID-1";
        required_artifacts := ["Automation inventory"; "Knowledge transfer docs"; "Next iteration brief"];
        reviewers := ["Tech Lead"; "Product"]; approved_at := None; approved_by := None |})].

(** [PhaseGateRegistry().gates] *)
Definition registry_gates : list (Z * PhaseGate) := _initialize_gates.

(** [registry.gates.get(phase_number)] *)
Fixpoint get_gate (n : Z) (gates : list (Z * PhaseGate)) : option PhaseGate :=
  match gates with
  | [] => None
  | (k, g) :: r => if Z.eqb k n then Some g else get_gate n r
  end.

(** The quarter the spec and the tests assign to a phase. *)
Definition expected_quarter (n : Z) : string :=
  if (n <=? 3)%Z then "Q1" else if (n <=? 6)%Z then "Q2" else if (n <=? 9)%Z then "Q3" else "Q4".

End PhaseGates.

(* ------------------------------------------------------------------ *)
(** ** [coco/governance/cost_telemetry.py]: [CostTelemetryContract] *)

Module CostTelemetry.

Record MetricConfig := mkMetricConfig {
  owner : string;
  refresh : string;
  reviewed_by : string;
  kill_trigger : string;
  current_value : Q;
  threshold : Q
}.

(** [CostTelemetryContract.METRICS] in insertion order. *)
Definition METRICS : list (string * MetricConfig) := [
  ("cost_per_inference",
   mkMetricConfig "Engineering Manager" "Daily" "CTO + CFO" ">1.0× value for 2 months" 0.0023 0.05);
  ("error_cost_per_month",
   mkMetricConfig "Product Manager" "Weekly" "Executive Review" ">$50K/month" 8234.50 50000.0);
  ("human_review_cost_per_output",
   mkMetricConfig "Operations Lead" "Weekly" "Ops Review" ">30% of inference cost" 0.0004 0.015);
  ("compute_cost_per_1k",
   mkMetricConfig "Platform Engineer" "Real-time" "Infra Review" ">2× baseline for 1 week" 2.34 4.68);
  ("retraining_cost_per_cycle",
   mkMetricConfig "ML Engineer" "Per event" "ML Review" ">1 month of value" 1250.0 5000.0);
  ("value_per_inference",
   mkMetricConfig "Business Analyst" "Monthly" "Exec Review" "<0.8× projected for 2 months" 0.15 0.12)].

(** One entry of [status["metrics"]]: the config, [status] and [headroom]. *)
Record MetricStatus := mkMetricStatus {
  ms_config : MetricConfig;
  ms_status : string;
  ms_headroom : Q
}.

Record ContractStatus := mkContractStatus {
  contract_id : string;
  version : string;
  last_updated : string;
  metrics : list (string * MetricStatus);
  overall_status : string
}.

(** The loop of [get_contract_status]: the metric entries and [all_healthy]. *)
Fixpoint status_loop (ms : list (string * MetricConfig)) (all_healthy : bool)
    : result (list (string * MetricStatus) * bool) :=
  match ms with
  | [] => Ok ([], all_healthy)
  | (metric_name, config) :: rest =>
      let is_healthy := Qltb (current_value config) (threshold config) in
      headroom <- py_div (threshold config - current_value config) (threshold config) ;;
      let entry := mkMetricStatus config (if is_healthy then "healthy" else "warning") headroom in
      r <- status_loop rest (if is_healthy then all_healthy else false) ;;
      Ok ((metric_name, entry) :: fst r, snd r)
  end.

(** [get_contract_status()] over [cls.METRICS]; [now] is
    [utcnow().isoformat()]. *)
Definition get_contract_status (cls_METRICS : list (string * MetricConfig)) (now : string)
    : result ContractStatus :=
  r <- status_loop cls_METRICS true ;;
  Ok {| contract_id := "CT-1"; version := "1.0.0"; last_updated := now;
        metrics := fst r;
        overall_status := if snd r then "healthy" else "warning" |}.

Record Trigger := mkTrigger {
  t_metric : string;
  t_current : Q;
  t_threshold : Q;
  t_owner : string;
  t_action_required : string
}.

Record KillCheck := mkKillCheck {
  kill_triggered : bool;
  triggers : list Trigger;
  checked_at : string
}.

(** [check_kill_criteria()] over [cls.METRICS]. *)
Definition check_kill_criteria (cls_METRICS : list (string * MetricConfig)) (now : string)
    : KillCheck :=
  let trigs :=
    flat_map (fun kv =>
                let '(metric_name, config) := kv in
                if Qle_bool (threshold config) (current_value config)
                then [mkTrigger metric_name (current_value config) (threshold config)
                        (owner config) (kill_trigger config)]
                else []) cls_METRICS in
  {| kill_triggered := (0 <? length trigs)%nat; triggers := trigs; checked_at := now |}.

End CostTelemetry.

(* ------------------------------------------------------------------ *)
(** ** The HTTP error path: [coco/api/routers/care_gaps.py] and
    [coco/api/main.py] *)

Module Http.

Record Request := mkRequest {
  path : string;
  method : string;
  headers : list (string * string)   (** names in lower case *)
}.

Record Response := mkResponse { status_code : Z; content : pyval }.

(** What an endpoint function ends with. *)
Inductive raised :=
| HTTPException (code : Z) (detail : string)
| PyError (e : py_exc).

Inductive outcome :=
| Returned (body : pyval)
| Raised (r : raised).

(** [detect_care_gaps]: [wf] is how [workflow.detect_gaps(...)] ended (its
    serialised response or the exception it raised); every exception is
    turned into [HTTPException(500, f"Care gap detection failed: {e}")]. *)
Definition detect_care_gaps (wf : result pyval) : outcome :=
  match wf with
  | Ok body => Returned body
  | Raise e => Raised (HTTPException 500 ("Care gap detection failed: " ++ exc_str e))
  end.

(** [request.headers.get(name, dflt)]: header names are case-insensitive. *)
Definition header_get (req : Request) (name dflt : string) : string :=
  dict_get (headers req) (Audit.str_lower name) dflt.

(** [global_exception_handler]; [now] is [utcnow().isoformat()]. *)
Definition global_exception_handler (req : Request) (exc : py_exc) (now : string) : Response :=
  {| status_code := 500;
     content := PDict [("error", PStr "Internal server error");
                       ("message", PStr "An unexpected error occurred");
                       ("request_id", PStr (header_get req "X-Request-ID" "unknown"));
                       ("timestamp", PStr now)] |}.

(** The framework: a returned value is sent with status 200; an
    [HTTPException] goes to the framework's own handler, which sends its
    status with [{"detail": detail}]; any other exception goes to the
    handler registered for [Exception]. *)
Definition serve (req : Request) (now : string) (o : outcome) : Response :=
  match o with
  | Returned body => {| status_code := 200; content := body |}
  | Raised (HTTPException code detail) =>
      {| status_code := code; content := PDict [("detail", PStr detail)] |}
  | Raised (PyError e) => global_exception_handler req e now
  end.

End Http.

(* ------------------------------------------------------------------ *)
(** ** More of the Python runtime *)

Fixpoint str_repeat (n : nat) (s : string) : string :=
  match n with O => EmptyString | S m => s ++ str_repeat m s end.

(** [s] left-padded with zeros to [w] characters. *)
Definition zero_pad (w : nat) (s : string) : string :=
  str_repeat (w - String.length s) "0" ++ s.

(** [f"{x:.{d}f}"]: the value rounded half to even at [d] decimals, a
    minus sign kept on a negative value that rounds to zero. *)
Definition fmt_fixed (d : nat) (x : Q) : string :=
  let scale := (10 ^ Z.of_nat d)%Z in
  let a := Z.abs (Qnum x * scale) in
  let den := Zpos (Qden x) in
  let qt := (a / den)%Z in
  let r := (a mod den)%Z in
  let rounded := if (den <? 2 * r)%Z then (qt + 1)%Z
                 else if (2 * r =? den)%Z then (if Z.even qt then qt else (qt + 1)%Z)
                 else qt in
  (if (Qnum x <? 0)%Z then "-" else EmptyString)
  ++ nat_str (Z.to_nat (rounded / scale))
  ++ match d with
     | O => EmptyString
     | _ => "." ++ zero_pad d (nat_str (Z.to_nat (rounded mod scale)))
     end.

(** [l[i:]] for an [int] [i] (a negative [i] counts from the end). *)
Definition py_list_from {A : Type} (l : list A) (i : Z) : list A :=
  if (i <? 0)%Z then skipn (Z.to_nat (Z.of_nat (length l) + i)) l
  else skipn (Z.to_nat i) l.

(** [bool(v)] *)
Definition py_truthy (v : pyval) : bool :=
  match v with
  | PNone => false
  | PBool b => b
  | PInt z => negb (Z.eqb z 0)
  | PFloat r => negb (String.eqb r "0.0" || String.eqb r "-0.0")
  | PStr s => negb (String.eqb s EmptyString)
  | PList l => match l with [] => false | _ => true end
  | PDict d => match d with [] => false | _ => true end
  end.

(** [a <= b] on [str]s: code-unit order, a proper prefix first. *)
Fixpoint str_leb (a b : string) : bool :=
  match a, b with
  | EmptyString, _ => true
  | String _ _, EmptyString => false
  | String c a', String c' b' =>
      if (nat_of_ascii c <? nat_of_ascii c')%nat then true
      else if (nat_of_ascii c =? nat_of_ascii c')%nat then str_leb a' b' else false
  end.

(** One step of [list.sort(key=key, reverse=True)]: [x] goes after every
    element whose key is not smaller, so equal keys keep their order. *)
Fixpoint insert_desc {A : Type} (key : A -> Q) (x : A) (l : list A) : list A :=
  match l with
  | [] => [x]
  | y :: r => if Qle_bool (key x) (key y) then y :: insert_desc key x r else x :: y :: r
  end.

(** [l.sort(key=key, reverse=True)]: stable, larger keys first. *)
Definition sort_desc {A : Type} (key : A -> Q) (l : list A) : list A :=
  fold_left (fun acc x => insert_desc key x acc) l [].

(** [datetime.date] as (year, month, day).  [toordinal] and
    [fromordinal] of the proleptic Gregorian calendar, day 1 being
    0001-01-01 (civil-from-days arithmetic over 400-year eras). *)
Definition toordinal (dt : Z * Z * Z) : Z :=
  let '(y0, m, d) := dt in
  let y := if (m <=? 2)%Z then (y0 - 1)%Z else y0 in
  let era := (y / 400)%Z in
  let yoe := (y - era * 400)%Z in
  let mp := ((m + 9) mod 12)%Z in
  let doy := ((153 * mp + 2) / 5 + d - 1)%Z in
  let doe := (yoe * 365 + yoe / 4 - yoe / 100 + doy)%Z in
  (era * 146097 + doe - 719468 + 719163)%Z.

Definition fromordinal (n : Z) : Z * Z * Z :=
  let z := (n - 719163 + 719468)%Z in
  let era := (z / 146097)%Z in
  let doe := (z - era * 146097)%Z in
  let yoe := ((doe - doe / 1460 + doe / 36524 - doe / 146096) / 365)%Z in
  let doy := (doe - (365 * yoe + yoe / 4 - yoe / 100))%Z in
  let mp := ((5 * doy + 2) / 153)%Z in
  let d := (doy - (153 * mp + 2) / 5 + 1)%Z in
  let m := if (mp <? 10)%Z then (mp + 3)%Z else (mp - 9)%Z in
  let y := (yoe + era * 400)%Z in
  (if (m <=? 2)%Z then (y + 1)%Z else y, m, d).

(** [dt + timedelta(days=k)] (the [OverflowError] outside years 1..9999
    is not modelled). *)
Definition date_add (dt : Z * Z * Z) (k : Z) : Z * Z * Z :=
  fromordinal (toordinal dt + k).

(** [a <= b] on dates. *)
Definition date_le (a b : Z * Z * Z) : bool := (toordinal a <=? toordinal b)%Z.

(** [(a - b).days] *)
Definition date_sub_days (a b : Z * Z * Z) : Z := (toordinal a - toordinal b)%Z.

(* ------------------------------------------------------------------ *)
(** ** [coco/governance/audit_logger.py]: the HIPAA helpers and the queries *)

Module AuditQueries.
Import Audit.

(** [log_phi_access(patient_id, data_type, purpose, actor)] *)
Definition log_phi_access (self : AuditLogger) (global_chain : list AuditEntry)
    (patient_id data_type purpose : string) (act : option string) (eid ts : string)
    : AuditEntry * AuditLogger * list AuditEntry :=
  log_operation self global_chain "phi_access" act
    [("patient_id", PStr patient_id); ("data_type", PStr data_type);
     ("purpose", PStr purpose); ("hipaa_category", PStr "access_control")] eid ts.

(** [log_phi_disclosure(patient_id, recipient, data_types, purpose, actor)] *)
Definition log_phi_disclosure (self : AuditLogger) (global_chain : list AuditEntry)
    (patient_id recipient : string) (data_types : list string) (purpose : string)
    (act : option string) (eid ts : string) : AuditEntry * AuditLogger * list AuditEntry :=
  log_operation self global_chain "phi_disclosure" act
    [("patient_id", PStr patient_id); ("recipient", PStr recipient);
     ("data_types", PList (map PStr data_types)); ("purpose", PStr purpose);
     ("hipaa_category", PStr "disclosure")] eid ts.

(** [AuditEntry.to_dict()] *)
Definition to_dict (e : AuditEntry) : pyval :=
  PDict [("entry_id", PStr (entry_id e)); ("timestamp", PStr (timestamp e));
         ("component", PStr (component e)); ("operation", PStr (operation e));
         ("actor", PStr (actor e)); ("details", PDict (details e));
         ("previous_hash", PStr (previous_hash e)); ("hash", PStr (hash e))].

(** [if x:] on an optional [str] filter: [None] and the empty string
    leave the entries as they are. *)
Definition str_filter (f : option string) (get : AuditEntry -> string)
    (entries : list AuditEntry) : list AuditEntry :=
  match f with
  | Some s => if String.eqb s EmptyString then entries
              else filter (fun e => String.eqb (get e) s) entries
  | None => entries
  end.

(** [get_entries(component, operation, start_time, end_time, limit)].
    The [datetime] bounds are compared through their [isoformat()] text,
    which orders naive datetimes of years 1..9999 as they compare. *)
Definition get_entries (global_chain : list AuditEntry) (comp op : option string)
    (start_time end_time : option string) (limit : Z) : list pyval :=
  let entries := global_chain in
  let entries := str_filter comp component entries in
  let entries := str_filter op operation entries in
  let entries := match start_time with
                 | Some t => filter (fun e => str_leb t (timestamp e)) entries
                 | None => entries
                 end in
  let entries := match end_time with
                 | Some t => filter (fun e => str_leb (timestamp e) t) entries
                 | None => entries
                 end in
  map to_dict (py_list_from entries (- limit)).

(** The dict [get_audit_summary] returns; the keys absent from the
    empty-chain dict are [None]. *)
Record AuditSummary := mkAuditSummary {
  total_entries : nat;
  first_entry : option string;
  last_entry : option string;
  components : list (string * nat);
  operations : list (string * nat);
  chain_verified : option bool
}.

(** [get_audit_summary()]; [now] is the [verified_at] time of the
    [verify_chain()] call. *)
Definition get_audit_summary (global_chain : list AuditEntry) (now : string) : AuditSummary :=
  match global_chain with
  | [] => mkAuditSummary 0 None None [] [] None
  | e0 :: _ =>
      let components :=
        fold_left (fun d e => CareGaps.count_in (component e) d) global_chain [] in
      let operations :=
        fold_left (fun d e => CareGaps.count_in (operation e) d) global_chain [] in
      mkAuditSummary (length global_chain) (Some (timestamp e0))
        (Some (last_of timestamp EmptyString global_chain)) components operations
        (Some (verified (verify_chain global_chain now)))
  end.

End AuditQueries.

(* ------------------------------------------------------------------ *)
(** ** [coco/governance/phase_gates.py]: [PhaseGateRegistry]'s methods *)

Module PhaseRegistry.
Import PhaseGates.
Local Open Scope Z_scope.

Definition status_value (s : PhaseStatus) : string :=
  match s with
  | NOT_STARTED => "not_started" | IN_PROGRESS => "in_progress"
  | PENDING_REVIEW => "pending_review" | APPROVED => "approved" | BLOCKED => "blocked"
  end.

Definition status_eqb (a b : PhaseStatus) : bool := String.eqb (status_value a) (status_value b).

(** [ExitContract.is_complete()] *)
Definition is_complete (c : ExitContract) : bool :=
  forallb (fun d => py_truthy (dict_get d "satisfied" (PBool false)))
    [truth_contract c; economic_contract c; risk_contract c; ownership_contract c].

(** [self.gates[n] = g] on a key already present. *)
Definition set_gate (n : Z) (g : PhaseGate) (gates : list (Z * PhaseGate)) : list (Z * PhaseGate) :=
  map (fun kv => if Z.eqb (fst kv) n then (fst kv, g) else kv) gates.

(** [approve_phase(phase_number, approver, evidence)] on [self.gates];
    [now] is [utcnow()] as its [isoformat()] text.  [evidence] is not
    read by the code. *)
Definition approve_phase (gates : list (Z * PhaseGate)) (n : Z) (approver : string)
    (evidence : list (string * pyval)) (now : string) : list (Z * PhaseGate) * pyval :=
  match get_gate n gates with
  | None => (gates, PDict [("error", PStr ("Phase " ++ int_str n ++ " not found"))])
  | Some gate =>
      let gate' := {| phase_number := phase_number gate; phase_name := phase_name gate;
                      quarter := quarter gate; description := description gate;
                      gate_types := gate_types gate; status := APPROVED;
                      exit_contract := exit_contract gate;
                      evidence_pack_id := evidence_pack_id gate;
                      required_artifacts := required_artifacts gate;
                      reviewers := reviewers gate;
                      approved_at := Some now; approved_by := Some approver |} in
      (set_gate n gate' gates,
       PDict [("status", PStr "approved"); ("phase", PInt n);
              ("approved_at", PStr now); ("approved_by", PStr approver)])
  end.

(** [check_phase_exit(phase_number)] *)
Definition check_phase_exit (gates : list (Z * PhaseGate)) (n : Z) : pyval :=
  match get_gate n gates with
  | None => PDict [("error", PStr ("Phase " ++ int_str n ++ " not found"))]
  | Some gate =>
      PDict [("phase", PInt n); ("phase_name", PStr (phase_name gate));
             ("can_exit", PBool (is_complete (exit_contract gate)));
             ("contracts", PDict [("truth", PDict (truth_contract (exit_contract gate)));
                                  ("economic", PDict (economic_contract (exit_contract gate)));
                                  ("risk", PDict (risk_contract (exit_contract gate)));
                                  ("ownership", PDict (ownership_contract (exit_contract gate)))]);
             ("missing_artifacts", PList (map PStr (required_artifacts gate)))]
  end.

(** The loop of [get_current_phase] over [range(1, 13)]; [None] is the
    [KeyError] of [self.gates[phase_num]] on a missing phase. *)
Fixpoint find_active (gates : list (Z * PhaseGate)) (nums : list Z) : option PhaseGate :=
  match nums with
  | [] => get_gate 10 gates
  | k :: rest =>
      match get_gate k gates with
      | None => None
      | Some g =>
          if status_eqb (status g) IN_PROGRESS || status_eqb (status g) PENDING_REVIEW
          then Some g else find_active gates rest
      end
  end.

(** [get_current_phase()] *)
Definition get_current_phase (gates : list (Z * PhaseGate)) : option PhaseGate :=
  find_active gates [1; 2; 3; 4; 5; 6; 7; 8; 9; 10; 11; 12].

(** The [phases_completed] entry of [get_playbook_summary()]. *)
Definition phases_completed (gates : list (Z * PhaseGate)) : nat :=
  length (filter (fun kv => status_eqb (status (snd kv)) APPROVED) gates).

(** A sequence of [approve_phase(n, approver, evidence)] calls at times
    [now] on one registry. *)
Fixpoint approve_all (gates : list (Z * PhaseGate))
    (calls : list (Z * string * list (string * pyval) * string)) : list (Z * PhaseGate) :=
  match calls with
  | [] => gates
  | (n, approver, evidence, now) :: rest =>
      approve_all (fst (approve_phase gates n approver evidence now)) rest
  end.

End PhaseRegistry.

(* ------------------------------------------------------------------ *)
(** ** [coco/governance/cost_telemetry.py]: [CostTracker], the middleware
    and [CostGuard] *)

Module CostOps.

Definition OPERATION_COSTS : list (string * Q) :=
  [("care_gap_detection", 0.0018); ("readmission_prediction", 0.0031);
   ("clinical_summarization", 0.034); ("batch_prediction", 0.0025);
   ("document_retrieval", 0.0005); ("phi_detection", 0.0002)].

Definition OPERATION_VALUES : list (string * Q) :=
  [("care_gap_detection", 0.12); ("readmission_prediction", 0.45);
   ("clinical_summarization", 2.50); ("batch_prediction", 0.35);
   ("document_retrieval", 0.05); ("phi_detection", 0.10)].

(** The dict [record_operation] returns. *)
Record OperationCost := mkOperationCost { op_cost : Q; op_value : Q; roi : Q }.

(** [CostTracker.record_operation(operation, model, tokens_used, ...)]:
    the returned dict (the Prometheus counters it updates are not
    modelled). *)
Definition record_operation (operation : string) (tokens_used : Z) : OperationCost :=
  let cost := dict_get OPERATION_COSTS operation 0.001 in
  let value := dict_get OPERATION_VALUES operation 0.01 in
  let cost := if (0 <? tokens_used)%Z then cost + inject_Z tokens_used / 1000 * 0.01 else cost in
  {| op_cost := cost; op_value := value; roi := if Qltb 0 cost then value / cost else 0 |}.

(** [CostTelemetryMiddleware._path_to_operation(path)] *)
Definition _path_to_operation (path : string) : option string :=
  if Audit.str_in "/care-gaps" path then Some "care_gap_detection"
  else if Audit.str_in "/readmission" path then Some "readmission_prediction"
  else if Audit.str_in "/summarize" path then Some "clinical_summarization"
  else if Audit.str_in "/batch" path then Some "batch_prediction"
  else None.

(** The [X-Cost-USD] header [dispatch] sets on every response. *)
Definition cost_header (path : string) : string :=
  let operation := _path_to_operation path in
  fmt_fixed 4 (match operation with
               | Some o => dict_get OPERATION_COSTS o 0.001
               | None => 0.001
               end).

(** A [CostGuard]; [last_reset] is the date's ordinal. *)
Record CostGuard := mkCostGuard {
  max_cost_per_request : Q;
  daily_budget : Q;
  daily_spend : Q;
  last_reset : Z
}.

(** [CostGuard(max_cost_per_request, daily_budget)] created on day [today]. *)
Definition new_CostGuard (max_cost budget : Q) (today : Z) : CostGuard :=
  mkCostGuard max_cost budget 0.0 today.

(** [check_budget(estimated_cost)] on day [today]: the updated guard and
    [(allowed, reason)]. *)
Definition check_budget (self : CostGuard) (today : Z) (estimated_cost : Q)
    : CostGuard * (bool * string) :=
  let self := if (last_reset self <? today)%Z
              then mkCostGuard (max_cost_per_request self) (daily_budget self) 0.0 today
              else self in
  if Qltb (max_cost_per_request self) estimated_cost then
    (self, (false, "Estimated cost $" ++ fmt_fixed 4 estimated_cost
                   ++ " exceeds per-request limit $" ++ fmt_fixed 4 (max_cost_per_request self)))
  else if Qltb (daily_budget self) (daily_spend self + estimated_cost) then
    (self, (false, "Daily budget $" ++ fmt_fixed 2 (daily_budget self) ++ " would be exceeded"))
  else (self, (true, "within_budget")).

(** [record_spend(cost)]: the spend is added, then the log call divides
    it by the budget. *)
Definition record_spend (self : CostGuard) (cost : Q) : CostGuard * result unit :=
  let self := mkCostGuard (max_cost_per_request self) (daily_budget self)
                (daily_spend self + cost) (last_reset self) in
  (self, match py_div (daily_spend self) (daily_budget self) with
         | Ok _ => Ok tt
         | Raise e => Raise e
         end).

(** A caller that checks each estimate on its day and, when allowed,
    records it; an exception ends the run. *)
Fixpoint run_guarded (self : CostGuard) (ops : list (Z * Q)) : CostGuard * result unit :=
  match ops with
  | [] => (self, Ok tt)
  | (today, cost) :: rest =>
      let '(self, (allowed, _)) := check_budget self today cost in
      if allowed then
        let '(self, r) := record_spend self cost in
        match r with
        | Ok _ => run_guarded self rest
        | Raise e => (self, Raise e)
        end
      else run_guarded self rest
  end.

End CostOps.

(* ------------------------------------------------------------------ *)
(** ** [coco/workflows/readmission_workflow.py]: explanations and
    interventions *)

Module ReadmissionExplain.
Import Readmission.

Record ContributingFactor := mkContributingFactor {
  factor_name : string;
  factor_category : string;
  weight : Q;
  value : string;
  reference_range : option string;
  is_modifiable : bool
}.

(** [_calculate_contributing_factors(features)] *)
Definition _calculate_contributing_factors (features : Features) : list ContributingFactor :=
  let factors :=
    ((if (0 <? prior_admissions_12m features)%Z then
       [mkContributingFactor "prior_admissions_12m" "utilization"
          (py_min (inject_Z (prior_admissions_12m features) * 0.08) 0.30)
          (int_str (prior_admissions_12m features)) (Some "0") false]
     else [])
    ++ (if (4 <? length_of_stay features)%Z then
          [mkContributingFactor "length_of_stay" "clinical"
             (if (7 <? length_of_stay features)%Z then 0.10 else 0.05)
             (int_str (length_of_stay features) ++ " days") (Some "<= 4 days") false]
        else [])
    ++ (if (2 <? charlson_comorbidity_index features)%Z then
          [mkContributingFactor "charlson_comorbidity_index" "clinical"
             (inject_Z (charlson_comorbidity_index features) * 0.03)
             (int_str (charlson_comorbidity_index features)) (Some "0-2") false]
        else [])
    ++ (if (5 <? polypharmacy_count features)%Z then
          [mkContributingFactor "polypharmacy_count" "clinical"
             (if (10 <? polypharmacy_count features)%Z then 0.08 else 0.04)
             (int_str (polypharmacy_count features) ++ " medications") (Some "<= 5") true]
        else [])
    ++ (if Qltb (social_support_score features) 0.6 then
          [mkContributingFactor "social_support_score" "social"
             ((1 - social_support_score features) * 0.08)
             (fmt_fixed 2 (social_support_score features)) (Some ">= 0.6") true]
        else []))%list in
  firstn 5 (sort_desc weight factors).

Record Intervention := mkIntervention {
  intervention_id : string;
  iv_name : string;
  iv_description : string;
  target_factors : list string;
  estimated_risk_reduction : Q;
  evidence_level : string;
  implementation_difficulty : string
}.

(** [self.interventions] *)
Definition interventions : list Intervention := [
  mkIntervention "int-001" "Transitional Care Management"
    "Post-discharge follow-up within 7 days with care coordinator"
    ["discharge_disposition"; "prior_admissions_12m"] 0.18 "A" "moderate";
  mkIntervention "int-002" "Medication Reconciliation"
    "Comprehensive medication review and reconciliation at discharge"
    ["polypharmacy_count"] 0.12 "A" "easy";
  mkIntervention "int-003" "Home Health Services"
    "Post-discharge home health nursing visits"
    ["social_support_score"; "age"] 0.15 "B" "moderate";
  mkIntervention "int-004" "Care Coordination"
    "Dedicated care coordinator assignment for high-risk patients"
    ["prior_admissions_12m"; "ed_visits_6m"; "charlson_comorbidity_index"] 0.10 "B" "complex";
  mkIntervention "int-005" "Telemedicine Follow-up"
    "Virtual check-in within 48 hours of discharge"
    ["discharge_disposition"] 0.08 "B" "easy"].

(** The elements of [set(l)] (one copy of each). *)
Fixpoint str_dedup (l : list string) : list string :=
  match l with
  | [] => []
  | x :: r => if existsb (String.eqb x) r then str_dedup r else x :: str_dedup r
  end.

(** [len(set(targets) & names)] *)
Definition overlap_count (targets names : list string) : nat :=
  length (filter (fun t => existsb (String.eqb t) names) (str_dedup targets)).

(** The number of interventions kept for a tier. *)
Definition keep_for (risk_tier : RiskTier) : nat :=
  match risk_tier with CRITICAL => 4 | HIGH => 3 | _ => 2 end.

(** [scored_interventions] of [_recommend_interventions]: the
    [(score, intervention)] pairs kept by the loop, in catalogue order. *)
Definition score_interventions (risk_tier : RiskTier) (factor_names : list string)
    : list (Q * Intervention) :=
  flat_map (fun iv =>
              let overlap := overlap_count (target_factors iv) factor_names in
              if (0 <? overlap)%nat
                 || match risk_tier with HIGH | CRITICAL => true | _ => false end
              then [(inject_Z (Z.of_nat overlap) * estimated_risk_reduction iv, iv)]
              else []) interventions.

(** [_recommend_interventions(risk_tier, contributing_factors)] *)
Definition _recommend_interventions (risk_tier : RiskTier)
    (contributing_factors : list ContributingFactor) : list Intervention :=
  match risk_tier with
  | LOW => []
  | _ =>
      let factor_names := map factor_name contributing_factors in
      let scored_interventions := score_interventions risk_tier factor_names in
      map snd (firstn (keep_for risk_tier) (sort_desc fst scored_interventions))
  end.

End ReadmissionExplain.

(* ------------------------------------------------------------------ *)
(** ** [coco/workflows/care_gap_workflow.py]: the rules engine *)

Module CareGapRules.
Import CareGaps.

(** The feature dict [_evaluate_gaps] reads; the dates are the
    [strptime(..., "%Y-%m-%d").date()] of the stored strings, [None] when
    the key is absent or falsy. *)
Record CareFeatures := mkCareFeatures {
  cf_patient_id : string;
  age : Z;
  gender : string;
  has_diabetes : bool;
  has_hypertension : bool;
  last_colonoscopy : option (Z * Z * Z);
  last_mammogram : option (Z * Z * Z);
  last_hba1c : option (Z * Z * Z);
  last_flu_shot : option (Z * Z * Z);
  medication_count : nat;
  condition_count : nat
}.

(** A [CareGap(...)] call waiting for its [gap_id]. *)
Definition gap_with (ty : CareGapType) (nm desc src : string) (due : Z * Z * Z)
    (prio : CareGapPriority) (icd cpt : list string) (impact : Q) : string -> CareGap :=
  fun gid => mkCareGap gid ty nm desc src due prio icd cpt impact.

(** The [gaps.append(...)] calls of [_evaluate_gaps] on day [today], in order. *)
Definition pending_gaps (today : Z * Z * Z) (features : CareFeatures) : list (string -> CareGap) :=
  let colorectal :=
    if (45 <=? age features)%Z && (age features <=? 75)%Z then
      match last_colonoscopy features with
      | Some last_date =>
          let next_due := date_add last_date (365 * 10) in
          if date_le next_due (date_add today 90) then
            [gap_with SCREENING "Colorectal Cancer Screening"
               "Due for colonoscopy based on 10-year screening interval" "USPSTF 2021"
               next_due P_HIGH ["Z12.11"] ["45378"; "45380"] 0.85]
          else []
      | None =>
          [gap_with SCREENING "Colorectal Cancer Screening"
             "No colonoscopy on record; screening recommended for age 45+" "USPSTF 2021"
             today P_HIGH ["Z12.11"] ["45378"; "45380"] 0.90]
      end
    else [] in
  let breast :=
    if String.eqb (gender features) "female" && (40 <=? age features)%Z && (age features <=? 74)%Z then
      match last_mammogram features with
      | Some last_date =>
          let next_due := date_add last_date (365 * 2) in
          if date_le next_due (date_add today 90) then
            [gap_with SCREENING "Breast Cancer Screening"
               "Due for mammography based on 2-year screening interval" "USPSTF 2024"
               next_due P_HIGH ["Z12.31"] ["77067"] 0.80]
          else []
      | None => []
      end
    else [] in
  let diabetic :=
    if has_diabetes features then
      ((match last_hba1c features with
       | Some last_date =>
           let next_due := date_add last_date 180 in
           if date_le next_due (date_add today 30) then
             [gap_with LAB_TEST "HbA1c Testing"
                "Due for HbA1c monitoring per diabetes management guidelines" "HEDIS 2024"
                next_due P_HIGH ["E11.9"] ["83036"] 0.75]
           else []
       | None => []
       end)
      ++ [gap_with SCREENING "Diabetic Eye Exam"
            "Annual dilated eye exam recommended for diabetes management" "ADA Standards 2024"
            (date_add today 60) P_MEDIUM ["E11.9"; "Z13.5"] ["92004"; "92014"] 0.70])%list
    else [] in
  let flu :=
    match last_flu_shot features with
    | Some last_date =>
        if (365 <? date_sub_days today last_date)%Z then
          [gap_with VACCINATION "Annual Influenza Vaccination" "Due for annual flu shot"
             "ACIP 2024" today P_MEDIUM ["Z23"] ["90688"] 0.60]
        else []
    | None => []
    end in
  let pneumococcal :=
    if (65 <=? age features)%Z then
      [gap_with VACCINATION "Pneumococcal Vaccination"
         "Pneumococcal vaccine recommended for adults 65+" "ACIP 2024"
         (date_add today 30) P_MEDIUM ["Z23"] ["90670"; "90671"] 0.55]
    else [] in
  (colorectal ++ breast ++ diabetic ++ flu ++ pneumococcal)%list.

(** [f"gap-{uuid.uuid4().hex[:8]}"] for the [k]-th gap created is
    ["gap-" ++ uid k]. *)
Fixpoint assign_gap_ids (uid : nat -> string) (k : nat) (l : list (string -> CareGap)) : list CareGap :=
  match l with
  | [] => []
  | mk :: rest => mk ("gap-" ++ uid k) :: assign_gap_ids uid (S k) rest
  end.

(** [_evaluate_gaps(features)] with [date.today()] = [today]. *)
Definition _evaluate_gaps (today : Z * Z * Z) (uid : nat -> string) (features : CareFeatures)
    : list CareGap :=
  assign_gap_ids uid 0 (pending_gaps today features).

Definition is_high_priority (g : CareGap) : bool :=
  existsb (priority_eqb (priority g)) [P_CRITICAL; P_HIGH].

(** [_generate_recommendations(gaps)] *)
Definition _generate_recommendations (gaps : list CareGap) : list string :=
  let high_priority := filter is_high_priority gaps in
  let r1 := match high_priority with
            | [] => []
            | _ => ["Schedule appointments for " ++ nat_str (length high_priority)
                    ++ " high-priority care gaps within 30 days"]
            end in
  let screenings := filter (fun g => type_eqb (gap_type g) SCREENING) gaps in
  let r2 := match screenings with
            | [] => []
            | _ => ["Preventive screenings needed: " ++ String.concat ", " (map name screenings)]
            end in
  let vaccinations := filter (fun g => type_eqb (gap_type g) VACCINATION) gaps in
  let r3 := match vaccinations with
            | [] => []
            | _ => ["Vaccinations due: " ++ String.concat ", " (map name vaccinations)]
            end in
  let r4 := if existsb (fun g => type_eqb (gap_type g) LAB_TEST) gaps
            then ["Order pending laboratory tests for chronic disease monitoring"] else [] in
  (r1 ++ r2 ++ r3 ++ r4)%list.

End CareGapRules.

(* ------------------------------------------------------------------ *)
(** ** [coco/workflows/summarization_workflow.py]: [_build_citations] *)

Module Citations.

(** The fields of a retrieved document dict that [_build_citations] reads. *)
Record RetrievedDoc := mkRetrievedDoc {
  doc_id : string;
  doc_type : string;
  doc_date : string;
  doc_content : string;
  doc_relevance_score : Q;
  doc_author : option string
}.

Section BuildCitations.

(** [datetime] and [datetime.fromisoformat]: the parser returns the date or
    raises (a [ValueError] on text that is not an ISO date). What follows
    holds for every parser. *)
Variable datetime : Type.
Variable fromisoformat : string -> result datetime.

(** [Citation] *)
Record Citation := mkCitation {
  source_id : string;
  source_type : string;
  source_date : datetime;
  relevance_score : Q;
  snippet : string;
  author : option string
}.

(** The [Citation(...)] call of the loop body, once the date is parsed. *)
Definition citation_of (doc : RetrievedDoc) (date : datetime) : Citation :=
  {| source_id := doc_id doc; source_type := doc_type doc;
     source_date := date; relevance_score := doc_relevance_score doc;
     snippet := if (200 <? py_len (doc_content doc))%nat
                then py_slice_to (doc_content doc) 200 ++ "..."
                else doc_content doc;
     author := doc_author doc |}.

(** The [for doc in documents] loop, appending to [citations]; an exception
    of [fromisoformat] leaves the method. *)
Fixpoint build_citations_loop (documents : list RetrievedDoc) (citations : list Citation)
    : result (list Citation) :=
  match documents with
  | [] => Ok citations
  | doc :: rest =>
      date <- fromisoformat (doc_date doc) ;;
      build_citations_loop rest (citations ++ [citation_of doc date])%list
  end.

(** [_build_citations(documents)] *)
Definition _build_citations (documents : list RetrievedDoc) : result (list Citation) :=
  build_citations_loop documents [].

End BuildCitations.

End Citations.

(* ------------------------------------------------------------------ *)
(** ** Readings of the spec, to be compared with the code *)

Module SpecReadings.
Import Readmission.

(** The risk model read as a sum of one term per feature: the step terms
    of length of stay, polypharmacy and age and the disposition table
    beside the linear terms. *)
Definition los_term (los : Z) : Q :=
  if (7 <? los)%Z then 0.10 else if (4 <? los)%Z then 0.05 else 0.
Definition polypharmacy_term (n : Z) : Q :=
  if (10 <? n)%Z then 0.08 else if (5 <? n)%Z then 0.04 else 0.
Definition age_term (a : Z) : Q :=
  if (75 <? a)%Z then 0.05 else if (65 <? a)%Z then 0.02 else 0.
Definition disposition_term (d : string) : Q := dict_get disposition_risk d 0.05.

Definition additive_score (f : Features) : Q :=
  0.05 + 0.08 * inject_Z (prior_admissions_12m f) + los_term (length_of_stay f)
  + 0.03 * inject_Z (charlson_comorbidity_index f) + 0.04 * inject_Z (ed_visits_6m f)
  + polypharmacy_term (polypharmacy_count f) + disposition_term (discharge_disposition f)
  + 0.08 * (1 - social_support_score f) + age_term (age f).

(** The fields [_run_model_inference] reads. *)
Definition model_inputs (f : Features) :=
  (prior_admissions_12m f, length_of_stay f, charlson_comorbidity_index f, ed_visits_6m f,
   polypharmacy_count f, discharge_disposition f, social_support_score f, age f).

(** The template the spec's enum switch selects. *)
Definition selected_template (st : Summarization.SummaryType) : string :=
  match st with
  | Summarization.COMPREHENSIVE => Summarization.template_comprehensive
  | Summarization.MEDICATION => Summarization.template_medication
  | Summarization.LAB_TREND => Summarization.template_lab_trend
  | _ => Summarization.template_default
  end.

Definition four_templates : list string :=
  [Summarization.template_comprehensive; Summarization.template_medication;
   Summarization.template_lab_trend; Summarization.template_default].

End SpecReadings.

(** Concrete inputs used by the examples below. *)
Module Fixtures.
Import Readmission.

(** A 45-year-old discharged home, no prior use, full social support, with
    a given length of stay. *)
Definition features_with_los (los : Z) : Features :=
  mkFeatures "PT-001" "ENC-0001" 0 los 0 0 3 "home" "heart_failure" 1 45 "medicare"
    "2024-01-01T00:00:00".

Definition sample_features : Features :=
  mkFeatures "PT-002" "ENC-0002" 2 9 4 1 12 "snf" "copd" 0.4 80 "medicaid"
    "2024-01-01T00:00:00".

End Fixtures.

(* ================================================================== *)
(** * Properties *)

(** Phase gates: the registry literal, read off. *)

(** C6: a fresh [PhaseGateRegistry] holds exactly the keys 1..12 in order,
    each gate's [phase_number] is its key, and its [quarter] is Q1 for
    phases 1-3, Q2 for 4-6, Q3 for 7-9 and Q4 for 10-12. *)
Theorem registry_keys_numbers_quarters :
  map fst PhaseGates.registry_gates = [1; 2; 3; 4; 5; 6; 7; 8; 9; 10; 11; 12]%Z /\
  Forall (fun kv => PhaseGates.phase_number (snd kv) = fst kv /\
                    PhaseGates.quarter (snd kv) = PhaseGates.expected_quarter (fst kv))
    PhaseGates.registry_gates.
Proof.
  split.
  - reflexivity.
  - repeat constructor.
Qed.

(** Cost telemetry: the two readings of [METRICS]. *)

Lemma Qltb_iff (a b : Q) : Qltb a b = true <-> a < b.
Proof.
  unfold Qltb. rewrite negb_true_iff. split.
  - intro H. apply Qnot_le_lt. intro H'. apply Qle_bool_iff in H'. congruence.
  - intro H. destruct (Qle_bool b a) eqn:E; [|reflexivity].
    apply Qle_bool_iff in E. exfalso. apply (Qlt_not_le a b); assumption.
Qed.

Lemma Qle_bool_false_iff (a b : Q) : Qle_bool a b = false <-> b < a.
Proof.
  split.
  - intro H. apply Qnot_le_lt. intro H'. apply Qle_bool_iff in H'. congruence.
  - intro H. destruct (Qle_bool a b) eqn:E; [|reflexivity].
    apply Qle_bool_iff in E. exfalso. apply (Qlt_not_le b a); assumption.
Qed.

Lemma NoDup_fst_unique {A} (l : list (string * A)) k a b :
  NoDup (map fst l) -> In (k, a) l -> In (k, b) l -> a = b.
Proof.
  induction l as [|[k' v] l IH]; simpl; intros Hnd Ha Hb; [contradiction|].
  inversion Hnd as [|x xs Hnin Hnd']; subst.
  destruct Ha as [Ha|Ha]; destruct Hb as [Hb|Hb].
  - congruence.
  - inversion Ha; subst. exfalso. apply Hnin. apply (in_map fst) in Hb. exact Hb.
  - inversion Hb; subst. exfalso. apply Hnin. apply (in_map fst) in Ha. exact Ha.
  - eauto.
Qed.

Lemma lookup_Forall2 {A B} (R : string * A -> string * B -> Prop) ms l name cfg :
  Forall2 R ms l -> (forall kv e, R kv e -> fst e = fst kv) ->
  NoDup (map fst ms) -> In (name, cfg) ms ->
  exists e, lookup name l = Some e /\ R (name, cfg) (name, e).
Proof.
  intros HF Hkey. induction HF as [|[k v] [k' e] ms l Hr HF IH]; simpl; intros Hnd Hin;
    [contradiction|].
  pose proof (Hkey _ _ Hr) as Hk; simpl in Hk; subst k'.
  inversion Hnd as [|x xs Hnin Hnd']; subst.
  destruct (String.eqb name k) eqn:E.
  - apply String.eqb_eq in E; subst k. exists e. split; [reflexivity|].
    destruct Hin as [Hin|Hin].
    + inversion Hin; subst. exact Hr.
    + exfalso. apply Hnin. apply (in_map fst) in Hin. exact Hin.
  - destruct Hin as [Hin|Hin].
    + inversion Hin; subst. rewrite String.eqb_refl in E. discriminate.
    + apply IH; assumption.
Qed.

Section ContractStatus.
Import CostTelemetry.

Definition status_rel (kv : string * MetricConfig) (e : string * MetricStatus) : Prop :=
  fst e = fst kv /\ ms_config (snd e) = snd kv /\
  ms_status (snd e) = if Qltb (current_value (snd kv)) (threshold (snd kv))
                      then "healthy" else "warning".

Lemma status_loop_ok ms b r :
  status_loop ms b = Ok r ->
  Forall2 status_rel ms (fst r) /\
  snd r = b && forallb (fun kv => Qltb (current_value (snd kv)) (threshold (snd kv))) ms.
Proof.
  revert b r. induction ms as [|[name cfg] ms IH]; simpl; intros b r H.
  - inversion H; subst. simpl. rewrite andb_true_r. split; [constructor|reflexivity].
  - destruct (py_div _ _) as [h|e]; simpl in H; [|discriminate].
    destruct (status_loop ms _) as [r'|e] eqn:E; simpl in H; [|discriminate].
    inversion H; subst. simpl.
    destruct (IH _ _ E) as [HF Hb]. split.
    + constructor; [|exact HF]. unfold status_rel. simpl. auto.
    + rewrite Hb. destruct (Qltb _ _), b; reflexivity.
Qed.

Lemma trigger_names ms now :
  map t_metric (triggers (check_kill_criteria ms now))
  = map fst (filter (fun kv => Qle_bool (threshold (snd kv)) (current_value (snd kv))) ms).
Proof.
  unfold check_kill_criteria. simpl. induction ms as [|[name cfg] ms IH]; simpl; [reflexivity|].
  destruct (Qle_bool _ _); simpl; rewrite ?IH; reflexivity.
Qed.

Lemma filter_nil_forallb {A} (g : A -> bool) l :
  filter g l = [] <-> forallb (fun x => negb (g x)) l = true.
Proof.
  induction l as [|x l IH]; simpl; [tauto|].
  destruct (g x); simpl; [split; discriminate|exact IH].
Qed.

End ContractStatus.

(** C10: for every metric table with distinct names (as a dict's keys are),
    when [get_contract_status] returns, it lists the metrics in order; a
    metric is "healthy" exactly when [current_value < threshold],
    [check_kill_criteria] lists it exactly when [threshold <= current_value]
    (the boundary counts as triggered), so "healthy" holds exactly when it
    is not listed; and [overall_status] is "healthy" exactly when
    [kill_triggered] is false. *)
Theorem contract_status_complements_kill_criteria :
  forall (ms : list (string * CostTelemetry.MetricConfig)) now1 now2 st,
  NoDup (map fst ms) ->
  CostTelemetry.get_contract_status ms now1 = Ok st ->
  let kc := CostTelemetry.check_kill_criteria ms now2 in
  map fst (CostTelemetry.metrics st) = map fst ms /\
  (forall name cfg, In (name, cfg) ms ->
     exists e, lookup name (CostTelemetry.metrics st) = Some e /\
       (CostTelemetry.ms_status e = "healthy" <->
          CostTelemetry.current_value cfg < CostTelemetry.threshold cfg) /\
       (In name (map CostTelemetry.t_metric (CostTelemetry.triggers kc)) <->
          CostTelemetry.threshold cfg <= CostTelemetry.current_value cfg) /\
       (CostTelemetry.ms_status e = "healthy" <->
          ~ In name (map CostTelemetry.t_metric (CostTelemetry.triggers kc)))) /\
  (CostTelemetry.overall_status st = "healthy" <-> CostTelemetry.kill_triggered kc = false).
Proof.
  intros ms now1 now2 st Hnd H. cbv zeta.
  remember (CostTelemetry.check_kill_criteria ms now2) as kc eqn:Hkc.
  unfold CostTelemetry.get_contract_status in H.
  destruct (CostTelemetry.status_loop ms true) as [r|e] eqn:E; simpl in H; [|discriminate].
  inversion H; subst st; clear H. simpl.
  destruct (status_loop_ok _ _ _ E) as [HF Hb].
  assert (Htrig : forall name cfg, In (name, cfg) ms ->
            (In name (map CostTelemetry.t_metric (CostTelemetry.triggers kc)) <->
             CostTelemetry.threshold cfg <= CostTelemetry.current_value cfg)).
  { intros name cfg Hin. rewrite Hkc, trigger_names. split.
    - intro Hm. apply in_map_iff in Hm. destruct Hm as [[k c] [Hk Hf]]. simpl in Hk; subst k.
      apply filter_In in Hf. destruct Hf as [Hf Hle]. simpl in Hle.
      rewrite (NoDup_fst_unique ms name cfg c Hnd Hin Hf). apply Qle_bool_iff. exact Hle.
    - intro Hle. apply (in_map fst (filter _ ms) (name, cfg)). apply filter_In.
      split; [exact Hin|]. apply Qle_bool_iff. exact Hle. }
  split; [|split].
  - clear -HF. induction HF as [|kv e ms l [Hk _] HF IH]; simpl; [reflexivity|].
    rewrite Hk, IH. reflexivity.
  - intros name cfg Hin.
    destruct (lookup_Forall2 status_rel ms (fst r) name cfg HF
                (fun kv e H => proj1 H) Hnd Hin) as [e [Hl [_ [_ Hs]]]].
    simpl in Hs. exists e. split; [exact Hl|].
    assert (Hst : CostTelemetry.ms_status e = "healthy" <->
                  CostTelemetry.current_value cfg < CostTelemetry.threshold cfg).
    { rewrite Hs, <- Qltb_iff. destruct (Qltb _ _); split; congruence. }
    split; [exact Hst|]. split; [exact (Htrig _ _ Hin)|].
    rewrite Hst, (Htrig _ _ Hin). split.
    + intros Hlt Hle. apply (Qlt_not_le _ _ Hlt Hle).
    + intro Hn. apply Qnot_le_lt. exact Hn.
  - rewrite Hkc. unfold CostTelemetry.check_kill_criteria. simpl.
    rewrite Hb. simpl.
    assert (Hlen : forall l : list CostTelemetry.Trigger, (0 <? length l)%nat = false <-> l = []).
    { intros [|x l]; cbn; split; intro Hx; (reflexivity || discriminate). }
    rewrite Hlen.
    assert (Hfm : flat_map (fun kv : string * CostTelemetry.MetricConfig =>
                     let '(metric_name, config) := kv in
                     if Qle_bool (CostTelemetry.threshold config) (CostTelemetry.current_value config)
                     then [CostTelemetry.mkTrigger metric_name (CostTelemetry.current_value config)
                             (CostTelemetry.threshold config) (CostTelemetry.owner config)
                             (CostTelemetry.kill_trigger config)]
                     else []) ms = [] <->
                  filter (fun kv => Qle_bool (CostTelemetry.threshold (snd kv))
                                      (CostTelemetry.current_value (snd kv))) ms = []).
    { clear. induction ms as [|[n c] ms IH]; simpl; [tauto|].
      destruct (Qle_bool _ _); simpl; [split; discriminate|exact IH]. }
    rewrite Hfm, filter_nil_forallb.
    replace (forallb (fun x => negb (Qle_bool (CostTelemetry.threshold (snd x))
                                               (CostTelemetry.current_value (snd x)))) ms)
      with (forallb (fun kv => Qltb (CostTelemetry.current_value (snd kv))
                                    (CostTelemetry.threshold (snd kv))) ms)
      by reflexivity.
    destruct (forallb _ ms); split; congruence.
Qed.

(** C10 at [CostTelemetryContract.METRICS]. *)
Lemma contract_status_complements_kill_criteria_witness :
  exists st, CostTelemetry.get_contract_status CostTelemetry.METRICS "2024-01-01T00:00:00" = Ok st /\
  CostTelemetry.overall_status st = "warning" /\
  (CostTelemetry.overall_status st = "healthy" <->
   CostTelemetry.kill_triggered
     (CostTelemetry.check_kill_criteria CostTelemetry.METRICS "2024-01-01T00:00:01") = false).
Proof.
  eexists. split; [vm_compute; reflexivity|]. split; [reflexivity|].
  refine (proj2 (proj2 (contract_status_complements_kill_criteria
            CostTelemetry.METRICS "2024-01-01T00:00:00" "2024-01-01T00:00:01" _ _ _))).
  - vm_compute. repeat constructor; simpl; intuition discriminate.
  - vm_compute. reflexivity.
Defined.

(** Python [min] and [max] on rationals. *)

Lemma Qltb_false (a b : Q) : Qltb a b = false -> b <= a.
Proof. unfold Qltb. rewrite negb_false_iff. apply Qle_bool_iff. Qed.

Lemma py_max_ge_l a b : a <= py_max a b.
Proof.
  unfold py_max. destruct (Qltb a b) eqn:E.
  - apply Qlt_le_weak. apply Qltb_iff. exact E.
  - apply Qle_refl.
Qed.

Lemma py_max_ge_r a b : b <= py_max a b.
Proof.
  unfold py_max. destruct (Qltb a b) eqn:E; [apply Qle_refl|]. apply Qltb_false. exact E.
Qed.

Lemma py_max_cases a b : py_max a b = a \/ py_max a b = b.
Proof. unfold py_max. destruct (Qltb a b); auto. Qed.

Lemma py_min_le_l a b : py_min a b <= a.
Proof.
  unfold py_min. destruct (Qltb b a) eqn:E.
  - apply Qlt_le_weak. apply Qltb_iff. exact E.
  - apply Qle_refl.
Qed.

Lemma py_min_le_r a b : py_min a b <= b.
Proof.
  unfold py_min. destruct (Qltb b a) eqn:E; [apply Qle_refl|]. apply Qltb_false. exact E.
Qed.

Lemma py_min_cases a b : py_min a b = a \/ py_min a b = b.
Proof. unfold py_min. destruct (Qltb b a); auto. Qed.

Lemma py_max_compat a a' b b' : a == a' -> b == b' -> py_max a b == py_max a' b'.
Proof.
  intros Ha Hb. unfold py_max, Qltb.
  assert (E : Qle_bool b a = Qle_bool b' a') by (apply Qleb_comp; assumption).
  rewrite E. destruct (Qle_bool b' a'); assumption.
Qed.

Lemma py_min_compat a a' b b' : a == a' -> b == b' -> py_min a b == py_min a' b'.
Proof.
  intros Ha Hb. unfold py_min, Qltb.
  assert (E : Qle_bool a b = Qle_bool a' b') by (apply Qleb_comp; assumption).
  rewrite E. destruct (Qle_bool a' b'); assumption.
Qed.

(** The clamp and the interval of [_run_model_inference], for any raw sum. *)
Lemma clamp_interval_bounds (base : Q) :
  let risk_score := py_min (py_max base 0.02) 0.95 in
  let margin := 0.05 + 0.10 * (0.5 - Qabs (risk_score - 0.5)) in
  0.02 <= risk_score <= 0.95 /\
  0 <= py_max 0.0 (risk_score - margin) /\
  py_max 0.0 (risk_score - margin) <= risk_score /\
  risk_score <= py_min 1.0 (risk_score + margin) /\
  py_min 1.0 (risk_score + margin) <= 1.
Proof.
  intros r m.
  assert (Hr : 0.02 <= r <= 0.95).
  { subst r. split; [|apply py_min_le_r].
    destruct (py_min_cases (py_max base 0.02) 0.95) as [E|E]; rewrite E;
      [apply py_max_ge_r|]. unfold Qle; simpl; lia. }
  assert (Hm : 0 <= m).
  { subst m. apply (Qabs_case (r - 0.5) (fun a => 0 <= 0.05 + 0.10 * (0.5 - a)));
      intros; lra. }
  clearbody r m.
  split; [exact Hr|].
  split; [eapply Qle_trans; [|apply py_max_ge_l]; unfold Qle; simpl; lia|]. split.
  { destruct (py_max_cases 0.0 (r - m)) as [E|E]; rewrite E; lra. }
  split.
  { destruct (py_min_cases 1.0 (r + m)) as [E|E]; rewrite E; lra. }
  eapply Qle_trans; [apply py_min_le_l|]. unfold Qle; simpl; lia.
Qed.

Lemma weighted_sum_bounds (gaps : list CareGaps.CareGap) :
  Forall (fun g => 0 <= CareGaps.estimated_impact g <= 1) gaps ->
  0 <= sum_Q (map (fun g => CareGaps.priority_weights (CareGaps.priority g)
                            * CareGaps.estimated_impact g) gaps)
    <= inject_Z (Z.of_nat (length gaps)).
Proof.
  induction 1 as [|g gs Hg _ IH]; cbn [map sum_Q length]; [split; apply Qle_refl|].
  rewrite Nat2Z.inj_succ, <- Z.add_1_r, inject_Z_plus.
  assert (Hw : 0 <= CareGaps.priority_weights (CareGaps.priority g)
                      * CareGaps.estimated_impact g <= 1).
  { destruct (CareGaps.priority g); simpl; lra. }
  change (inject_Z 1) with 1. lra.
Qed.

(** C3: [_run_model_inference] returns, for every feature dict, a score
    clamped to [[0.02, 0.95]] and an interval with
    [0 <= ci_lower <= risk_score <= ci_upper <= 1]; [_calculate_risk_score]
    is in [[0, 1]] for impacts in [[0, 1]] and is [0.0] on no gaps. *)
Theorem response_scores_in_unit_interval :
  (forall f : Readmission.Features,
     let out := Readmission._run_model_inference f in
     0.02 <= fst out <= 0.95 /\ 0 <= fst (snd out) /\ fst (snd out) <= fst out /\
     fst out <= snd (snd out) /\ snd (snd out) <= 1) /\
  (forall gaps : list CareGaps.CareGap,
     Forall (fun g => 0 <= CareGaps.estimated_impact g <= 1) gaps ->
     0 <= CareGaps._calculate_risk_score gaps <= 1) /\
  CareGaps._calculate_risk_score [] = 0.0.
Proof.
  split; [|split; [|reflexivity]].
  - intro f. unfold Readmission._run_model_inference. cbv zeta. cbn [fst snd].
    apply clamp_interval_bounds.
  - intros gaps Hg. pose proof (weighted_sum_bounds gaps Hg) as [H0 _].
    destruct gaps as [|g gs]; [split; discriminate|].
    unfold CareGaps._calculate_risk_score.
    set (ws := sum_Q _) in *. set (n := inject_Z (Z.of_nat (length (g :: gs)))) in *.
    assert (Hn : 0 < n * 1.0).
    { subst n. unfold Qlt; simpl. lia. }
    replace (Qltb 0 (n * 1.0)) with true by (symmetry; apply Qltb_iff; exact Hn).
    split; [|eapply Qle_trans; [apply py_min_le_r|]; unfold Qle; simpl; lia].
    destruct (py_min_cases (ws / (n * 1.0)) 1.0) as [E|E]; rewrite E; [|discriminate].
    apply Qle_shift_div_l; [exact Hn|]. rewrite Qmult_0_l. exact H0.
Qed.

(** C3 on a concrete patient and a concrete gap list. *)
Lemma response_scores_in_unit_interval_witness :
  0.02 <= fst (Readmission._run_model_inference Fixtures.sample_features) <= 0.95 /\
  0 <= CareGaps._calculate_risk_score
         [CareGaps.mkCareGap "gap-1" CareGaps.SCREENING "Diabetic Eye Exam" EmptyString "ADA"
            (2024, 3, 1)%Z CareGaps.P_MEDIUM [] [] 0.70]%Q <= 1.
Proof.
  split.
  - exact (proj1 ((proj1 response_scores_in_unit_interval) Fixtures.sample_features)).
  - apply (proj1 (proj2 response_scores_in_unit_interval)).
    repeat constructor; simpl; unfold Qle; simpl; lia.
Defined.

(** C8: [_run_model_inference] is a function of the eight features it
    reads (two calls on feature dicts that agree there, whatever their ids
    and timestamps, give the same score and interval), and
    [_determine_risk_tier] gives equal scores the same tier. *)
Theorem prediction_deterministic :
  (forall f1 f2 : Readmission.Features,
     SpecReadings.model_inputs f1 = SpecReadings.model_inputs f2 ->
     Readmission._run_model_inference f1 = Readmission._run_model_inference f2) /\
  (forall r1 r2 : Q, r1 == r2 ->
     Readmission._determine_risk_tier r1 = Readmission._determine_risk_tier r2).
Proof.
  split.
  - intros f1 f2 H. unfold SpecReadings.model_inputs in H.
    injection H as H1 H2 H3 H4 H5 H6 H7 H8.
    unfold Readmission._run_model_inference.
    rewrite H1, H2, H3, H4, H5, H6, H7, H8. reflexivity.
  - intros r1 r2 H. unfold Readmission._determine_risk_tier.
    assert (E : forall c, Qle_bool c r1 = Qle_bool c r2)
      by (intro c; apply Qleb_comp; [apply Qeq_refl | exact H]).
    rewrite !E. reflexivity.
Qed.

(** C8 on two calls for the same features under different ids. *)
Lemma prediction_deterministic_witness :
  Readmission._run_model_inference Fixtures.sample_features
  = Readmission._run_model_inference
      {| Readmission.patient_id := "PT-999"; Readmission.encounter_id := "ENC-9999";
         Readmission.prior_admissions_12m := 2; Readmission.length_of_stay := 9;
         Readmission.charlson_comorbidity_index := 4; Readmission.ed_visits_6m := 1;
         Readmission.polypharmacy_count := 12; Readmission.discharge_disposition := "snf";
         Readmission.primary_diagnosis_category := "pneumonia";
         Readmission.social_support_score := 0.4; Readmission.age := 80;
         Readmission.insurance_type := "commercial";
         Readmission.feature_timestamp := "2024-02-02T00:00:00" |}
  /\ Readmission._determine_risk_tier (1 # 2) = Readmission._determine_risk_tier (2 # 4).
Proof.
  split.
  - apply (proj1 prediction_deterministic). reflexivity.
  - apply (proj2 prediction_deterministic). reflexivity.
Defined.

(** C4 (counterexample): the score is not linear in length of stay. For the
    same patient with a stay of 4, 5 and 6 days (no clamping involved) one
    more day adds 0.05 once and nothing the next time, which no fixed weight
    on [length_of_stay] gives. *)
Lemma risk_score_not_linear_in_length_of_stay :
  let r := fun los => fst (Readmission._run_model_inference (Fixtures.features_with_los los)) in
  r 4%Z == 0.05 /\ r 5%Z == 0.10 /\ r 6%Z == 0.10 /\
  r 5%Z - r 4%Z == 0.05 /\ r 6%Z - r 5%Z == 0.
Proof. vm_compute. repeat split; reflexivity. Qed.

(** C4 (amended): the score is the clamp to [[0.02, 0.95]] of a constant plus
    one term per feature: linear terms for prior admissions, Charlson index,
    ED visits and social support, step terms for length of stay,
    polypharmacy and age, and a table lookup for the discharge disposition. *)
Theorem risk_score_is_clamped_per_feature_sum (f : Readmission.Features) :
  fst (Readmission._run_model_inference f)
  == py_min (py_max (SpecReadings.additive_score f) 0.02) 0.95.
Proof.
  unfold Readmission._run_model_inference, SpecReadings.additive_score,
    SpecReadings.los_term, SpecReadings.polypharmacy_term, SpecReadings.age_term,
    SpecReadings.disposition_term.
  cbv zeta. cbn [fst].
  apply py_min_compat; [|reflexivity]. apply py_max_compat; [|reflexivity].
  repeat match goal with |- context [if ?c then _ else _] => destruct c end; ring.
Qed.

(** The loop of [batch_predict] makes one prediction per id, in order. *)
Lemma predict_risk_patient_id pid f :
  Readmission.p_patient_id (Readmission.predict_risk pid f) = pid.
Proof.
  unfold Readmission.predict_risk. destruct (Readmission._run_model_inference f). reflexivity.
Qed.

Lemma predict_all_ids draw i ids acc counts :
  map Readmission.p_patient_id (fst (Readmission.predict_all draw i ids acc counts))
  = (map Readmission.p_patient_id acc ++ ids)%list.
Proof.
  revert i acc counts.
  induction ids as [|pid rest IH]; intros i acc counts; cbn [Readmission.predict_all fst].
  - rewrite app_nil_r. reflexivity.
  - rewrite IH, map_app, <- app_assoc. cbn [map app].
    rewrite predict_risk_patient_id. reflexivity.
Qed.

Lemma inject_Z_of_nat_zero (n : nat) : Qeq_bool (inject_Z (Z.of_nat n)) 0 = true -> n = 0%nat.
Proof. intro H. apply Qeq_bool_iff in H. unfold Qeq in H. simpl in H. lia. Qed.

(** C9: [batch_predict] on an empty list divides by [len(predictions) = 0]
    and raises [ZeroDivisionError]; on a non-empty list it returns one
    prediction per id, in order, [total_patients = len(patient_ids)] and the
    mean of the predictions' scores; [analyze_cohort] on an empty cohort
    returns an average of [0.0]. *)
Theorem batch_predict_empty_raises_nonempty_mean :
  (forall version elapsed draw,
     Readmission.batch_predict version elapsed draw [] = Raise ZeroDivisionError) /\
  (forall version elapsed draw patient_ids, patient_ids <> [] ->
     exists resp, Readmission.batch_predict version elapsed draw patient_ids = Ok resp /\
       Readmission.total_patients resp = length patient_ids /\
       map Readmission.p_patient_id (Readmission.predictions resp) = patient_ids /\
       Readmission.average_risk_score resp
       = sum_Q (map Readmission.p_risk_score (Readmission.predictions resp))
         / inject_Z (Z.of_nat (length patient_ids))) /\
  (forall detect gap_types min_priority,
     CareGaps.average_risk_score (CareGaps.analyze_cohort detect [] gap_types min_priority)
     = 0.0).
Proof.
  split; [|split].
  - intros. reflexivity.
  - intros version elapsed draw ids Hne. unfold Readmission.batch_predict.
    pose proof (predict_all_ids draw 0 ids [] (Readmission.mkTierCounts 0 0 0 0)) as Hids.
    destruct (Readmission.predict_all draw 0 ids [] _) as [preds counts].
    simpl in Hids.
    assert (Hlen : length preds = length ids)
      by (rewrite <- Hids; symmetry; apply length_map).
    unfold py_div. rewrite Hlen.
    destruct (Qeq_bool (inject_Z (Z.of_nat (length ids))) 0) eqn:E.
    + apply inject_Z_of_nat_zero, length_zero_iff_nil in E. contradiction.
    + eexists. split; [reflexivity|]. simpl. auto.
  - intros. reflexivity.
Qed.

(** C9 on a batch of two patients and on the empty batch. *)
Lemma batch_predict_empty_raises_nonempty_mean_witness :
  Readmission.batch_predict "readmission-v1" 0 (fun _ => Fixtures.sample_features) []
  = Raise ZeroDivisionError /\
  exists resp, Readmission.batch_predict "readmission-v1" 0 (fun _ => Fixtures.sample_features)
                 ["PT-001"; "PT-002"] = Ok resp /\
               Readmission.total_patients resp = 2%nat.
Proof.
  split.
  - apply (proj1 batch_predict_empty_raises_nonempty_mean).
  - destruct ((proj1 (proj2 batch_predict_empty_raises_nonempty_mean))
                "readmission-v1" 0 (fun _ => Fixtures.sample_features) ["PT-001"; "PT-002"]
                ltac:(discriminate)) as [resp [H1 [H2 _]]].
    exists resp. split; [exact H1 | exact H2].
Defined.

(** Slicing past the end of a string returns the whole string. *)
Lemma utf8_take_all (s : string) (n : nat) : (py_len s <= n)%nat -> utf8_take n s = s.
Proof.
  revert n. induction s as [|c s IH]; intros n Hn; [reflexivity|].
  simpl in *. destruct (utf8_cont c).
  - rewrite IH by lia. reflexivity.
  - destruct n as [|m]; [lia|]. rewrite IH by lia. reflexivity.
Qed.

Lemma py_slice_to_all (s : string) (n : Z) :
  (Z.of_nat (py_len s) <= n)%Z -> py_slice_to s n = s.
Proof.
  intro Hn. unfold py_slice_to.
  replace (0 <=? n)%Z with true by (symmetry; apply Z.leb_le; lia).
  apply utf8_take_all. lia.
Qed.

Lemma py_len_utf8_take (n : nat) (s : string) : py_len (utf8_take n s) = Nat.min n (py_len s).
Proof.
  revert n. induction s as [|c s IH]; intro n; cbn [utf8_take py_len]; [lia|].
  destruct (utf8_cont c) eqn:U.
  - cbn [py_len]. rewrite U, IH. reflexivity.
  - destruct n as [|m]; cbn [py_len]; [reflexivity|]. rewrite U, IH. cbn. reflexivity.
Qed.

Lemma utf8_take_prefix (n : nat) (s : string) : String.prefix (utf8_take n s) s = true.
Proof.
  revert n. induction s as [|c s IH]; intro n; cbn [utf8_take]; [reflexivity|].
  destruct (utf8_cont c); [|destruct n]; cbn [String.prefix]; try reflexivity;
    destruct (Ascii.ascii_dec c c) as [_|N]; [apply IH | contradiction | apply IH | contradiction].
Qed.

Lemma py_slice_to_prefix (s : string) (n : Z) : String.prefix (py_slice_to s n) s = true.
Proof. unfold py_slice_to. destruct (0 <=? n)%Z; apply utf8_take_prefix. Qed.

(** Slicing a non-empty string before its end drops at least one code point. *)
Lemma py_slice_to_shorter (s : string) (n : Z) :
  (0 < py_len s)%nat -> (n < Z.of_nat (py_len s))%Z -> (py_len (py_slice_to s n) < py_len s)%nat.
Proof.
  intros P H. unfold py_slice_to.
  destruct (Z.leb_spec 0 n); rewrite py_len_utf8_take; lia.
Qed.

Lemma templates_nonempty (t : string) :
  In t SpecReadings.four_templates -> (0 < py_len t)%nat.
Proof.
  intro H. unfold SpecReadings.four_templates in H.
  repeat destruct H as [<-|H]; try contradiction; vm_compute; lia.
Qed.

(** No template begins with another one. *)
Lemma templates_not_prefix (t1 t2 : string) :
  In t1 SpecReadings.four_templates -> In t2 SpecReadings.four_templates -> t1 <> t2 ->
  String.prefix t1 t2 = false.
Proof.
  unfold SpecReadings.four_templates. intros H1 H2 N.
  repeat destruct H1 as [<-|H1]; try contradiction;
    repeat destruct H2 as [<-|H2]; try contradiction;
    solve [ contradiction N; reflexivity | vm_compute; reflexivity ].
Qed.

(** C5 (counterexample): with [max_length = 100], the smallest value the
    router accepts, the comprehensive summary is cut to its first 400
    characters, a string that is none of the four templates. *)
Lemma summary_cut_is_not_a_template :
  let s := Summarization._generate_summary [] Summarization.COMPREHENSIVE 100 in
  py_len s = 400%nat /\
  s <> Summarization.template_comprehensive /\ s <> Summarization.template_medication /\
  s <> Summarization.template_lab_trend /\ s <> Summarization.template_default.
Proof.
  cbv zeta. split; [vm_compute; reflexivity|].
  repeat split; intro H; apply (f_equal py_len) in H; vm_compute in H; discriminate.
Qed.

(** C5 (amended): [_generate_summary] returns the first [max_length * 4]
    characters of one of four templates; the template depends only on the
    summary type, never on the documents; the whole template is returned
    exactly when it has at most [max_length * 4] characters, and otherwise
    the result is a prefix of it that is none of the four templates. *)
Theorem summary_is_truncated_template
    (documents : list Summarization.Document) (summary_type : Summarization.SummaryType)
    (max_length : Z) :
  Summarization._generate_summary documents summary_type max_length
  = py_slice_to (SpecReadings.selected_template summary_type) (max_length * 4) /\
  In (SpecReadings.selected_template summary_type) SpecReadings.four_templates /\
  ((Z.of_nat (py_len (SpecReadings.selected_template summary_type)) <= max_length * 4)%Z <->
   Summarization._generate_summary documents summary_type max_length
   = SpecReadings.selected_template summary_type) /\
  ((max_length * 4 < Z.of_nat (py_len (SpecReadings.selected_template summary_type)))%Z ->
   String.prefix (Summarization._generate_summary documents summary_type max_length)
                 (SpecReadings.selected_template summary_type) = true /\
   ~ In (Summarization._generate_summary documents summary_type max_length)
        SpecReadings.four_templates).
Proof.
  assert (E : Summarization._generate_summary documents summary_type max_length
              = py_slice_to (SpecReadings.selected_template summary_type) (max_length * 4))
    by (destruct summary_type; reflexivity).
  assert (I : In (SpecReadings.selected_template summary_type) SpecReadings.four_templates)
    by (unfold SpecReadings.four_templates; destruct summary_type; simpl; tauto).
  set (t := SpecReadings.selected_template summary_type) in *.
  rewrite E. pose proof (templates_nonempty t I) as P.
  split; [reflexivity|]. split; [exact I|]. split.
  - split; [apply py_slice_to_all|].
    intro Heq. destruct (Z_le_gt_dec (Z.of_nat (py_len t)) (max_length * 4)) as [L|L]; [exact L|].
    pose proof (py_slice_to_shorter t (max_length * 4) P ltac:(lia)) as S.
    rewrite Heq in S. lia.
  - intro L. pose proof (py_slice_to_shorter t (max_length * 4) P L) as S.
    split; [apply py_slice_to_prefix|].
    intro Hin. destruct (string_dec (py_slice_to t (max_length * 4)) t) as [Q|Q].
    + rewrite Q in S. lia.
    + pose proof (templates_not_prefix _ _ Hin I Q) as F.
      rewrite py_slice_to_prefix in F. discriminate.
Qed.

(** C5 at the router's default [max_length = 500]: the full comprehensive
    template; at its smallest [max_length = 100]: none of the templates. *)
Lemma summary_is_truncated_template_witness :
  Summarization._generate_summary [] Summarization.COMPREHENSIVE 500
  = Summarization.template_comprehensive /\
  ~ In (Summarization._generate_summary [] Summarization.COMPREHENSIVE 100)
       SpecReadings.four_templates.
Proof.
  split.
  - apply (proj1 (proj1 (proj2 (proj2 (summary_is_truncated_template [] Summarization.COMPREHENSIVE 500))))).
    vm_compute. discriminate.
  - destruct (summary_is_truncated_template [] Summarization.COMPREHENSIVE 100) as (_ & _ & _ & H).
    apply (proj2 (H ltac:(vm_compute; reflexivity))).
Defined.

(** C7 (counterexample): two failures of the care-gap workflow with
    different exceptions both give status 500, but different bodies: the
    router puts [str(e)] into the detail. *)
Lemma care_gap_error_body_depends_on_exception :
  let req := Http.mkRequest "/api/v1/care-gaps/PT-001" "GET" [] in
  let r1 := Http.serve req "2024-01-01T00:00:00"
              (Http.detect_care_gaps (Raise (ValueError "patient not found"))) in
  let r2 := Http.serve req "2024-01-01T00:00:00"
              (Http.detect_care_gaps (Raise (RuntimeError "FHIR server unavailable"))) in
  Http.status_code r1 = 500%Z /\ Http.status_code r2 = 500%Z /\
  Http.content r1 <> Http.content r2.
Proof.
  cbv zeta. split; [reflexivity|]. split; [reflexivity|].
  simpl. intro H. injection H. discriminate.
Qed.

(** C7 (amended): a failure of the care-gap workflow is answered with status
    500 and the body [{"detail": "Care gap detection failed: " + str(e)}],
    which names the exception; only exceptions that reach the global handler
    get the generic body, which does not depend on the exception. *)
Theorem care_gap_failure_is_500_with_detail
    (req : Http.Request) (now : string) (e : py_exc) :
  Http.serve req now (Http.detect_care_gaps (Raise e))
  = {| Http.status_code := 500;
       Http.content := PDict [("detail", PStr ("Care gap detection failed: " ++ exc_str e))] |} /\
  Http.status_code (Http.serve req now (Http.Raised (Http.PyError e))) = 500%Z /\
  (forall e' : py_exc,
     Http.serve req now (Http.Raised (Http.PyError e))
     = Http.serve req now (Http.Raised (Http.PyError e'))).
Proof. split; [reflexivity|]. split; [reflexivity|]. intro e'. reflexivity. Qed.

(** Reading the last element through [rev], as the code does. *)
Lemma rev_last_of {A : Type} (h : A -> string) (d : string) (l : list A) :
  match rev l with x :: _ => h x | [] => d end = last_of h d l.
Proof.
  revert d. induction l as [|x r IH]; intro d; [reflexivity|].
  simpl. rewrite <- (IH (h x)). destruct (rev r); reflexivity.
Qed.

Lemma last_of_snoc {A : Type} (h : A -> string) (d : string) (l : list A) (x : A) :
  last_of h d (l ++ [x])%list = h x.
Proof. revert d. induction l as [|y r IH]; intro d; simpl; auto. Qed.

Lemma chain_ok_snoc (g : list Audit.AuditEntry) (p : string) (e : Audit.AuditEntry) :
  Audit.chain_ok p g -> Audit.hash e = Audit._compute_hash e ->
  Audit.previous_hash e = last_of Audit.hash p g -> Audit.chain_ok p (g ++ [e])%list.
Proof.
  revert p. induction g as [|x r IH]; intros p Hg He Hp; simpl in *.
  - auto.
  - destruct Hg as (H1 & H2 & H3). auto.
Qed.

Lemma run_calls_chain_ok (calls : list Audit.log_call) (g : list Audit.AuditEntry) :
  Audit.chain_ok Audit._genesis_hash g ->
  Audit.chain_ok Audit._genesis_hash (Audit.run_calls g calls).
Proof.
  revert g. induction calls as [|c cs IH]; intros g Hg; [exact Hg|].
  simpl. apply IH. apply chain_ok_snoc; [exact Hg | reflexivity |].
  simpl. unfold Audit._get_previous_hash. apply rev_last_of.
Qed.

Lemma verify_from_chain_ok (es : list Audit.AuditEntry) :
  forall i prev p, Audit.chain_ok p es ->
  (forall q, prev = Some q -> Audit.hash q = p) ->
  Audit.verify_from i prev es = [].
Proof.
  induction es as [|e rest IH]; intros i prev p Hc Hq; [reflexivity|].
  destruct Hc as (H1 & H2 & H3). simpl.
  assert (E1 : String.eqb (Audit.hash e) (Audit._compute_hash e) = true)
    by (apply String.eqb_eq; exact H1).
  rewrite E1.
  rewrite (IH (S i) (Some e) (Audit.hash e) H3) by (intros q Hs; injection Hs as <-; reflexivity).
  destruct prev as [q|]; [|reflexivity].
  rewrite H2, (Hq q eq_refl), String.eqb_refl. reflexivity.
Qed.

Lemma wf_run_extends (calls : list WorkflowAudit.wf_call) :
  forall chain, exists added,
    WorkflowAudit.wf_run chain calls = (chain ++ added)%list /\
    WorkflowAudit.wf_matches (last_of WorkflowAudit.wf_hash "genesis" chain) added calls.
Proof.
  induction calls as [|c cs IH]; intro chain.
  - exists []. rewrite app_nil_r. split; [reflexivity | exact I].
  - simpl. unfold WorkflowAudit._add_audit_entry.
    set (e := {| WorkflowAudit.wf_id := _ |}).
    destruct (IH (chain ++ [e])%list) as [added [Hrun Hm]].
    exists (e :: added). rewrite Hrun, <- app_assoc. split; [reflexivity|].
    rewrite last_of_snoc in Hm. simpl.
    repeat split; try reflexivity; [|exact Hm].
    unfold WorkflowAudit._generate_audit_hash. rewrite rev_last_of. reflexivity.
Qed.

(** C1 (counterexample): the hash of a workflow-local audit entry does not
    commit to its operation or id. Two entries with different operations and
    ids, the same details and the same hashing time get the same hash, so
    rewriting an entry's operation leaves every hash of the chain valid. *)
Lemma workflow_hash_ignores_operation :
  let det := [("patient_id", PStr "PT-001"); ("gaps_found", PInt 2)] in
  let c1 := WorkflowAudit._add_audit_entry [] "detect_gaps" det "a1b2c3" "2024-01-01T00:00:00"
              "2024-01-01T00:00:00.000001" in
  let c2 := WorkflowAudit._add_audit_entry [] "close_gap" det "d4e5f6" "2024-01-01T00:00:00"
              "2024-01-01T00:00:00.000001" in
  map WorkflowAudit.wf_operation c1 <> map WorkflowAudit.wf_operation c2 /\
  map WorkflowAudit.wf_id c1 <> map WorkflowAudit.wf_id c2 /\
  map WorkflowAudit.wf_hash c1 = map WorkflowAudit.wf_hash c2.
Proof. cbv zeta. split; [discriminate|]. split; [discriminate | reflexivity]. Qed.

(** C1 (amended): after any sequence of [log_operation] calls, from any
    loggers, on an empty class-level chain, each entry's hash is
    [_compute_hash] of its own fields and its [previous_hash] is the
    preceding entry's hash (the genesis constant first), and [verify_chain]
    reports [verified = True] with no failures. After any sequence of
    [_add_audit_entry] calls on an empty workflow chain, each entry holds
    its call's id, timestamp, operation and details, and its hash is the
    first 16 hex digits of SHA-256 of [previous:str(details):time], with
    [previous] the preceding entry's hash ("genesis" first). That hash
    covers the details and the previous hash only. *)
Theorem audit_chains_hash_linked :
  (forall (calls : list Audit.log_call) (now : string),
     let g := Audit.run_calls [] calls in
     Audit.chain_ok Audit._genesis_hash g /\
     Audit.verified (Audit.verify_chain g now) = true /\
     Audit.failures (Audit.verify_chain g now) = []) /\
  (forall calls : list WorkflowAudit.wf_call,
     WorkflowAudit.wf_matches "genesis" (WorkflowAudit.wf_run [] calls) calls).
Proof.
  split.
  - intros calls now g.
    assert (Hg : Audit.chain_ok Audit._genesis_hash g) by (apply run_calls_chain_ok; exact I).
    assert (Hv : Audit.verify_from 0 None g = [])
      by (apply (verify_from_chain_ok g 0 None Audit._genesis_hash Hg); discriminate).
    unfold Audit.verify_chain. rewrite Hv. auto.
  - intro calls. destruct (wf_run_extends calls []) as [added [Hrun Hm]].
    rewrite Hrun. exact Hm.
Qed.

(** C2: [log_operation] returns the class-level chain and the instance's
    local chain each extended by exactly the new entry, every earlier entry
    unchanged; [_add_audit_entry] extends the workflow chain by exactly one
    entry, which holds the call's operation and details. *)
Theorem audit_log_append_only :
  (forall (self : Audit.AuditLogger) (global_chain : list Audit.AuditEntry)
          (op : string) (act : option string) (det : list (string * pyval)) (eid ts : string),
     exists entry self',
       Audit.log_operation self global_chain op act det eid ts
       = (entry, self', (global_chain ++ [entry])%list) /\
       Audit.local_chain self' = (Audit.local_chain self ++ [entry])%list /\
       Audit.operation entry = op /\ Audit.previous_hash entry = Audit._get_previous_hash global_chain) /\
  (forall (chain : list WorkflowAudit.WfEntry) (op : string) (det : list (string * pyval))
          (eid ts ts_hash : string),
     exists entry,
       WorkflowAudit._add_audit_entry chain op det eid ts ts_hash = (chain ++ [entry])%list /\
       WorkflowAudit.wf_operation entry = op /\ WorkflowAudit.wf_details entry = det).
Proof.
  split.
  - intros. eexists _, _. split; [reflexivity|]. auto.
  - intros. eexists. split; [reflexivity|]. auto.
Qed.

(** Checks of the runtime helpers against CPython's results. *)
Example fmt_fixed_checks :
  fmt_fixed 4 0.0018 = "0.0018" /\ fmt_fixed 4 0.034 = "0.0340" /\
  fmt_fixed 4 (-0.00001) = "-0.0000" /\ fmt_fixed 0 2.5 = "2" /\
  fmt_fixed 2 0.125 = "0.12" /\ fmt_fixed 2 1000.0 = "1000.00".
Proof. vm_compute. repeat split. Qed.

Example date_checks :
  (date_add (2019, 6, 15) 3650 = (2029, 6, 12) /\ date_add (2023, 8, 20) 730 = (2025, 8, 19) /\
   date_add (2023, 10, 15) 180 = (2024, 4, 12) /\ date_add (2024, 2, 28) 1 = (2024, 2, 29) /\
   date_add (2000, 3, 1) (-1) = (2000, 2, 29) /\ toordinal (1, 1, 1) = 1 /\
   toordinal (2024, 1, 1) = 738886)%Z.
Proof. vm_compute. repeat split. Qed.

(** ** More of the code: the audit logger *)

Lemma str_lower_app (a b : string) :
  Audit.str_lower (a ++ b) = (Audit.str_lower a ++ Audit.str_lower b)%string.
Proof. induction a as [|c a IH]; simpl; [reflexivity | rewrite IH; reflexivity]. Qed.

Lemma prefix_app (n b : string) : String.prefix n (n ++ b) = true.
Proof.
  induction n as [|c n IH]; [destruct b; reflexivity|].
  simpl. destruct (Ascii.ascii_dec c c) as [_|C]; [exact IH | congruence].
Qed.

Lemma str_in_of_prefix (n h : string) : String.prefix n h = true -> Audit.str_in n h = true.
Proof. intro H. destruct h; cbn [Audit.str_in]; rewrite H; reflexivity. Qed.

Lemma str_in_app (n a b : string) : Audit.str_in n (a ++ n ++ b) = true.
Proof.
  induction a as [|c a IH].
  - cbn [String.append]. apply str_in_of_prefix. apply prefix_app.
  - simpl. rewrite IH, orb_true_r. reflexivity.
Qed.

Lemma Forall2_map_r {A B : Type} (P : A -> B -> Prop) (f : A -> B) (l : list A) :
  (forall x, In x l -> P x (f x)) -> Forall2 P l (map f l).
Proof.
  induction l as [|x r IH]; intro H; constructor.
  - apply H. left. reflexivity.
  - apply IH. intros y Hy. apply H. right. exact Hy.
Qed.

(** X1: [_sanitize_details] keeps every key, in order; a key containing
    one of the sensitive names in any letter case gets ["[REDACTED]"]
    whatever its value; under a key containing none of them, a value that
    is not a string of more than 1000 code points is kept as it is. *)
Theorem sanitize_details_redacts_sensitive_keys (det : list (string * pyval)) :
  Forall2 (fun kv kv' =>
             fst kv' = fst kv /\
             ((exists s a x b, In s Audit.sensitive_keys /\ fst kv = (a ++ x ++ b)%string /\
                               Audit.str_lower x = s) ->
              snd kv' = PStr "[REDACTED]") /\
             ((forall s, In s Audit.sensitive_keys -> Audit.str_in s (Audit.str_lower (fst kv)) = false) ->
              (forall s, snd kv = PStr s -> (py_len s <= 1000)%nat) ->
              snd kv' = snd kv))
          det (Audit._sanitize_details det).
Proof.
  unfold Audit._sanitize_details. apply Forall2_map_r.
  intros [k v] _. cbv beta zeta. cbn [fst snd].
  destruct (existsb (fun s => Audit.str_in s (Audit.str_lower k)) Audit.sensitive_keys) eqn:E.
  - split; [reflexivity|]. split; [reflexivity|].
    intros Hns _. apply existsb_exists in E. destruct E as [s [Hs Hin]].
    rewrite (Hns s Hs) in Hin. discriminate.
  - split; [destruct v; try reflexivity; destruct (1000 <? py_len s)%nat; reflexivity|].
    split.
    + intros (s & a & x & b & Hs & Hk & Hx). exfalso.
      assert (T : existsb (fun s => Audit.str_in s (Audit.str_lower k)) Audit.sensitive_keys = true).
      { apply existsb_exists. exists s. split; [exact Hs|].
        rewrite Hk, !str_lower_app, Hx. apply str_in_app. }
      rewrite T in E. discriminate.
    + intros _ Hlen. destruct v as [| | | |s| |]; try reflexivity.
      cbn [snd]. rewrite (proj2 (Nat.ltb_ge _ _) (Hlen s eq_refl)). reflexivity.
Qed.

(** One step of [_sanitize_details]: the key is kept, and under a key
    containing no sensitive name a value that is not a long string too. *)
Lemma sanitize_cons (kv : string * pyval) (r : list (string * pyval)) :
  exists v', Audit._sanitize_details (kv :: r) = (fst kv, v') :: Audit._sanitize_details r /\
    (existsb (fun s => Audit.str_in s (Audit.str_lower (fst kv))) Audit.sensitive_keys = false ->
     (forall s, snd kv = PStr s -> (py_len s <= 1000)%nat) -> v' = snd kv).
Proof.
  destruct kv as [k v]. unfold Audit._sanitize_details. cbn [map]. cbv beta zeta. cbn [fst snd].
  destruct (existsb (fun s => Audit.str_in s (Audit.str_lower k)) Audit.sensitive_keys).
  - eexists. split; [reflexivity|]. discriminate.
  - destruct v as [| | | |s| |]; try (eexists; split; [reflexivity | auto]).
    destruct (1000 <? py_len s)%nat eqn:E.
    + eexists. split; [reflexivity|]. intros _ H. specialize (H s eq_refl).
      apply Nat.ltb_lt in E. lia.
    + eexists. split; [reflexivity | auto].
Qed.

Lemma lookup_sanitize (k : string) (det : list (string * pyval)) (v : pyval) :
  existsb (fun s => Audit.str_in s (Audit.str_lower k)) Audit.sensitive_keys = false ->
  (forall s, v = PStr s -> (py_len s <= 1000)%nat) ->
  lookup k det = Some v -> lookup k (Audit._sanitize_details det) = Some v.
Proof.
  intros Hk Hv. induction det as [|[k' v'] r IH]; [discriminate|].
  destruct (sanitize_cons (k', v') r) as [w [E Hw]]. rewrite E. cbn [fst snd lookup].
  destruct (String.eqb k k') eqn:Ek; [|exact IH].
  intro H. injection H as <-. apply String.eqb_eq in Ek. subst k'.
  rewrite (Hw Hk Hv). reflexivity.
Qed.

(** X2: [log_phi_access] and [log_phi_disclosure] store the patient id in
    the entry's details as given (["patient_id"] is not a sensitive key)
    whenever it has at most 1000 code points, together with the call's
    HIPAA category, and append the entry to the class-level chain. *)
Theorem phi_logs_store_patient_id
    (self : Audit.AuditLogger) (g : list Audit.AuditEntry)
    (pid data_type purpose recipient : string) (data_types : list string)
    (act : option string) (eid ts : string) :
  (py_len pid <= 1000)%nat ->
  (forall e l g',
     AuditQueries.log_phi_access self g pid data_type purpose act eid ts = (e, l, g') ->
     lookup "patient_id" (Audit.details e) = Some (PStr pid) /\
     lookup "hipaa_category" (Audit.details e) = Some (PStr "access_control") /\
     Audit.operation e = "phi_access" /\ g' = (g ++ [e])%list) /\
  (forall e l g',
     AuditQueries.log_phi_disclosure self g pid recipient data_types purpose act eid ts = (e, l, g') ->
     lookup "patient_id" (Audit.details e) = Some (PStr pid) /\
     lookup "data_types" (Audit.details e) = Some (PList (map PStr data_types)) /\
     lookup "hipaa_category" (Audit.details e) = Some (PStr "disclosure") /\
     Audit.operation e = "phi_disclosure" /\ g' = (g ++ [e])%list).
Proof.
  intro Hp. split; intros e l g' H;
    unfold AuditQueries.log_phi_access, AuditQueries.log_phi_disclosure, Audit.log_operation in H;
    set (d := Audit._sanitize_details _) in H; injection H as <- _ <-;
    cbn [Audit.details Audit.operation Audit.new_AuditEntry]; subst d.
  - repeat split; apply lookup_sanitize; try reflexivity;
      try (intros s Hs; injection Hs as <-; first [exact Hp | vm_compute; lia]).
  - repeat split; apply lookup_sanitize; try reflexivity;
      try (intros s Hs; first [discriminate | injection Hs as <-; first [exact Hp | vm_compute; lia]]).
Qed.

Lemma phi_logs_store_patient_id_witness :
  (py_len "PT-001" <= 1000)%nat /\
  lookup "patient_id"
    (Audit.details (fst (fst (AuditQueries.log_phi_access (Audit.new_AuditLogger "api" "system") []
                                "PT-001" "clinical_notes" "treatment" None "e-1" "2024-01-01T00:00:00"))))
  = Some (PStr "PT-001").
Proof.
  split; [vm_compute; lia|].
  exact (proj1 (proj1 (phi_logs_store_patient_id (Audit.new_AuditLogger "api" "system") []
    "PT-001" "clinical_notes" "treatment" "payer" ["labs"] None "e-1" "2024-01-01T00:00:00"
    ltac:(vm_compute; lia)) _ _ _ eq_refl)).
Defined.

Lemma str_filter_length (f : option string) (get : Audit.AuditEntry -> string)
    (l : list Audit.AuditEntry) :
  (length (AuditQueries.str_filter f get l) <= length l)%nat.
Proof.
  unfold AuditQueries.str_filter.
  destruct f as [s|]; [destruct (String.eqb s EmptyString); [lia | apply filter_length_le] | lia].
Qed.

(** X3: in [get_entries], [limit = 0] returns every matching entry, as a
    limit of the chain's length does; a positive [limit] returns the last
    [min(limit, n)] of the [n] matching entries, in chain order; a
    negative [limit] drops the first [-limit] of them. *)
Theorem get_entries_limit (g : list Audit.AuditEntry) (comp op : option string)
    (start_time end_time : option string) :
  let all := AuditQueries.get_entries g comp op start_time end_time 0 in
  AuditQueries.get_entries g comp op start_time end_time (Z.of_nat (length g)) = all /\
  (forall limit : Z, (0 < limit)%Z ->
     let r := AuditQueries.get_entries g comp op start_time end_time limit in
     length r = Nat.min (Z.to_nat limit) (length all) /\ exists older, all = (older ++ r)%list) /\
  (forall limit : Z, (limit < 0)%Z ->
     AuditQueries.get_entries g comp op start_time end_time limit = skipn (Z.to_nat (- limit)) all).
Proof.
  unfold AuditQueries.get_entries. cbv zeta.
  set (m := match end_time with Some t => _ | None => _ end).
  assert (Hm : (length m <= length g)%nat).
  { subst m. transitivity (length (match start_time with
                                   | Some t => filter (fun e => str_leb t (Audit.timestamp e))
                                                 (AuditQueries.str_filter op Audit.operation
                                                    (AuditQueries.str_filter comp Audit.component g))
                                   | None => AuditQueries.str_filter op Audit.operation
                                               (AuditQueries.str_filter comp Audit.component g)
                                   end)).
    { destruct end_time; [apply filter_length_le | lia]. }
    transitivity (length (AuditQueries.str_filter op Audit.operation
                            (AuditQueries.str_filter comp Audit.component g))).
    { destruct start_time; [apply filter_length_le | lia]. }
    etransitivity; apply str_filter_length. }
  clearbody m. unfold py_list_from.
  assert (E0 : map AuditQueries.to_dict (if (- 0 <? 0)%Z then skipn (Z.to_nat (Z.of_nat (length m) + - 0)) m
                                         else skipn (Z.to_nat (- 0)) m) = map AuditQueries.to_dict m)
    by reflexivity.
  rewrite E0. split; [|split].
  - destruct (- Z.of_nat (length g) <? 0)%Z eqn:E.
    + replace (Z.to_nat (Z.of_nat (length m) + - Z.of_nat (length g))) with 0%nat by lia.
      reflexivity.
    + replace (Z.to_nat (- Z.of_nat (length g))) with 0%nat by lia. reflexivity.
  - intros limit Hl. replace (- limit <? 0)%Z with true by (symmetry; apply Z.ltb_lt; lia).
    set (k := Z.to_nat (Z.of_nat (length m) + - limit)).
    split.
    + rewrite !length_map, length_skipn. subst k. lia.
    + exists (map AuditQueries.to_dict (firstn k m)).
      rewrite <- map_app, firstn_skipn. reflexivity.
  - intros limit Hl. replace (- limit <? 0)%Z with false by (symmetry; apply Z.ltb_ge; lia).
    rewrite skipn_map. reflexivity.
Qed.

Lemma get_entries_limit_witness :
  (0 < 1)%Z /\
  length (AuditQueries.get_entries
            [Audit.mkAuditEntry "e-1" "2024-01-01T00:00:00" "api" "read" "system" [] "p0" "h1";
             Audit.mkAuditEntry "e-2" "2024-01-02T00:00:00" "api" "write" "system" [] "h1" "h2"]
            (Some "api") None None None 1) = 1%nat.
Proof.
  split; [lia|].
  rewrite (proj1 (proj1 (proj2 (get_entries_limit
    [Audit.mkAuditEntry "e-1" "2024-01-01T00:00:00" "api" "read" "system" [] "p0" "h1";
     Audit.mkAuditEntry "e-2" "2024-01-02T00:00:00" "api" "write" "system" [] "h1" "h2"]
    (Some "api") None None None)) 1%Z ltac:(lia))).
  vm_compute. reflexivity.
Defined.

Lemma count_in_total (k : string) (d : list (string * nat)) :
  list_sum (map snd (CareGaps.count_in k d)) = S (list_sum (map snd d)).
Proof.
  induction d as [|[k' n] r IH]; [reflexivity|].
  cbn [CareGaps.count_in]. destruct (String.eqb k k'); cbn [map snd list_sum fold_right].
  - reflexivity.
  - unfold list_sum in *. rewrite IH. lia.
Qed.

Lemma count_fold_total {A : Type} (f : A -> string) (l : list A) (d : list (string * nat)) :
  list_sum (map snd (fold_left (fun d x => CareGaps.count_in (f x) d) l d))
  = (list_sum (map snd d) + length l)%nat.
Proof.
  revert d. induction l as [|x r IH]; intro d; cbn [fold_left length]; [lia|].
  rewrite IH, count_in_total. lia.
Qed.

(** X4: [get_audit_summary] reports [total_entries] equal to the chain's
    length, and its per-component counts and its per-operation counts
    each add up to that total; the [first_entry], [last_entry] and
    [chain_verified] keys are absent exactly when the chain is empty. *)
Theorem audit_summary_counts_add_up (g : list Audit.AuditEntry) (now : string) :
  let s := AuditQueries.get_audit_summary g now in
  AuditQueries.total_entries s = length g /\
  list_sum (map snd (AuditQueries.components s)) = length g /\
  list_sum (map snd (AuditQueries.operations s)) = length g /\
  (AuditQueries.chain_verified s = None <-> g = []) /\
  (AuditQueries.first_entry s = None <-> g = []) /\
  (AuditQueries.last_entry s = None <-> g = []).
Proof.
  destruct g as [|e r]; cbn zeta; unfold AuditQueries.get_audit_summary;
    cbn [AuditQueries.total_entries AuditQueries.components AuditQueries.operations
         AuditQueries.chain_verified AuditQueries.first_entry AuditQueries.last_entry].
  - repeat split; reflexivity.
  - rewrite !count_fold_total. cbn [map list_sum fold_right].
    repeat split; try lia; intro H; discriminate.
Qed.

Lemma run_calls_timestamps (calls : list Audit.log_call) (g : list Audit.AuditEntry) :
  map Audit.timestamp (Audit.run_calls g calls) = (map Audit.timestamp g ++ map Audit.call_timestamp calls)%list.
Proof.
  revert g. induction calls as [|c cs IH]; intro g; cbn [Audit.run_calls map].
  - rewrite app_nil_r. reflexivity.
  - unfold Audit.log_operation. rewrite IH, map_app, <- app_assoc. reflexivity.
Qed.

Lemma last_of_map {A : Type} (h : A -> string) (d : string) (l : list A) :
  last_of h d l = last_of (fun s => s) d (map h l).
Proof. revert d. induction l as [|x r IH]; intro d; [reflexivity | apply IH]. Qed.

(** X5: after any non-empty sequence of [log_operation] calls on an empty
    class-level chain, [get_audit_summary] reports [chain_verified = True],
    [first_entry] the timestamp of the first call and [last_entry] that of
    the last call; after no call it reports neither. *)
Theorem audit_summary_of_logged_run (calls : list Audit.log_call) (now : string) :
  let s := AuditQueries.get_audit_summary (Audit.run_calls [] calls) now in
  match calls with
  | [] => AuditQueries.chain_verified s = None /\ AuditQueries.first_entry s = None
  | c :: _ =>
      AuditQueries.chain_verified s = Some true /\
      AuditQueries.first_entry s = Some (Audit.call_timestamp c) /\
      AuditQueries.last_entry s = Some (last_of Audit.call_timestamp EmptyString calls)
  end.
Proof.
  cbn zeta.
  assert (Hts := run_calls_timestamps calls []). cbn [map app] in Hts.
  assert (Hok : Audit.chain_ok Audit._genesis_hash (Audit.run_calls [] calls))
    by (apply run_calls_chain_ok; exact I).
  destruct calls as [|c cs]; [split; reflexivity|].
  destruct (Audit.run_calls [] (c :: cs)) as [|e r] eqn:Er; [discriminate|].
  unfold AuditQueries.get_audit_summary.
  cbn [AuditQueries.chain_verified AuditQueries.first_entry AuditQueries.last_entry].
  cbn [map] in Hts. injection Hts as He Hr.
  split; [|split].
  - unfold Audit.verify_chain. cbn [Audit.verified].
    rewrite (verify_from_chain_ok (e :: r) 0 None Audit._genesis_hash Hok) by discriminate.
    reflexivity.
  - rewrite He. reflexivity.
  - f_equal. rewrite (last_of_map Audit.timestamp), (last_of_map Audit.call_timestamp).
    cbn [map last_of]. rewrite He, Hr. reflexivity.
Qed.

(** ** More of the code: the phase-gate registry *)

Lemma get_gate_set_gate (gates : list (Z * PhaseGates.PhaseGate)) (n m : Z) (g : PhaseGates.PhaseGate) :
  PhaseGates.get_gate m (PhaseRegistry.set_gate n g gates)
  = if Z.eqb m n then option_map (fun _ => g) (PhaseGates.get_gate n gates)
    else PhaseGates.get_gate m gates.
Proof.
  unfold PhaseRegistry.set_gate.
  induction gates as [|[k x] r IH]; cbn [map PhaseGates.get_gate fst].
  - destruct (m =? n)%Z; reflexivity.
  - rewrite IH.
    destruct (Z.eqb_spec k n) as [Hkn|Hkn]; destruct (Z.eqb_spec m n) as [Hmn|Hmn];
      destruct (Z.eqb_spec k m) as [Hkm|Hkm]; subst; cbn [PhaseGates.get_gate];
      rewrite ?Z.eqb_refl; try congruence;
      repeat match goal with
             | H : ?a <> ?b |- context [Z.eqb ?a ?b] => rewrite (proj2 (Z.eqb_neq a b) H)
             | H : ?b <> ?a |- context [Z.eqb ?a ?b] =>
                 rewrite (proj2 (Z.eqb_neq a b) (not_eq_sym H))
             end; reflexivity.
Qed.

Lemma set_gate_keys (gates : list (Z * PhaseGates.PhaseGate)) (n : Z) (g : PhaseGates.PhaseGate) :
  map fst (PhaseRegistry.set_gate n g gates) = map fst gates.
Proof.
  unfold PhaseRegistry.set_gate. rewrite map_map.
  apply map_ext. intros [k x]. cbn [fst]. destruct (k =? n)%Z; reflexivity.
Qed.

(** What [approve_phase] leaves in each slot of the registry. *)
Lemma approve_get_gate (gates : list (Z * PhaseGates.PhaseGate)) (n : Z) (approver : string)
    (evidence : list (string * pyval)) (now : string) (m : Z) :
  match PhaseGates.get_gate m (fst (PhaseRegistry.approve_phase gates n approver evidence now)),
        PhaseGates.get_gate m gates with
  | Some g', Some g =>
      PhaseGates.phase_number g' = PhaseGates.phase_number g /\
      PhaseGates.phase_name g' = PhaseGates.phase_name g /\
      PhaseGates.exit_contract g' = PhaseGates.exit_contract g /\
      PhaseGates.required_artifacts g' = PhaseGates.required_artifacts g /\
      PhaseGates.status g' = (if Z.eqb m n then PhaseGates.APPROVED else PhaseGates.status g) /\
      PhaseGates.approved_by g' = (if Z.eqb m n then Some approver else PhaseGates.approved_by g) /\
      PhaseGates.approved_at g' = (if Z.eqb m n then Some now else PhaseGates.approved_at g)
  | None, None => True
  | _, _ => False
  end.
Proof.
  unfold PhaseRegistry.approve_phase.
  destruct (PhaseGates.get_gate n gates) as [gate|] eqn:En; cbn [fst].
  - rewrite get_gate_set_gate. destruct (Z.eqb_spec m n) as [->|Hmn].
    + rewrite En. cbn. repeat split.
    + destruct (PhaseGates.get_gate m gates); [repeat split | exact I].
  - destruct (PhaseGates.get_gate m gates) eqn:Em; [|exact I].
    destruct (Z.eqb_spec m n) as [->|_]; [congruence | repeat split].
Qed.

(** X6: [approve_phase] on a registered phase sets that gate's status to
    APPROVED with the approver and the time, keeps its name, exit
    contract and artifacts, and returns the confirmation dict; every
    other gate and the key order are unchanged. On an unregistered phase
    it changes nothing and returns the error dict. *)
Theorem approve_phase_effect (gates : list (Z * PhaseGates.PhaseGate)) (n : Z) (approver : string)
    (evidence : list (string * pyval)) (now : string) :
  let gates' := fst (PhaseRegistry.approve_phase gates n approver evidence now) in
  let out := snd (PhaseRegistry.approve_phase gates n approver evidence now) in
  map fst gates' = map fst gates /\
  (forall m, m <> n -> PhaseGates.get_gate m gates' = PhaseGates.get_gate m gates) /\
  match PhaseGates.get_gate n gates with
  | None => gates' = gates /\ out = PDict [("error", PStr ("Phase " ++ int_str n ++ " not found"))]
  | Some g =>
      (exists g', PhaseGates.get_gate n gates' = Some g' /\
                  PhaseGates.status g' = PhaseGates.APPROVED /\
                  PhaseGates.approved_by g' = Some approver /\
                  PhaseGates.approved_at g' = Some now /\
                  PhaseGates.phase_name g' = PhaseGates.phase_name g /\
                  PhaseGates.exit_contract g' = PhaseGates.exit_contract g /\
                  PhaseGates.required_artifacts g' = PhaseGates.required_artifacts g) /\
      out = PDict [("status", PStr "approved"); ("phase", PInt n);
                   ("approved_at", PStr now); ("approved_by", PStr approver)]
  end.
Proof.
  cbv zeta. split; [|split].
  - unfold PhaseRegistry.approve_phase.
    destruct (PhaseGates.get_gate n gates); [apply set_gate_keys | reflexivity].
  - intros m Hm. unfold PhaseRegistry.approve_phase.
    destruct (PhaseGates.get_gate n gates); [|reflexivity].
    cbn [fst]. rewrite get_gate_set_gate, (proj2 (Z.eqb_neq m n) Hm). reflexivity.
  - pose proof (approve_get_gate gates n approver evidence now n) as H.
    rewrite Z.eqb_refl in H.
    unfold PhaseRegistry.approve_phase in *.
    destruct (PhaseGates.get_gate n gates) as [g|] eqn:En; [|split; reflexivity].
    cbn [fst snd] in *.
    destruct (PhaseGates.get_gate n (PhaseRegistry.set_gate n _ gates)) as [g'|]; [|contradiction].
    destruct H as (_ & H1 & H2 & H3 & H4 & H5 & H6).
    split; [|reflexivity]. exists g'. repeat split; first [reflexivity | assumption].
Qed.

Lemma set_gate_absent (gates : list (Z * PhaseGates.PhaseGate)) (n : Z) (g : PhaseGates.PhaseGate) :
  ~ In n (map fst gates) -> PhaseRegistry.set_gate n g gates = gates.
Proof.
  unfold PhaseRegistry.set_gate. induction gates as [|[k x] r IH]; intro H; [reflexivity|].
  cbn [map fst In] in *. rewrite IH by tauto.
  destruct (Z.eqb_spec k n) as [->|_]; [tauto | reflexivity].
Qed.

Lemma get_gate_none (gates : list (Z * PhaseGates.PhaseGate)) (n : Z) :
  PhaseGates.get_gate n gates = None -> ~ In n (map fst gates).
Proof.
  induction gates as [|[k x] r IH]; cbn [PhaseGates.get_gate map fst In]; [tauto|].
  destruct (Z.eqb_spec k n) as [->|Hk]; [discriminate|]. intros H [E|E]; [congruence | exact (IH H E)].
Qed.

Lemma set_gate_completed (gates : list (Z * PhaseGates.PhaseGate)) (n : Z) (g g' : PhaseGates.PhaseGate) :
  NoDup (map fst gates) -> PhaseGates.get_gate n gates = Some g ->
  PhaseRegistry.status_eqb (PhaseGates.status g') PhaseGates.APPROVED = true ->
  PhaseRegistry.phases_completed (PhaseRegistry.set_gate n g' gates)
  = if PhaseRegistry.status_eqb (PhaseGates.status g) PhaseGates.APPROVED
    then PhaseRegistry.phases_completed gates else S (PhaseRegistry.phases_completed gates).
Proof.
  intros Hnd. revert Hnd. induction gates as [|[k x] r IH]; intros Hnd Hg Ha; [discriminate|].
  cbn [map fst] in Hnd. apply NoDup_cons_iff in Hnd as [Hk Hnd].
  cbn [PhaseGates.get_gate] in Hg.
  change (PhaseRegistry.set_gate n g' ((k, x) :: r))
    with ((if (k =? n)%Z then (k, g') else (k, x)) :: PhaseRegistry.set_gate n g' r).
  unfold PhaseRegistry.phases_completed in *.
  destruct (Z.eqb_spec k n) as [->|Hkn].
  - injection Hg as <-. cbn [filter snd]. rewrite Ha.
    rewrite set_gate_absent by exact Hk.
    destruct (PhaseRegistry.status_eqb (PhaseGates.status x) PhaseGates.APPROVED); reflexivity.
  - cbn [filter snd].
    destruct (PhaseRegistry.status_eqb (PhaseGates.status x) PhaseGates.APPROVED);
      cbn [length]; rewrite (IH Hnd Hg Ha);
      destruct (PhaseRegistry.status_eqb (PhaseGates.status g) PhaseGates.APPROVED); reflexivity.
Qed.

Lemma registry_keys_nodup : NoDup (map fst PhaseGates.registry_gates).
Proof.
  vm_compute.
  repeat (apply NoDup_cons; [cbn; intro H; repeat destruct H as [H|H]; (discriminate || exact H)|]).
  apply NoDup_nil.
Qed.

(** X7: in a registry whose phase numbers are distinct, [approve_phase]
    raises the [phases_completed] count of [get_playbook_summary] by one
    when the phase exists and was not approved yet, and leaves it as it
    is otherwise. *)
Theorem approve_phase_completed_count (gates : list (Z * PhaseGates.PhaseGate)) (n : Z)
    (approver : string) (evidence : list (string * pyval)) (now : string) :
  NoDup (map fst gates) ->
  PhaseRegistry.phases_completed (fst (PhaseRegistry.approve_phase gates n approver evidence now))
  = match PhaseGates.get_gate n gates with
    | Some g => if PhaseRegistry.status_eqb (PhaseGates.status g) PhaseGates.APPROVED
                then PhaseRegistry.phases_completed gates
                else S (PhaseRegistry.phases_completed gates)
    | None => PhaseRegistry.phases_completed gates
    end.
Proof.
  intro Hnd. unfold PhaseRegistry.approve_phase.
  destruct (PhaseGates.get_gate n gates) as [g|] eqn:En; cbn [fst]; [|reflexivity].
  apply set_gate_completed; [exact Hnd | exact En | reflexivity].
Qed.

Lemma approve_phase_completed_count_witness :
  NoDup (map fst PhaseGates.registry_gates) /\
  PhaseRegistry.phases_completed
    (fst (PhaseRegistry.approve_phase PhaseGates.registry_gates 11 "SRE Lead" [] "2024-10-01T00:00:00"))
  = 11%nat.
Proof.
  split; [exact registry_keys_nodup|].
  rewrite (approve_phase_completed_count PhaseGates.registry_gates 11 "SRE Lead" [] "2024-10-01T00:00:00"
             registry_keys_nodup).
  vm_compute. reflexivity.
Defined.

(** What a sequence of approvals leaves in each slot of the registry. *)
Lemma approve_all_get_gate (calls : list (Z * string * list (string * pyval) * string)) :
  forall (gates : list (Z * PhaseGates.PhaseGate)) (m : Z),
  match PhaseGates.get_gate m (PhaseRegistry.approve_all gates calls), PhaseGates.get_gate m gates with
  | Some g', Some g =>
      PhaseGates.phase_number g' = PhaseGates.phase_number g /\
      PhaseGates.phase_name g' = PhaseGates.phase_name g /\
      PhaseGates.exit_contract g' = PhaseGates.exit_contract g /\
      PhaseGates.required_artifacts g' = PhaseGates.required_artifacts g /\
      PhaseGates.status g' = (if existsb (fun c => Z.eqb m (fst (fst (fst c)))) calls
                              then PhaseGates.APPROVED else PhaseGates.status g)
  | None, None => True
  | _, _ => False
  end.
Proof.
  induction calls as [|[[[n approver] evidence] now] rest IH]; intros gates m; cbn [PhaseRegistry.approve_all].
  - destruct (PhaseGates.get_gate m gates); repeat split.
  - pose proof (IH (fst (PhaseRegistry.approve_phase gates n approver evidence now)) m) as H2.
    pose proof (approve_get_gate gates n approver evidence now m) as H1.
    cbn [existsb fst].
    destruct (PhaseGates.get_gate m (PhaseRegistry.approve_all _ rest)) as [g2|];
    destruct (PhaseGates.get_gate m (fst (PhaseRegistry.approve_phase gates n approver evidence now))) as [g1|];
    destruct (PhaseGates.get_gate m gates) as [g0|]; try contradiction; try exact I.
    destruct H1 as (A1 & B1 & C1 & D1 & E1 & _). destruct H2 as (A2 & B2 & C2 & D2 & E2).
    repeat split; try congruence.
    rewrite E2, E1. destruct (m =? n)%Z, (existsb _ rest); reflexivity.
Qed.

Lemma check_phase_exit_approve_all (calls : list (Z * string * list (string * pyval) * string))
    (gates : list (Z * PhaseGates.PhaseGate)) (n : Z) :
  PhaseRegistry.check_phase_exit (PhaseRegistry.approve_all gates calls) n
  = PhaseRegistry.check_phase_exit gates n.
Proof.
  pose proof (approve_all_get_gate calls gates n) as H. unfold PhaseRegistry.check_phase_exit.
  destruct (PhaseGates.get_gate n (PhaseRegistry.approve_all gates calls)) as [g'|];
    destruct (PhaseGates.get_gate n gates) as [g|]; try contradiction; [|reflexivity].
  destruct H as (_ & -> & -> & -> & _). reflexivity.
Qed.

(** X8: whatever approvals are made on the registry [_initialize_gates]
    builds, [check_phase_exit] gives the same answer as before them for
    every phase number, and [can_exit] stays false for every registered
    phase: approving a phase never fills its exit contract. *)
Theorem approvals_keep_phase_exit_closed
    (calls : list (Z * string * list (string * pyval) * string)) (n : Z) :
  PhaseRegistry.check_phase_exit (PhaseRegistry.approve_all PhaseGates.registry_gates calls) n
  = PhaseRegistry.check_phase_exit PhaseGates.registry_gates n /\
  (forall g, PhaseGates.get_gate n (PhaseRegistry.approve_all PhaseGates.registry_gates calls) = Some g ->
     PhaseRegistry.is_complete (PhaseGates.exit_contract g) = false).
Proof.
  split; [apply check_phase_exit_approve_all|].
  intros g Hg. pose proof (approve_all_get_gate calls PhaseGates.registry_gates n) as H.
  rewrite Hg in H.
  assert (E : forall g0, PhaseGates.get_gate n PhaseGates.registry_gates = Some g0 ->
                         PhaseGates.exit_contract g0 = PhaseGates.empty_contract).
  { intros g0 H0. unfold PhaseGates.registry_gates, PhaseGates._initialize_gates in H0.
    cbn [PhaseGates.get_gate] in H0.
    repeat match type of H0 with
           | (if ?c then _ else _) = _ => destruct c
           end; try discriminate; injection H0 as <-; reflexivity. }
  destruct (PhaseGates.get_gate n PhaseGates.registry_gates) as [g0|] eqn:E0; [|contradiction].
  destruct H as (_ & _ & -> & _). rewrite (E g0 eq_refl). reflexivity.
Qed.

Lemma find_active_skip (gates : list (Z * PhaseGates.PhaseGate)) (k : Z) (rest : list Z) (g : PhaseGates.PhaseGate) :
  PhaseGates.get_gate k gates = Some g ->
  PhaseRegistry.status_eqb (PhaseGates.status g) PhaseGates.IN_PROGRESS
  || PhaseRegistry.status_eqb (PhaseGates.status g) PhaseGates.PENDING_REVIEW = false ->
  PhaseRegistry.find_active gates (k :: rest) = PhaseRegistry.find_active gates rest.
Proof. intros Hg Ha. cbn [PhaseRegistry.find_active]. rewrite Hg, Ha. reflexivity. Qed.

(** Steps [get_current_phase] over a phase that stays approved. *)
Ltac skip_approved Hs k :=
  let g := fresh "g" in let Hg := fresh "Hg" in let Hst := fresh "Hst" in
  destruct (Hs k _ eq_refl) as (g & Hg & _ & Hst);
  rewrite (find_active_skip _ _ _ g Hg)
    by (rewrite Hst; match goal with |- context [existsb ?f ?l] => destruct (existsb f l) end;
        reflexivity);
  clear Hg Hst.

(** X9: after any sequence of approvals on the registry [_initialize_gates]
    builds, [get_current_phase] returns phase 11 as long as phase 11 has
    not been approved, and phase 10 (an approved phase) once it has: no
    phase is then in progress or pending review, and the method falls back
    to [gates[10]]. *)
Theorem current_phase_after_approvals (calls : list (Z * string * list (string * pyval) * string)) :
  option_map PhaseGates.phase_number
    (PhaseRegistry.get_current_phase (PhaseRegistry.approve_all PhaseGates.registry_gates calls))
  = Some (if existsb (fun c => Z.eqb 11 (fst (fst (fst c)))) calls then 10%Z else 11%Z).
Proof.
  set (G := PhaseRegistry.approve_all PhaseGates.registry_gates calls).
  assert (Hs : forall m g0, PhaseGates.get_gate m PhaseGates.registry_gates = Some g0 ->
                 exists g, PhaseGates.get_gate m G = Some g /\
                   PhaseGates.phase_number g = PhaseGates.phase_number g0 /\
                   PhaseGates.status g = (if existsb (fun c => Z.eqb m (fst (fst (fst c)))) calls
                                          then PhaseGates.APPROVED else PhaseGates.status g0)).
  { intros m g0 H0. pose proof (approve_all_get_gate calls PhaseGates.registry_gates m) as H.
    fold G in H. rewrite H0 in H.
    destruct (PhaseGates.get_gate m G) as [g|]; [|contradiction].
    destruct H as (Hn & _ & _ & _ & Hst). exists g. auto. }
  unfold PhaseRegistry.get_current_phase.
  skip_approved Hs 1%Z. skip_approved Hs 2%Z. skip_approved Hs 3%Z. skip_approved Hs 4%Z.
  skip_approved Hs 5%Z. skip_approved Hs 6%Z. skip_approved Hs 7%Z. skip_approved Hs 8%Z.
  skip_approved Hs 9%Z. skip_approved Hs 10%Z.
  destruct (Hs 11%Z _ eq_refl) as (g11 & Hg11 & Hn11 & Hst11).
  destruct (existsb (fun c => Z.eqb 11 (fst (fst (fst c)))) calls) eqn:E11.
  - rewrite (find_active_skip _ _ _ g11 Hg11) by (rewrite Hst11; reflexivity).
    skip_approved Hs 12%Z.
    destruct (Hs 10%Z _ eq_refl) as (g10 & Hg10 & Hn10 & _).
    cbn [PhaseRegistry.find_active]. rewrite Hg10. cbn [option_map]. rewrite Hn10. reflexivity.
  - assert (A : PhaseRegistry.status_eqb (PhaseGates.status g11) PhaseGates.IN_PROGRESS = true)
      by (rewrite Hst11; reflexivity).
    cbn [PhaseRegistry.find_active]. rewrite Hg11, A. cbn [orb option_map]. rewrite Hn11. reflexivity.
Qed.

(** ** More of the code: cost telemetry *)

Lemma status_loop_raise (ms : list (string * CostTelemetry.MetricConfig)) (b : bool) :
  (forall e, CostTelemetry.status_loop ms b = Raise e -> e = ZeroDivisionError) /\
  ((exists e, CostTelemetry.status_loop ms b = Raise e) <->
   Exists (fun kv => CostTelemetry.threshold (snd kv) == 0) ms).
Proof.
  revert b. induction ms as [|[name cfg] ms IH]; intro b; cbn [CostTelemetry.status_loop].
  - split; [discriminate|]. split; [intros [e H]; discriminate | intro H; inversion H].
  - unfold py_div. destruct (Qeq_bool (CostTelemetry.threshold cfg) 0) eqn:Z0; cbn [bind].
    + split; [intros e H; injection H as <-; reflexivity|].
      split; [intros _; apply Exists_cons_hd; apply Qeq_bool_iff; exact Z0 | intros _; eexists; reflexivity].
    + set (b' := if Qltb _ _ then b else false).
      destruct (IH b') as [IH1 IH2].
      destruct (CostTelemetry.status_loop ms b') as [r|e] eqn:E; cbn [bind].
      * split; [discriminate|]. split; [intros [e H]; discriminate|].
        intro H. inversion H as [? ? H0|? ? H0]; subst.
        -- cbn [snd] in H0. apply Qeq_bool_iff in H0. congruence.
        -- destruct (proj2 IH2 H0) as [e He]. discriminate.
      * split; [intros e' H; injection H as <-; apply IH1; reflexivity|].
        split; [intros _; apply Exists_cons_tl, IH2; eexists; reflexivity | intros _; eexists; reflexivity].
Qed.

Lemma headroom_sign (t c : Q) : 0 < t -> (c < t <-> 0 < (t - c) / t).
Proof.
  intro Ht. assert (Hi : 0 < / t) by (apply Qinv_lt_0_compat; exact Ht).
  unfold Qdiv. split; intro H.
  - apply Qmult_lt_0_compat; [lra | exact Hi].
  - destruct (Qlt_le_dec c t) as [L|L]; [exact L|].
    assert (N : 0 <= (c - t) * / t) by (apply Qmult_le_0_compat; lra).
    assert (E : (t - c) * / t == - ((c - t) * / t)) by ring.
    lra.
Qed.

Lemma status_loop_metrics (ms : list (string * CostTelemetry.MetricConfig)) r b :
  CostTelemetry.status_loop ms b = Ok r ->
  Forall2 (fun kv m => fst m = fst kv /\
             (0 < CostTelemetry.threshold (snd kv) ->
              (CostTelemetry.ms_status (snd m) = "healthy" <-> 0 < CostTelemetry.ms_headroom (snd m))))
    ms (fst r).
Proof.
  revert r b.
  induction ms as [|[name cfg] ms IH]; intros r b E; cbn [CostTelemetry.status_loop] in E.
  - injection E as <-. constructor.
  - unfold py_div in E. destruct (Qeq_bool (CostTelemetry.threshold cfg) 0) eqn:Z0;
      cbn [bind] in E; [discriminate|].
    destruct (CostTelemetry.status_loop ms _) as [r'|e] eqn:E'; cbn [bind] in E; [|discriminate].
    injection E as <-. cbn [fst]. constructor; [|exact (IH _ _ E')].
    cbn [fst snd CostTelemetry.ms_status CostTelemetry.ms_headroom]. split; [reflexivity|].
    intro Ht. rewrite <- headroom_sign by exact Ht.
    unfold Qltb. destruct (Qle_bool (CostTelemetry.threshold cfg) (CostTelemetry.current_value cfg)) eqn:L;
      cbn [negb].
    + apply Qle_bool_iff in L. split; [discriminate | intro; lra].
    + apply Qle_bool_false_iff in L. split; [intros _; exact L | reflexivity].
Qed.

(** X10: [get_contract_status] raises, and raises only
    [ZeroDivisionError], exactly when some metric's threshold is zero;
    when it returns, each metric keeps its name, in order, and a metric
    with a positive threshold is reported "healthy" exactly when its
    headroom is positive. *)
Theorem contract_status_zero_threshold (ms : list (string * CostTelemetry.MetricConfig)) (now : string) :
  (forall e, CostTelemetry.get_contract_status ms now = Raise e -> e = ZeroDivisionError) /\
  ((exists e, CostTelemetry.get_contract_status ms now = Raise e) <->
   Exists (fun kv => CostTelemetry.threshold (snd kv) == 0) ms) /\
  (forall st, CostTelemetry.get_contract_status ms now = Ok st ->
     Forall2 (fun kv m => fst m = fst kv /\
                (0 < CostTelemetry.threshold (snd kv) ->
                 (CostTelemetry.ms_status (snd m) = "healthy" <-> 0 < CostTelemetry.ms_headroom (snd m))))
       ms (CostTelemetry.metrics st)).
Proof.
  destruct (status_loop_raise ms true) as [R1 R2].
  unfold CostTelemetry.get_contract_status.
  split; [|split].
  - intros e H. destruct (CostTelemetry.status_loop ms true) as [r|e'] eqn:E; cbn [bind] in H;
      [discriminate|]. injection H as <-. apply R1. reflexivity.
  - rewrite <- R2. destruct (CostTelemetry.status_loop ms true) as [r|e'];
      cbn [bind]; split; intros [e H]; try discriminate; eexists; reflexivity.
  - intros st H. destruct (CostTelemetry.status_loop ms true) as [r|e'] eqn:E; cbn [bind] in H;
      [|discriminate].
    injection H as <-. cbn [CostTelemetry.metrics]. exact (status_loop_metrics ms _ _ E).
Qed.

Lemma operation_cost_pos (op : string) : 0 < dict_get CostOps.OPERATION_COSTS op 0.001.
Proof.
  unfold dict_get, CostOps.OPERATION_COSTS. cbn [lookup fst snd].
  repeat match goal with |- context [String.eqb ?a ?b] => destruct (String.eqb a b) end;
    reflexivity.
Qed.

Lemma operation_value_pos (op : string) : 0 < dict_get CostOps.OPERATION_VALUES op 0.01.
Proof.
  unfold dict_get, CostOps.OPERATION_VALUES. cbn [lookup fst snd].
  repeat match goal with |- context [String.eqb ?a ?b] => destruct (String.eqb a b) end;
    reflexivity.
Qed.

(** X11: [record_operation] always returns a positive cost and a positive
    value, so the [roi] it returns is always [value / cost] and never the
    zero fallback; the cost never decreases as [tokens_used] grows, and a
    non-positive token count leaves the table cost unchanged. *)
Theorem record_operation_cost_positive (op : string) (t1 t2 : Z) :
  0 < CostOps.op_cost (CostOps.record_operation op t1) /\
  0 < CostOps.op_value (CostOps.record_operation op t1) /\
  CostOps.roi (CostOps.record_operation op t1) =
    CostOps.op_value (CostOps.record_operation op t1) / CostOps.op_cost (CostOps.record_operation op t1) /\
  ((t1 <= 0)%Z -> CostOps.op_cost (CostOps.record_operation op t1) = dict_get CostOps.OPERATION_COSTS op 0.001) /\
  ((t1 <= t2)%Z ->
   CostOps.op_cost (CostOps.record_operation op t1) <= CostOps.op_cost (CostOps.record_operation op t2)).
Proof.
  pose proof (operation_cost_pos op) as Hc. pose proof (operation_value_pos op) as Hv.
  assert (Hpos : forall t, 0 < CostOps.op_cost (CostOps.record_operation op t)).
  { intro t. unfold CostOps.record_operation. cbn [CostOps.op_cost].
    destruct (Z.ltb_spec 0 t) as [L|L]; [|exact Hc].
    assert (0 <= inject_Z t) by (change 0 with (inject_Z 0); rewrite <- Zle_Qle; lia).
    assert (0 <= inject_Z t / 1000 * 0.01).
    { unfold Qdiv. apply Qmult_le_0_compat; [apply Qmult_le_0_compat|]; [assumption|discriminate|discriminate]. }
    lra. }
  split; [exact (Hpos t1)|]. split; [exact Hv|].
  split.
  - pose proof (Hpos t1) as H1. unfold CostOps.record_operation in *. cbn [CostOps.op_cost CostOps.roi CostOps.op_value] in *.
    unfold Qltb. destruct (Qle_bool _ 0) eqn:L; cbn [negb].
    + apply Qle_bool_iff in L. lra.
    + reflexivity.
  - split.
    + intro L. unfold CostOps.record_operation. cbn [CostOps.op_cost].
      destruct (Z.ltb_spec 0 t1); [lia | reflexivity].
    + intro L. unfold CostOps.record_operation. cbn [CostOps.op_cost].
      assert (Hq : inject_Z t1 <= inject_Z t2) by (rewrite <- Zle_Qle; exact L).
      assert (Hd : forall a b, a <= b -> a / 1000 * 0.01 <= b / 1000 * 0.01).
      { intros a b Hab. unfold Qdiv. apply Qmult_le_r; [reflexivity|]. apply Qmult_le_r; [reflexivity|exact Hab]. }
      destruct (Z.ltb_spec 0 t1) as [L1|L1]; destruct (Z.ltb_spec 0 t2) as [L2|L2]; try lia.
      * specialize (Hd _ _ Hq). lra.
      * assert (0 <= inject_Z t2) by (change 0 with (inject_Z 0); rewrite <- Zle_Qle; lia).
        assert (0 <= inject_Z t2 / 1000 * 0.01).
        { unfold Qdiv. apply Qmult_le_0_compat; [apply Qmult_le_0_compat|]; [assumption|discriminate|discriminate]. }
        lra.
      * apply Qle_refl.
Qed.

(** X12: the cost middleware maps a path containing "/readmission" but
    not "/care-gaps" to [readmission_prediction] with header "0.0031",
    whether or not it also contains "/batch"; it maps a path to
    [batch_prediction] only when the path contains "/batch" and none of
    "/care-gaps", "/readmission" and "/summarize"; and the [X-Cost-USD]
    header is always the table cost of one of the four operations a path
    can map to, or the "0.0010" default. *)
Theorem path_to_operation_routes (path : string) :
  (Audit.str_in "/care-gaps" path = false -> Audit.str_in "/readmission" path = true ->
   CostOps._path_to_operation path = Some "readmission_prediction" /\
   CostOps.cost_header path = "0.0031") /\
  (CostOps._path_to_operation path = Some "batch_prediction" ->
   Audit.str_in "/batch" path = true /\ Audit.str_in "/care-gaps" path = false /\
   Audit.str_in "/readmission" path = false /\ Audit.str_in "/summarize" path = false) /\
  In (CostOps.cost_header path) ["0.0018"; "0.0031"; "0.0340"; "0.0025"; "0.0010"].
Proof.
  unfold CostOps.cost_header, CostOps._path_to_operation.
  destruct (Audit.str_in "/care-gaps" path) eqn:C1;
  destruct (Audit.str_in "/readmission" path) eqn:C2;
  destruct (Audit.str_in "/summarize" path) eqn:C3;
  destruct (Audit.str_in "/batch" path) eqn:C4;
  vm_compute; repeat split; intros; try discriminate; try tauto; try congruence.
Qed.

Lemma check_budget_state (g : CostOps.CostGuard) (today : Z) (est : Q) :
  let g1 := fst (CostOps.check_budget g today est) in
  CostOps.daily_budget g1 = CostOps.daily_budget g /\
  CostOps.max_cost_per_request g1 = CostOps.max_cost_per_request g /\
  ((CostOps.last_reset g < today)%Z -> CostOps.daily_spend g1 == 0 /\ CostOps.last_reset g1 = today) /\
  ((today <= CostOps.last_reset g)%Z -> g1 = g) /\
  (fst (snd (CostOps.check_budget g today est)) = true <->
   est <= CostOps.max_cost_per_request g /\ CostOps.daily_spend g1 + est <= CostOps.daily_budget g).
Proof.
  unfold CostOps.check_budget. cbv zeta.
  destruct (Z.ltb_spec (CostOps.last_reset g) today) as [L|L];
    cbn [CostOps.max_cost_per_request CostOps.daily_budget CostOps.daily_spend CostOps.last_reset];
    unfold Qltb;
    destruct (Qle_bool est (CostOps.max_cost_per_request g)) eqn:M; cbn [negb];
    try (destruct (Qle_bool (_ + est) (CostOps.daily_budget g)) eqn:B; cbn [negb]);
    cbn [fst snd CostOps.max_cost_per_request CostOps.daily_budget CostOps.daily_spend CostOps.last_reset];
    (repeat split; intros; try reflexivity; try lia; try discriminate);
    try (apply Qle_bool_iff; assumption);
    try match goal with
        | H : _ /\ _ |- _ => destruct H as [H1 H2];
            apply Qle_bool_iff in H1; apply Qle_bool_iff in H2; congruence
        end.
Qed.

(** X13: [check_budget] starts a new day (spend zero, [last_reset] moved
    to today) only when today is after [last_reset], and otherwise leaves
    the guard unchanged; it keeps the limits; and it allows an estimate
    exactly when the estimate is within the per-request limit and the
    day's spend (after any reset) plus the estimate is within the daily
    budget. *)
Theorem check_budget_allows_within_limits (g : CostOps.CostGuard) (today : Z) (est : Q) :
  let g1 := fst (CostOps.check_budget g today est) in
  CostOps.daily_budget g1 = CostOps.daily_budget g /\
  CostOps.max_cost_per_request g1 = CostOps.max_cost_per_request g /\
  ((CostOps.last_reset g < today)%Z -> CostOps.daily_spend g1 == 0 /\ CostOps.last_reset g1 = today) /\
  ((today <= CostOps.last_reset g)%Z -> g1 = g) /\
  (fst (snd (CostOps.check_budget g today est)) = true <->
   est <= CostOps.max_cost_per_request g /\ CostOps.daily_spend g1 + est <= CostOps.daily_budget g).
Proof. exact (check_budget_state g today est). Qed.

Lemma record_spend_state (g : CostOps.CostGuard) (cost : Q) :
  fst (CostOps.record_spend g cost) =
    CostOps.mkCostGuard (CostOps.max_cost_per_request g) (CostOps.daily_budget g)
      (CostOps.daily_spend g + cost) (CostOps.last_reset g) /\
  (snd (CostOps.record_spend g cost) = Raise ZeroDivisionError <-> CostOps.daily_budget g == 0) /\
  (snd (CostOps.record_spend g cost) = Ok tt <-> ~ CostOps.daily_budget g == 0).
Proof.
  unfold CostOps.record_spend, py_div. cbn [fst snd CostOps.daily_spend CostOps.daily_budget].
  split; [reflexivity|].
  destruct (Qeq_bool (CostOps.daily_budget g) 0) eqn:Z0.
  - apply Qeq_bool_iff in Z0. split; split; intro H; try reflexivity; try exact Z0;
      [discriminate | contradiction].
  - apply Qeq_bool_neq in Z0. split; split; intro H; try reflexivity; try exact Z0;
      [discriminate | contradiction].
Qed.

(** X14: [record_spend] always adds the cost to the day's spend, keeping
    the limits and the reset date; the utilisation it logs then raises
    [ZeroDivisionError] exactly when the daily budget is zero. *)
Theorem record_spend_zero_budget (g : CostOps.CostGuard) (cost : Q) :
  fst (CostOps.record_spend g cost) =
    CostOps.mkCostGuard (CostOps.max_cost_per_request g) (CostOps.daily_budget g)
      (CostOps.daily_spend g + cost) (CostOps.last_reset g) /\
  (snd (CostOps.record_spend g cost) = Raise ZeroDivisionError <-> CostOps.daily_budget g == 0) /\
  (snd (CostOps.record_spend g cost) = Ok tt <-> ~ CostOps.daily_budget g == 0).
Proof. exact (record_spend_state g cost). Qed.

(** X15: a guard whose budget is non-negative and whose spend is within
    it stays within it whatever sequence of estimates a caller checks and
    records (on any days), and keeps its limits; this holds also when the
    run ends in an exception. *)
Theorem run_guarded_within_budget (g : CostOps.CostGuard) (ops : list (Z * Q))
  (Hb : 0 <= CostOps.daily_budget g)
  (Hs : CostOps.daily_spend g <= CostOps.daily_budget g) :
  let g' := fst (CostOps.run_guarded g ops) in
  CostOps.daily_spend g' <= CostOps.daily_budget g' /\
  CostOps.daily_budget g' = CostOps.daily_budget g /\
  CostOps.max_cost_per_request g' = CostOps.max_cost_per_request g.
Proof.
  cbv zeta. revert g Hb Hs. induction ops as [|[today cost] ops IH]; intros g Hb Hs.
  - cbn. repeat split; assumption.
  - cbn [CostOps.run_guarded].
    destruct (check_budget_state g today cost) as (B1 & M1 & R1 & R2 & A1).
    destruct (CostOps.check_budget g today cost) as [g1 [allowed reason]] eqn:E.
    cbn [fst snd] in B1, M1, R1, R2, A1.
    assert (S1 : CostOps.daily_spend g1 <= CostOps.daily_budget g1).
    { destruct (Z.lt_ge_cases (CostOps.last_reset g) today) as [L|L].
      - destruct (R1 L) as [Z0 _]. rewrite B1. lra.
      - rewrite (R2 L). exact Hs. }
    destruct allowed.
    + destruct (proj1 A1 eq_refl) as [_ W].
      destruct (record_spend_state g1 cost) as [F _].
      destruct (CostOps.record_spend g1 cost) as [g2 r] eqn:E2. cbn [fst] in F. subst g2.
      assert (B2 : 0 <= CostOps.daily_budget g1) by (rewrite B1; exact Hb).
      destruct r as [u|e].
      * set (g2 := CostOps.mkCostGuard (CostOps.max_cost_per_request g1) (CostOps.daily_budget g1)
                     (CostOps.daily_spend g1 + cost) (CostOps.last_reset g1)).
        assert (B3 : 0 <= CostOps.daily_budget g2) by exact B2.
        assert (W3 : CostOps.daily_spend g2 <= CostOps.daily_budget g2)
          by (cbn [g2 CostOps.daily_spend CostOps.daily_budget]; rewrite B1; exact W).
        destruct (IH g2 B3 W3) as (X1 & X2 & X3).
        split; [exact X1|]. rewrite X2, X3. split; [exact B1|exact M1].
      * cbn [fst CostOps.daily_spend CostOps.daily_budget CostOps.max_cost_per_request].
        rewrite B1, M1. split; [exact W|]. split; reflexivity.
    + assert (B2 : 0 <= CostOps.daily_budget g1) by (rewrite B1; exact Hb).
      destruct (IH _ B2 S1) as (X1 & X2 & X3).
      split; [exact X1|]. rewrite X2, X3. split; [exact B1|exact M1].
Qed.

Lemma run_guarded_within_budget_witness :
  0 <= CostOps.daily_budget (CostOps.new_CostGuard 0.25 1000 738000) /\
  CostOps.daily_spend (CostOps.new_CostGuard 0.25 1000 738000) <=
    CostOps.daily_budget (CostOps.new_CostGuard 0.25 1000 738000) /\
  CostOps.daily_spend (fst (CostOps.run_guarded (CostOps.new_CostGuard 0.25 1000 738000)
    [(738000%Z, 0.2); (738000%Z, 0.3); (738001%Z, 0.25)])) <= 1000.
Proof.
  split; [discriminate|]. split; [discriminate|].
  destruct (run_guarded_within_budget (CostOps.new_CostGuard 0.25 1000 738000)
              [(738000%Z, 0.2); (738000%Z, 0.3); (738001%Z, 0.25)] ltac:(discriminate) ltac:(discriminate))
    as (H1 & H2 & _).
  rewrite H2 in H1. exact H1.
Defined.

(** ** More of the code: readmission explanations and interventions *)

Section SortDesc.
Context {A : Type} (key : A -> Q).

Lemma insert_desc_perm (x : A) (l : list A) : Permutation (insert_desc key x l) (x :: l).
Proof.
  induction l as [|y l IH]; cbn [insert_desc]; [reflexivity|].
  destruct (Qle_bool (key x) (key y)); [|reflexivity].
  transitivity (y :: x :: l); [constructor; exact IH | apply perm_swap].
Qed.

Lemma sort_desc_perm_acc (l acc : list A) :
  Permutation (fold_left (fun acc x => insert_desc key x acc) l acc) (l ++ acc).
Proof.
  revert acc. induction l as [|x l IH]; intro acc; cbn [fold_left app]; [reflexivity|].
  rewrite IH, insert_desc_perm. symmetry. apply Permutation_middle.
Qed.

Lemma sort_desc_perm (l : list A) : Permutation (sort_desc key l) l.
Proof. unfold sort_desc. rewrite sort_desc_perm_acc, app_nil_r. reflexivity. Qed.

Lemma insert_desc_sorted (x : A) (l : list A) :
  Sorted (fun a b => key b <= key a) l -> Sorted (fun a b => key b <= key a) (insert_desc key x l).
Proof.
  induction l as [|y l IH]; intro H; cbn [insert_desc]; [repeat constructor|].
  destruct (Qle_bool (key x) (key y)) eqn:L.
  - apply Qle_bool_iff in L. apply Sorted_inv in H as [Hl Hh].
    constructor; [exact (IH Hl)|].
    destruct l as [|z l]; cbn [insert_desc]; [constructor; exact L|].
    apply HdRel_inv in Hh.
    destruct (Qle_bool (key x) (key z)); constructor; assumption.
  - apply Qle_bool_false_iff in L. constructor; [exact H|]. constructor. lra.
Qed.

Lemma sort_desc_sorted (l : list A) : Sorted (fun a b => key b <= key a) (sort_desc key l).
Proof.
  unfold sort_desc. assert (H0 : Sorted (fun a b => key b <= key a) (@nil A)) by constructor.
  revert H0. generalize (@nil A) as acc. induction l as [|x l IH]; intros acc H; cbn [fold_left];
    [exact H | apply IH, insert_desc_sorted, H].
Qed.

(** [sort(...)[:n]] of a list of at most [n] elements reorders it. *)
Lemma firstn_sort_desc_perm (n : nat) (l : list A) :
  (length l <= n)%nat -> firstn n (sort_desc key l) = sort_desc key l.
Proof.
  intro H. apply firstn_all2. rewrite (Permutation_length (sort_desc_perm l)). exact H.
Qed.

(** An element whose key is not above any other goes last. *)
Lemma insert_desc_last (x : A) (l : list A) :
  Forall (fun y => key x <= key y) l -> insert_desc key x l = (l ++ [x])%list.
Proof.
  induction l as [|y l IH]; intro H; cbn [insert_desc app]; [reflexivity|].
  apply Forall_cons_iff in H as [Hy Hl].
  apply Qle_bool_iff in Hy. rewrite Hy, IH by exact Hl. reflexivity.
Qed.

End SortDesc.

Lemma NoDup_map_filter {A B} (key : A -> B) (keep : A -> bool) (xs : list A) :
  NoDup (map key xs) -> NoDup (map key (filter keep xs)).
Proof.
  induction xs as [|x xs IH]; cbn [filter map]; intro H; [constructor|].
  apply NoDup_cons_iff in H as [Hx Hl].
  destruct (keep x); cbn [map]; [|exact (IH Hl)].
  constructor; [|exact (IH Hl)].
  intro Hin. apply Hx. apply in_map_iff in Hin as [y [Ey Hy]]. apply filter_In in Hy.
  rewrite <- Ey. apply in_map, Hy.
Qed.

Lemma NoDup_firstn' {A} (n : nat) (l : list A) : NoDup l -> NoDup (firstn n l).
Proof.
  intro H. rewrite <- (firstn_skipn n l) in H. exact (NoDup_app_remove_r _ _ H).
Qed.

Ltac factor_cases :=
  repeat match goal with
  | |- context [(?a <? ?b)%Z] => destruct (Z.ltb_spec a b)
  | |- context [Qltb ?a ?b] =>
      let L := fresh "L" in destruct (Qltb a b) eqn:L;
      [apply Qltb_iff in L | apply Qltb_false in L]
  end.

Lemma contributing_factors_facts (f : Readmission.Features) :
  let cf := ReadmissionExplain._calculate_contributing_factors f in
  Sorted (fun a b => ReadmissionExplain.weight b <= ReadmissionExplain.weight a) cf /\
  Forall (fun c => 0 < ReadmissionExplain.weight c) cf /\
  NoDup (map ReadmissionExplain.factor_name cf) /\
  (forall c, In c cf -> In (ReadmissionExplain.factor_name c)
     ["prior_admissions_12m"; "length_of_stay"; "charlson_comorbidity_index";
      "polypharmacy_count"; "social_support_score"]) /\
  (In "prior_admissions_12m" (map ReadmissionExplain.factor_name cf) <->
     (0 < Readmission.prior_admissions_12m f)%Z) /\
  (In "length_of_stay" (map ReadmissionExplain.factor_name cf) <->
     (4 < Readmission.length_of_stay f)%Z) /\
  (In "charlson_comorbidity_index" (map ReadmissionExplain.factor_name cf) <->
     (2 < Readmission.charlson_comorbidity_index f)%Z) /\
  (In "polypharmacy_count" (map ReadmissionExplain.factor_name cf) <->
     (5 < Readmission.polypharmacy_count f)%Z) /\
  (In "social_support_score" (map ReadmissionExplain.factor_name cf) <->
     Readmission.social_support_score f < 0.6).
Proof.
  cbv zeta. unfold ReadmissionExplain._calculate_contributing_factors.
  match goal with |- context [sort_desc ReadmissionExplain.weight ?l] => set (fs := l) end.
  assert (W1 : (0 < Readmission.prior_admissions_12m f)%Z ->
               0 < py_min (inject_Z (Readmission.prior_admissions_12m f) * 0.08) 0.30).
  { intro H. assert (1 <= inject_Z (Readmission.prior_admissions_12m f))
      by (change 1 with (inject_Z 1); rewrite <- Zle_Qle; lia).
    unfold py_min. destruct (Qltb 0.30 _); lra. }
  assert (W3 : (2 < Readmission.charlson_comorbidity_index f)%Z ->
               0 < inject_Z (Readmission.charlson_comorbidity_index f) * 0.03).
  { intro H. assert (1 <= inject_Z (Readmission.charlson_comorbidity_index f))
      by (change 1 with (inject_Z 1); rewrite <- Zle_Qle; lia). lra. }
  assert (W5 : Readmission.social_support_score f < 0.6 ->
               0 < (1 - Readmission.social_support_score f) * 0.08) by (intro; lra).
  assert (Hfs : (length fs <= 5)%nat /\
                Forall (fun c => 0 < ReadmissionExplain.weight c) fs /\
                NoDup (map ReadmissionExplain.factor_name fs) /\
                (forall c, In c fs -> In (ReadmissionExplain.factor_name c)
                   ["prior_admissions_12m"; "length_of_stay"; "charlson_comorbidity_index";
                    "polypharmacy_count"; "social_support_score"]) /\
                (In "prior_admissions_12m" (map ReadmissionExplain.factor_name fs) <->
                   (0 < Readmission.prior_admissions_12m f)%Z) /\
                (In "length_of_stay" (map ReadmissionExplain.factor_name fs) <->
                   (4 < Readmission.length_of_stay f)%Z) /\
                (In "charlson_comorbidity_index" (map ReadmissionExplain.factor_name fs) <->
                   (2 < Readmission.charlson_comorbidity_index f)%Z) /\
                (In "polypharmacy_count" (map ReadmissionExplain.factor_name fs) <->
                   (5 < Readmission.polypharmacy_count f)%Z) /\
                (In "social_support_score" (map ReadmissionExplain.factor_name fs) <->
                   Readmission.social_support_score f < 0.6)).
  { unfold fs. factor_cases; cbn [app length map In ReadmissionExplain.factor_name];
    (split; [lia|]);
    (split; [apply Forall_forall; intros c Hc; repeat destruct Hc as [<-|Hc]; try contradiction;
             cbn [ReadmissionExplain.weight];
             first [reflexivity | apply W1; assumption | apply W3; assumption | apply W5; assumption]|]);
    (split; [repeat (constructor; [cbn [In]; intuition discriminate|]); constructor|]);
    (split; [intros c Hc; repeat destruct Hc as [<-|Hc]; try contradiction;
             cbn [ReadmissionExplain.factor_name]; tauto|]);
    intuition (try discriminate; try lia; try lra). }
  destruct Hfs as (Hl & H1 & H2 & H3 & H4).
  rewrite (firstn_sort_desc_perm _ 5 fs Hl).
  pose proof (sort_desc_perm ReadmissionExplain.weight fs) as P.
  pose proof (Permutation_map ReadmissionExplain.factor_name P) as PM.
  split; [apply sort_desc_sorted|].
  split; [rewrite Forall_forall in *; intros c Hc; apply H1, (Permutation_in _ P Hc)|].
  split; [exact (Permutation_NoDup (Permutation_sym PM) H2)|].
  split; [intros c Hc; apply H3, (Permutation_in _ P Hc)|].
  assert (E : forall n, In n (map ReadmissionExplain.factor_name (sort_desc ReadmissionExplain.weight fs)) <->
                        In n (map ReadmissionExplain.factor_name fs)).
  { intro n. split; [apply Permutation_in, PM | apply Permutation_in, Permutation_sym, PM]. }
  rewrite !E. exact H4.
Qed.

(** X16: [_calculate_contributing_factors] returns its factors sorted by
    non-increasing weight, each with a positive weight and a distinct
    name drawn from the five it checks (never [discharge_disposition],
    [ed_visits_6m] or [age]); each of the five is listed exactly when its
    threshold is crossed, so the [[:5]] cut never drops one. *)
Theorem contributing_factors_sorted_positive (f : Readmission.Features) :
  let cf := ReadmissionExplain._calculate_contributing_factors f in
  Sorted (fun a b => ReadmissionExplain.weight b <= ReadmissionExplain.weight a) cf /\
  Forall (fun c => 0 < ReadmissionExplain.weight c) cf /\
  NoDup (map ReadmissionExplain.factor_name cf) /\
  (forall c, In c cf -> In (ReadmissionExplain.factor_name c)
     ["prior_admissions_12m"; "length_of_stay"; "charlson_comorbidity_index";
      "polypharmacy_count"; "social_support_score"]) /\
  (In "prior_admissions_12m" (map ReadmissionExplain.factor_name cf) <->
     (0 < Readmission.prior_admissions_12m f)%Z) /\
  (In "length_of_stay" (map ReadmissionExplain.factor_name cf) <->
     (4 < Readmission.length_of_stay f)%Z) /\
  (In "charlson_comorbidity_index" (map ReadmissionExplain.factor_name cf) <->
     (2 < Readmission.charlson_comorbidity_index f)%Z) /\
  (In "polypharmacy_count" (map ReadmissionExplain.factor_name cf) <->
     (5 < Readmission.polypharmacy_count f)%Z) /\
  (In "social_support_score" (map ReadmissionExplain.factor_name cf) <->
     Readmission.social_support_score f < 0.6).
Proof. exact (contributing_factors_facts f). Qed.

Lemma flat_map_single_snd {A B} (p : A -> bool) (g : A -> B) (l : list A) :
  map snd (flat_map (fun x => if p x then [(g x, x)] else []) l) = filter p l.
Proof.
  induction l as [|x l IH]; cbn [flat_map filter]; [reflexivity|].
  destruct (p x); cbn [app map snd]; rewrite IH; reflexivity.
Qed.

Lemma score_interventions_snd (tier : Readmission.RiskTier) (names : list string) :
  map snd (ReadmissionExplain.score_interventions tier names) =
  filter (fun iv => (0 <? ReadmissionExplain.overlap_count (ReadmissionExplain.target_factors iv) names)%nat
                    || match tier with Readmission.HIGH | Readmission.CRITICAL => true | _ => false end)
    ReadmissionExplain.interventions.
Proof. unfold ReadmissionExplain.score_interventions. apply flat_map_single_snd. Qed.

Lemma In_firstn' {A} (n : nat) (l : list A) (x : A) : In x (firstn n l) -> In x l.
Proof. intro H. rewrite <- (firstn_skipn n l). apply in_or_app. left. exact H. Qed.

Lemma interventions_ids_nodup :
  NoDup (map ReadmissionExplain.intervention_id ReadmissionExplain.interventions).
Proof.
  cbn. repeat (constructor; [cbn [In]; intuition discriminate|]). constructor.
Qed.

(** The recommendations of a non-LOW tier: the first [keep_for] of a
    reordering of the catalogue entries its filter keeps. *)
Lemma recommend_shape (tier : Readmission.RiskTier) (fs : list ReadmissionExplain.ContributingFactor) :
  tier <> Readmission.LOW ->
  exists L,
    ReadmissionExplain._recommend_interventions tier fs = firstn (ReadmissionExplain.keep_for tier) L /\
    Permutation L
      (filter (fun iv => (0 <? ReadmissionExplain.overlap_count (ReadmissionExplain.target_factors iv)
                                  (map ReadmissionExplain.factor_name fs))%nat
                         || match tier with Readmission.HIGH | Readmission.CRITICAL => true | _ => false end)
         ReadmissionExplain.interventions).
Proof.
  intro Hl. exists (map snd (sort_desc fst (ReadmissionExplain.score_interventions tier
                                               (map ReadmissionExplain.factor_name fs)))).
  split.
  - unfold ReadmissionExplain._recommend_interventions.
    destruct tier; [contradiction | | |]; cbv zeta; rewrite firstn_map; reflexivity.
  - rewrite <- score_interventions_snd. apply Permutation_map, sort_desc_perm.
Qed.

(** X17: [_recommend_interventions] returns nothing for LOW risk; for
    HIGH and CRITICAL it always returns exactly 3 and 4 interventions,
    even when no factor matches; for MEDIUM at most 2, each targeting at
    least one of the given factors; every recommendation comes from the
    catalogue, and none is repeated. *)
Theorem recommend_interventions_by_tier (tier : Readmission.RiskTier)
  (fs : list ReadmissionExplain.ContributingFactor) :
  let r := ReadmissionExplain._recommend_interventions tier fs in
  (tier = Readmission.LOW -> r = []) /\
  (tier = Readmission.MEDIUM -> (length r <= 2)%nat /\
     forall iv, In iv r ->
       (0 < ReadmissionExplain.overlap_count (ReadmissionExplain.target_factors iv)
              (map ReadmissionExplain.factor_name fs))%nat) /\
  (tier = Readmission.HIGH -> length r = 3%nat) /\
  (tier = Readmission.CRITICAL -> length r = 4%nat) /\
  (forall iv, In iv r -> In iv ReadmissionExplain.interventions) /\
  NoDup (map ReadmissionExplain.intervention_id r).
Proof.
  cbv zeta.
  assert (D : tier = Readmission.LOW \/ tier <> Readmission.LOW)
    by (destruct tier; [left; reflexivity | right; discriminate ..]).
  destruct D as [->|Hl].
  { cbn. repeat split; intros; try discriminate; try contradiction; constructor. }
  destruct (recommend_shape tier fs Hl) as [L [E P]]. rewrite E.
  assert (Hin : forall iv, In iv (firstn (ReadmissionExplain.keep_for tier) L) ->
                 In iv ReadmissionExplain.interventions /\
                 ((0 <? ReadmissionExplain.overlap_count (ReadmissionExplain.target_factors iv)
                          (map ReadmissionExplain.factor_name fs))%nat
                  || match tier with Readmission.HIGH | Readmission.CRITICAL => true | _ => false end) = true).
  { intros iv H. apply In_firstn', (Permutation_in _ P), filter_In in H. exact H. }
  assert (Hlen : length (firstn (ReadmissionExplain.keep_for tier) L) =
                 Nat.min (ReadmissionExplain.keep_for tier)
                   (length (filter (fun iv => (0 <? ReadmissionExplain.overlap_count
                                                   (ReadmissionExplain.target_factors iv)
                                                   (map ReadmissionExplain.factor_name fs))%nat
                             || match tier with Readmission.HIGH | Readmission.CRITICAL => true | _ => false end)
                      ReadmissionExplain.interventions)))
    by (rewrite length_firstn, (Permutation_length P); reflexivity).
  split; [intro; contradiction|].
  split; [|split; [|split; [|split]]].
  - intros ->. split.
    + rewrite Hlen. cbn [ReadmissionExplain.keep_for]. lia.
    + intros iv H. destruct (Hin iv H) as [_ Hp]. rewrite orb_false_r in Hp.
      apply Nat.ltb_lt, Hp.
  - intros ->. rewrite Hlen. cbn [ReadmissionExplain.interventions filter].
    rewrite !orb_true_r. reflexivity.
  - intros ->. rewrite Hlen. cbn [ReadmissionExplain.interventions filter].
    rewrite !orb_true_r. reflexivity.
  - intros iv H. exact (proj1 (Hin iv H)).
  - rewrite <- firstn_map. apply NoDup_firstn'.
    apply (Permutation_NoDup (Permutation_sym (Permutation_map _ P))).
    apply NoDup_map_filter, interventions_ids_nodup.
Qed.

Lemma overlap_single_absent (t : string) (names : list string) :
  ~ In t names -> ReadmissionExplain.overlap_count [t] names = 0%nat.
Proof.
  intro H. unfold ReadmissionExplain.overlap_count. cbn [ReadmissionExplain.str_dedup existsb].
  cbn [filter]. destruct (existsb (String.eqb t) names) eqn:E; [|reflexivity].
  apply existsb_exists in E as [y [Hy Ey]]. apply String.eqb_eq in Ey. subst y. contradiction.
Qed.

Lemma sort_desc_snoc {A} (key : A -> Q) (l : list A) (x : A) :
  Forall (fun y => key x <= key y) l -> sort_desc key (l ++ [x]) = (sort_desc key l ++ [x])%list.
Proof.
  intro H.
  assert (H' : Forall (fun y => key x <= key y) (sort_desc key l)).
  { rewrite Forall_forall in *. intros y Hy. apply H, (Permutation_in _ (sort_desc_perm key l) Hy). }
  unfold sort_desc in *. rewrite fold_left_app. cbn [fold_left]. apply insert_desc_last, H'.
Qed.

Lemma zero_score_le (n : nat) (r : Q) :
  0 <= r -> inject_Z (Z.of_nat 0) * 0.08 <= inject_Z (Z.of_nat n) * r.
Proof.
  intro Hr. assert (Hn : 0 <= inject_Z (Z.of_nat n))
    by (change 0 with (inject_Z 0); rewrite <- Zle_Qle; lia).
  assert (0 <= inject_Z (Z.of_nat n) * r) by (apply Qmult_le_0_compat; assumption).
  assert (E : inject_Z (Z.of_nat 0) * 0.08 == 0) by reflexivity. lra.
Qed.

(** [_recommend_interventions] never recommends "int-005" (which targets
    only [discharge_disposition]) for factors not naming that factor. *)
Lemma int005_not_recommended (tier : Readmission.RiskTier)
  (fs : list ReadmissionExplain.ContributingFactor) :
  ~ In "discharge_disposition" (map ReadmissionExplain.factor_name fs) ->
  ~ In "int-005" (map ReadmissionExplain.intervention_id (ReadmissionExplain._recommend_interventions tier fs)).
Proof.
  intros Hd Hin. apply in_map_iff in Hin as [iv [Eid Hiv]].
  pose proof (overlap_single_absent _ _ Hd) as Ov.
  destruct tier.
  - cbn in Hiv. exact Hiv.
  - destruct (recommend_shape Readmission.MEDIUM fs ltac:(discriminate)) as [L [E P]].
    rewrite E in Hiv. apply In_firstn', (Permutation_in _ P), filter_In in Hiv as [Hi Hp].
    cbn [ReadmissionExplain.interventions In] in Hi.
    repeat destruct Hi as [<-|Hi]; try contradiction; cbn in Eid; try discriminate.
    cbn [ReadmissionExplain.target_factors] in Hp. rewrite Ov in Hp. discriminate.
  - unfold ReadmissionExplain._recommend_interventions, ReadmissionExplain.score_interventions in Hiv.
    cbv zeta in Hiv.
    cbn [flat_map ReadmissionExplain.interventions ReadmissionExplain.target_factors
         ReadmissionExplain.estimated_risk_reduction] in Hiv.
    rewrite !orb_true_r, Ov in Hiv. cbn [app] in Hiv.
    match type of Hiv with context [sort_desc fst [?a; ?b; ?c; ?d; ?e]] =>
      change (sort_desc fst [a; b; c; d; e]) with (sort_desc fst ([a; b; c; d] ++ [e])%list) in Hiv;
      rewrite (sort_desc_snoc fst [a; b; c; d] e) in Hiv
        by (apply Forall_forall; intros y Hy; cbn [In] in Hy;
            repeat destruct Hy as [<-|Hy]; try contradiction;
            cbn [fst]; apply zero_score_le, Qle_bool_iff; reflexivity);
      rewrite firstn_app, (Permutation_length (sort_desc_perm fst [a; b; c; d])) in Hiv;
      cbn [length ReadmissionExplain.keep_for Nat.sub] in Hiv;
      rewrite firstn_O, app_nil_r in Hiv;
      apply in_map_iff in Hiv as [pr [Epr Hpr]];
      apply In_firstn', (Permutation_in _ (sort_desc_perm fst [a; b; c; d])) in Hpr
    end.
    cbn [In] in Hpr. repeat destruct Hpr as [<-|Hpr]; try contradiction; subst iv; cbn in Eid; discriminate.
  - unfold ReadmissionExplain._recommend_interventions, ReadmissionExplain.score_interventions in Hiv.
    cbv zeta in Hiv.
    cbn [flat_map ReadmissionExplain.interventions ReadmissionExplain.target_factors
         ReadmissionExplain.estimated_risk_reduction] in Hiv.
    rewrite !orb_true_r, Ov in Hiv. cbn [app] in Hiv.
    match type of Hiv with context [sort_desc fst [?a; ?b; ?c; ?d; ?e]] =>
      change (sort_desc fst [a; b; c; d; e]) with (sort_desc fst ([a; b; c; d] ++ [e])%list) in Hiv;
      rewrite (sort_desc_snoc fst [a; b; c; d] e) in Hiv
        by (apply Forall_forall; intros y Hy; cbn [In] in Hy;
            repeat destruct Hy as [<-|Hy]; try contradiction;
            cbn [fst]; apply zero_score_le, Qle_bool_iff; reflexivity);
      rewrite firstn_app, (Permutation_length (sort_desc_perm fst [a; b; c; d])) in Hiv;
      cbn [length ReadmissionExplain.keep_for Nat.sub] in Hiv;
      rewrite firstn_O, app_nil_r in Hiv;
      apply in_map_iff in Hiv as [pr [Epr Hpr]];
      apply In_firstn', (Permutation_in _ (sort_desc_perm fst [a; b; c; d])) in Hpr
    end.
    cbn [In] in Hpr. repeat destruct Hpr as [<-|Hpr]; try contradiction; subst iv; cbn in Eid; discriminate.
Qed.

(** X18: whatever the risk tier, the interventions recommended for the
    factors [_calculate_contributing_factors] returns never include
    "int-005" (Telemedicine Follow-up): its only target,
    [discharge_disposition], is never a contributing factor, so it scores
    zero and, being last in the catalogue, is never among the kept ones. *)
Theorem telemedicine_never_recommended (tier : Readmission.RiskTier) (f : Readmission.Features) :
  ~ In "int-005" (map ReadmissionExplain.intervention_id
       (ReadmissionExplain._recommend_interventions tier
          (ReadmissionExplain._calculate_contributing_factors f))).
Proof.
  apply int005_not_recommended. intro H.
  apply in_map_iff in H as [c [Ec Hc]].
  destruct (contributing_factors_facts f) as (_ & _ & _ & H5 & _).
  destruct (H5 c Hc) as [E|[E|[E|[E|[E|[]]]]]]; rewrite Ec in E; discriminate.
Qed.

(** ** More of the code: the care-gap rules engine *)

Lemma assign_gap_ids_length (uid : nat -> string) (k : nat) (l : list (string -> CareGaps.CareGap)) :
  length (CareGapRules.assign_gap_ids uid k l) = length l.
Proof. revert k. induction l as [|mk l IH]; intro k; cbn; [reflexivity | rewrite IH; reflexivity]. Qed.

Lemma assign_gap_ids_ids (uid : nat -> string) (k : nat) (l : list (string -> CareGaps.CareGap)) :
  Forall (fun mk => forall s, CareGaps.gap_id (mk s) = s) l ->
  map CareGaps.gap_id (CareGapRules.assign_gap_ids uid k l) =
  map (fun i => "gap-" ++ uid i) (seq k (length l)).
Proof.
  revert k. induction l as [|mk l IH]; intros k H; cbn [CareGapRules.assign_gap_ids map seq length];
    [reflexivity|].
  apply Forall_cons_iff in H as [H1 H2]. rewrite H1, IH by exact H2. reflexivity.
Qed.

Lemma assign_gap_ids_Forall (P : CareGaps.CareGap -> Prop) (uid : nat -> string) (k : nat)
  (l : list (string -> CareGaps.CareGap)) :
  Forall (fun mk => forall s, P (mk s)) l -> Forall P (CareGapRules.assign_gap_ids uid k l).
Proof.
  revert k. induction l as [|mk l IH]; intros k H; cbn [CareGapRules.assign_gap_ids]; [constructor|].
  apply Forall_cons_iff in H as [H1 H2]. constructor; [apply H1 | exact (IH _ H2)].
Qed.

Lemma assign_gap_ids_In (uid : nat -> string) (k : nat) (l : list (string -> CareGaps.CareGap))
  (mk : string -> CareGaps.CareGap) :
  In mk l -> exists s, In (mk s) (CareGapRules.assign_gap_ids uid k l).
Proof.
  revert k. induction l as [|mk' l IH]; intros k H; [destruct H|].
  destruct H as [<-|H]; cbn [CareGapRules.assign_gap_ids].
  - eexists. left. reflexivity.
  - destruct (IH (S k) H) as [s Hs]. exists s. right. exact Hs.
Qed.

Lemma assign_gap_ids_In_inv (uid : nat -> string) (k : nat) (l : list (string -> CareGaps.CareGap))
  (g : CareGaps.CareGap) :
  In g (CareGapRules.assign_gap_ids uid k l) -> exists mk s, In mk l /\ g = mk s.
Proof.
  revert k. induction l as [|mk l IH]; intros k H; cbn [CareGapRules.assign_gap_ids] in H; [destruct H|].
  destruct H as [<-|H].
  - exists mk, ("gap-" ++ uid k). split; [left|]; reflexivity.
  - destruct (IH (S k) H) as (mk' & s & H1 & H2). exists mk', s. split; [right; exact H1 | exact H2].
Qed.

Ltac gap_segments :=
  repeat match goal with
  | |- context [if ?b then _ else _] => destruct b
  | |- context [match ?o with Some _ => _ | None => _ end] => destruct o
  end.

(** The invariant every [CareGap(...)] call of [_evaluate_gaps] satisfies. *)
Lemma pending_gaps_shape (today : Z * Z * Z) (f : CareGapRules.CareFeatures) :
  Forall (fun mk => forall s,
            CareGaps.gap_id (mk s) = s /\
            (CareGaps.priority (mk s) = CareGaps.P_HIGH \/ CareGaps.priority (mk s) = CareGaps.P_MEDIUM) /\
            (CareGaps.gap_type (mk s) = CareGaps.SCREENING \/ CareGaps.gap_type (mk s) = CareGaps.LAB_TEST \/
             CareGaps.gap_type (mk s) = CareGaps.VACCINATION) /\
            0.55 <= CareGaps.estimated_impact (mk s) <= 0.90 /\
            (CareGaps.gap_type (mk s) = CareGaps.LAB_TEST -> CareGapRules.has_diabetes f = true) /\
            (CareGaps.name (mk s) = "Diabetic Eye Exam" -> CareGapRules.has_diabetes f = true))
    (CareGapRules.pending_gaps today f).
Proof.
  unfold CareGapRules.pending_gaps. cbv zeta. rewrite !Forall_app.
  repeat split; gap_segments;
    repeat first [ apply Forall_nil | apply Forall_cons ];
    try (rewrite Forall_app; split; gap_segments; repeat first [ apply Forall_nil | apply Forall_cons ]);
    intro s; cbn [CareGapRules.gap_with CareGaps.gap_id CareGaps.priority CareGaps.gap_type
                  CareGaps.estimated_impact CareGaps.name];
    (split; [reflexivity|]);
    (split; [first [left; reflexivity | right; reflexivity]|]);
    (split; [first [left; reflexivity | right; left; reflexivity | right; right; reflexivity]|]);
    (split; [split; apply Qle_bool_iff; reflexivity|]);
    split; intro E; try discriminate; try reflexivity; assumption.
Qed.

(** X19: the gaps [_evaluate_gaps] returns number at most six, carry the
    ids "gap-" ++ uid 0, "gap-" ++ uid 1, ... in order, are each HIGH or
    MEDIUM priority, of type SCREENING, LAB_TEST or VACCINATION, with an
    estimated impact between 0.55 and 0.90; a "Diabetic Eye Exam" gap is
    present exactly when the patient has diabetes, and only then can a
    LAB_TEST gap appear. *)
Theorem evaluate_gaps_shape (today : Z * Z * Z) (uid : nat -> string) (f : CareGapRules.CareFeatures) :
  let gs := CareGapRules._evaluate_gaps today uid f in
  (length gs <= 6)%nat /\
  map CareGaps.gap_id gs = map (fun i => "gap-" ++ uid i) (seq 0 (length gs)) /\
  Forall (fun g =>
            (CareGaps.priority g = CareGaps.P_HIGH \/ CareGaps.priority g = CareGaps.P_MEDIUM) /\
            (CareGaps.gap_type g = CareGaps.SCREENING \/ CareGaps.gap_type g = CareGaps.LAB_TEST \/
             CareGaps.gap_type g = CareGaps.VACCINATION) /\
            0.55 <= CareGaps.estimated_impact g <= 0.90 /\
            (CareGaps.gap_type g = CareGaps.LAB_TEST -> CareGapRules.has_diabetes f = true)) gs /\
  (In "Diabetic Eye Exam" (map CareGaps.name gs) <-> CareGapRules.has_diabetes f = true).
Proof.
  cbv zeta. unfold CareGapRules._evaluate_gaps.
  pose proof (pending_gaps_shape today f) as Sh.
  split; [|split; [|split]].
  - rewrite assign_gap_ids_length. unfold CareGapRules.pending_gaps. cbv zeta.
    rewrite !length_app. gap_segments; cbn [length app]; lia.
  - rewrite assign_gap_ids_length. apply assign_gap_ids_ids.
    eapply Forall_impl; [|exact Sh]. intros mk H s. apply (H s).
  - apply assign_gap_ids_Forall. eapply Forall_impl; [|exact Sh].
    intros mk H s. destruct (H s) as (_ & H1 & H2 & H3 & H4 & _). tauto.
  - split.
    + intro Hin. apply in_map_iff in Hin as [g [Eg Hg]].
      apply assign_gap_ids_In_inv in Hg as (mk & s & Hmk & ->).
      rewrite Forall_forall in Sh. exact (proj2 (proj2 (proj2 (proj2 (proj2 (Sh mk Hmk s))))) Eg).
    + intro Hd.
      assert (Hmk : In (CareGapRules.gap_with CareGaps.SCREENING "Diabetic Eye Exam"
                          "Annual dilated eye exam recommended for diabetes management" "ADA Standards 2024"
                          (date_add today 60) CareGaps.P_MEDIUM ["E11.9"; "Z13.5"] ["92004"; "92014"] 0.70)
                       (CareGapRules.pending_gaps today f)).
      { unfold CareGapRules.pending_gaps. cbv zeta. rewrite Hd.
        apply in_or_app; right. apply in_or_app; right. apply in_or_app; left.
        apply in_or_app; right. left. reflexivity. }
      destruct (assign_gap_ids_In uid 0 _ _ Hmk) as [s Hs].
      apply in_map_iff. eexists; split; [|exact Hs]. reflexivity.
Qed.

Lemma sum_Q_bounds (l : list Q) (a b : Q) :
  Forall (fun x => a <= x <= b) l ->
  inject_Z (Z.of_nat (length l)) * a <= sum_Q l <= inject_Z (Z.of_nat (length l)) * b.
Proof.
  induction l as [|x l IH]; intro H; cbn [sum_Q length].
  - change (inject_Z (Z.of_nat 0)) with 0. split; lra.
  - apply Forall_cons_iff in H as [Hx Hl]. destruct (IH Hl) as [L U].
    rewrite Nat2Z.inj_succ, <- Z.add_1_r, inject_Z_plus. change (inject_Z 1) with 1.
    split; lra.
Qed.

(** The score of a non-empty list whose terms lie in [[a, b]], with [b < 1]. *)
Lemma risk_score_between (gs : list CareGaps.CareGap) (a b : Q) :
  gs <> [] -> b < 1 ->
  Forall (fun g => a <= CareGaps.priority_weights (CareGaps.priority g) * CareGaps.estimated_impact g <= b) gs ->
  a <= CareGaps._calculate_risk_score gs <= b.
Proof.
  intros Hne Hb H. unfold CareGaps._calculate_risk_score.
  assert (Hn : 1 <= inject_Z (Z.of_nat (length gs))).
  { change 1 with (inject_Z 1). rewrite <- Zle_Qle.
    destruct gs; [contradiction|]. cbn [length]. lia. }
  destruct gs as [|g0 gs0] eqn:Eg; [contradiction|]. rewrite <- Eg in *. clear g0 gs0 Eg Hne.
  set (n := inject_Z (Z.of_nat (length gs))) in *.
  set (ws := sum_Q (map (fun g => CareGaps.priority_weights (CareGaps.priority g) * CareGaps.estimated_impact g) gs)).
  assert (B : n * a <= ws <= n * b).
  { unfold ws, n. rewrite <- (length_map (fun g => CareGaps.priority_weights (CareGaps.priority g) * CareGaps.estimated_impact g) gs).
    apply sum_Q_bounds. apply Forall_map. exact H. }
  assert (Hpos : 0 < n * 1.0) by lra.
  assert (Lo : a <= ws / (n * 1.0)).
  { apply Qle_shift_div_l; [exact Hpos|]. lra. }
  assert (Hi : ws / (n * 1.0) <= b).
  { apply Qle_shift_div_r; [exact Hpos|]. lra. }
  rewrite (proj2 (Qltb_iff 0 (n * 1.0)) Hpos).
  unfold py_min. destruct (Qltb 1.0 (ws / (n * 1.0))) eqn:E.
  - apply Qltb_iff in E. lra.
  - split; assumption.
Qed.

(** X20: the risk score [_calculate_risk_score] gives the gaps
    [_evaluate_gaps] returns is 0.0 when there are none, and otherwise lies
    strictly between 1/4 and 3/4, so the [min(..., 1.0)] cap never applies.
    Each weighted impact is between 0.5 * 0.55 and 0.8 * 0.90; the float
    code can miss these exact ends by a rounding step (0.8 * 0.9 is
    0.7200000000000001), far less than the margin to 1/4 and 3/4. *)
Theorem evaluate_gaps_risk_score (today : Z * Z * Z) (uid : nat -> string) (f : CareGapRules.CareFeatures) :
  let gs := CareGapRules._evaluate_gaps today uid f in
  (gs = [] -> CareGaps._calculate_risk_score gs = 0.0) /\
  (gs <> [] -> 1 # 4 < CareGaps._calculate_risk_score gs < 3 # 4).
Proof.
  cbv zeta. split; [intros ->; reflexivity|].
  intro Hne.
  assert (B : 0.275 <= CareGaps._calculate_risk_score (CareGapRules._evaluate_gaps today uid f) <= 0.72).
  { apply risk_score_between; [exact Hne | reflexivity |].
    unfold CareGapRules._evaluate_gaps. apply assign_gap_ids_Forall.
    eapply Forall_impl; [|exact (pending_gaps_shape today f)].
    intros mk H s. destruct (H s) as (_ & [P|P] & _ & [L U] & _); rewrite P; cbn [CareGaps.priority_weights];
      split; lra. }
  destruct B. split; lra.
Qed.

Lemma pending_gaps_covered (today : Z * Z * Z) (f : CareGapRules.CareFeatures) :
  Forall (fun mk => forall s,
            CareGaps.priority (mk s) = CareGaps.P_HIGH \/
            CareGaps.gap_type (mk s) = CareGaps.SCREENING \/
            CareGaps.gap_type (mk s) = CareGaps.VACCINATION)
    (CareGapRules.pending_gaps today f).
Proof.
  unfold CareGapRules.pending_gaps. cbv zeta. rewrite !Forall_app.
  repeat split; gap_segments;
    repeat first [ apply Forall_nil | apply Forall_cons ];
    try (rewrite Forall_app; split; gap_segments; repeat first [ apply Forall_nil | apply Forall_cons ]);
    intro s; cbn [CareGapRules.gap_with CareGaps.priority CareGaps.gap_type];
    first [left; reflexivity | right; left; reflexivity | right; right; reflexivity].
Qed.

(** For gaps each of HIGH priority or of type SCREENING or VACCINATION,
    [_generate_recommendations] is empty exactly when there is no gap. *)
Lemma recommendations_empty_iff (gs : list CareGaps.CareGap) :
  Forall (fun g => CareGaps.priority g = CareGaps.P_HIGH \/ CareGaps.gap_type g = CareGaps.SCREENING \/
                   CareGaps.gap_type g = CareGaps.VACCINATION) gs ->
  (CareGapRules._generate_recommendations gs = [] <-> gs = []).
Proof.
  intro H. split; [|intros ->; reflexivity].
  intro E. destruct gs as [|g gs]; [reflexivity|]. exfalso.
  apply Forall_cons_iff in H as [Hg _].
  unfold CareGapRules._generate_recommendations in E. cbv zeta in E.
  apply app_eq_nil in E as [E1 E]. apply app_eq_nil in E as [E2 E]. apply app_eq_nil in E as [E3 _].
  destruct Hg as [P|[T|T]].
  - assert (Hi : In g (filter CareGapRules.is_high_priority (g :: gs))).
    { apply filter_In. split; [left; reflexivity|].
      unfold CareGapRules.is_high_priority. rewrite P. reflexivity. }
    destruct (filter CareGapRules.is_high_priority (g :: gs)); [destruct Hi | discriminate].
  - assert (Hi : In g (filter (fun g => CareGaps.type_eqb (CareGaps.gap_type g) CareGaps.SCREENING) (g :: gs))).
    { apply filter_In. split; [left; reflexivity|]. rewrite T. reflexivity. }
    destruct (filter (fun g => CareGaps.type_eqb (CareGaps.gap_type g) CareGaps.SCREENING) (g :: gs));
      [destruct Hi | discriminate].
  - assert (Hi : In g (filter (fun g => CareGaps.type_eqb (CareGaps.gap_type g) CareGaps.VACCINATION) (g :: gs))).
    { apply filter_In. split; [left; reflexivity|]. rewrite T. reflexivity. }
    destruct (filter (fun g => CareGaps.type_eqb (CareGaps.gap_type g) CareGaps.VACCINATION) (g :: gs));
      [destruct Hi | discriminate].
Qed.

(** X21: for the gaps [_evaluate_gaps] returns, [_generate_recommendations]
    gives at least one recommendation exactly when there is at least one
    gap: every gap the rules engine creates is HIGH priority, a screening
    or a vaccination, so it is always named in some recommendation. *)
Theorem evaluate_gaps_recommendations (today : Z * Z * Z) (uid : nat -> string) (f : CareGapRules.CareFeatures) :
  CareGapRules._generate_recommendations (CareGapRules._evaluate_gaps today uid f) = [] <->
  CareGapRules._evaluate_gaps today uid f = [].
Proof.
  apply recommendations_empty_iff. unfold CareGapRules._evaluate_gaps.
  apply assign_gap_ids_Forall. exact (pending_gaps_covered today f).
Qed.

Lemma cohort_fold (detect : string -> list CareGaps.CareGap) (pids : list string)
  (gs : list CareGaps.CareGap) (n : nat) (tr : Q) gs' n' tr' :
  fold_left (fun acc pid =>
               let '(gs, n, tr) := acc in
               let care_gaps := detect pid in
               let risk_score := CareGaps._calculate_risk_score care_gaps in
               match care_gaps with
               | [] => (gs, n, tr + risk_score)
               | _ => ((gs ++ care_gaps)%list, S n, tr + risk_score)
               end) pids (gs, n, tr) = (gs', n', tr') ->
  gs' = (gs ++ flat_map detect pids)%list /\
  n' = (n + length (filter (fun pid => match detect pid with [] => false | _ => true end) pids))%nat.
Proof.
  revert gs n tr. induction pids as [|pid pids IH]; intros gs n tr H; cbn [fold_left] in H.
  - injection H as <- <- _. cbn. rewrite app_nil_r. split; [reflexivity | lia].
  - cbn [flat_map filter]. destruct (detect pid) as [|g0 gs0] eqn:D.
    + destruct (IH _ _ _ H) as [E1 E2]. split; [exact E1 | exact E2].
    + destruct (IH _ _ _ H) as [E1 E2]. rewrite app_assoc. split; [exact E1|].
      cbn [length]. lia.
Qed.

(** X22: in the summary [analyze_cohort] returns, the per-type counts and
    the per-priority counts each add up to [total_gaps_identified];
    [patients_with_gaps] is the number of patients whose gap list is not
    empty, so it never exceeds [total_patients_analyzed]; without filters
    [total_gaps_identified] is the total number of gaps over all patients;
    and the average risk is 0.0 for an empty cohort. *)
Theorem analyze_cohort_counts (detect : string -> list CareGaps.CareGap) (pids : list string)
  (gap_types : option (list CareGaps.CareGapType)) (min_priority : option CareGaps.CareGapPriority) :
  let s := CareGaps.analyze_cohort detect pids gap_types min_priority in
  list_sum (map snd (CareGaps.gaps_by_type s)) = CareGaps.total_gaps_identified s /\
  list_sum (map snd (CareGaps.gaps_by_priority s)) = CareGaps.total_gaps_identified s /\
  CareGaps.patients_with_gaps s =
    length (filter (fun pid => match detect pid with [] => false | _ => true end) pids) /\
  (CareGaps.patients_with_gaps s <= CareGaps.total_patients_analyzed s)%nat /\
  (gap_types = None -> min_priority = None ->
   CareGaps.total_gaps_identified s = list_sum (map (fun pid => length (detect pid)) pids)) /\
  (pids = [] -> CareGaps.average_risk_score s = 0.0).
Proof.
  cbv zeta. unfold CareGaps.analyze_cohort.
  match goal with |- context [fold_left ?step pids ([], 0%nat, 0.0)] =>
    destruct (fold_left step pids ([], 0%nat, 0.0)) as [[gs' n'] tr'] eqn:F end.
  destruct (cohort_fold _ _ _ _ _ _ _ _ F) as [E1 E2]. cbn [app] in E1.
  cbn [CareGaps.gaps_by_type CareGaps.gaps_by_priority CareGaps.total_gaps_identified
       CareGaps.patients_with_gaps CareGaps.total_patients_analyzed CareGaps.average_risk_score].
  split; [rewrite count_fold_total; reflexivity|].
  split; [rewrite count_fold_total; reflexivity|].
  split; [exact E2|].
  split; [rewrite E2; apply filter_length_le|].
  split.
  - intros -> ->. rewrite E1. clear. induction pids as [|pid pids IH]; [reflexivity|].
    cbn [flat_map map list_sum fold_right]. rewrite length_app. cbn [list_sum] in IH. rewrite IH. reflexivity.
  - intros ->. reflexivity.
Qed.

(** ** More of the code: citations *)

Lemma py_len_append (a b : string) : py_len (a ++ b) = (py_len a + py_len b)%nat.
Proof.
  induction a as [|c a IH]; cbn [String.append py_len]; [reflexivity|]. rewrite IH. lia.
Qed.

Lemma citations_loop_raise {D} (parse : string -> result D)
    (docs : list Citations.RetrievedDoc) (acc : list (Citations.Citation D)) (e : py_exc) :
  Citations.build_citations_loop D parse docs acc = Raise e <->
  exists pre d post, docs = (pre ++ d :: post)%list /\
    Forall (fun p => exists t, parse (Citations.doc_date p) = Ok t) pre /\
    parse (Citations.doc_date d) = Raise e.
Proof.
  revert acc. induction docs as [|d docs IH]; intro acc; cbn [Citations.build_citations_loop].
  - split; [discriminate|]. intros (pre & d & post & E & _). destruct pre; discriminate.
  - destruct (parse (Citations.doc_date d)) as [t|e'] eqn:P; cbn [bind].
    + rewrite IH. split.
      * intros (pre & d' & post & -> & F & R). exists (d :: pre), d', post.
        split; [reflexivity|]. split; [constructor; [exists t; exact P | exact F] | exact R].
      * intros (pre & d' & post & E & F & R). destruct pre as [|p pre]; cbn in E; injection E as E1 E.
        -- subst d'. congruence.
        -- exists pre, d', post. split; [exact E|]. split; [inversion F; assumption | exact R].
    + split.
      * intro E. injection E as <-. exists [], d, docs. split; [reflexivity|]. split; [constructor | exact P].
      * intros (pre & d' & post & E & F & R). destruct pre as [|p pre]; cbn in E; injection E as E1 E2.
        -- subst d'. congruence.
        -- subst p. inversion F as [|? ? [t T] _]. congruence.
Qed.

Lemma citations_loop_ok {D} (parse : string -> result D)
    (docs : list Citations.RetrievedDoc) (acc cs : list (Citations.Citation D)) :
  Citations.build_citations_loop D parse docs acc = Ok cs ->
  exists cs', cs = (acc ++ cs')%list /\
    Forall2 (fun d c => exists t, parse (Citations.doc_date d) = Ok t /\ c = Citations.citation_of D d t)
            docs cs'.
Proof.
  revert acc. induction docs as [|d docs IH]; intros acc E; cbn [Citations.build_citations_loop] in E.
  - injection E as <-. exists []. rewrite app_nil_r. split; [reflexivity | constructor].
  - destruct (parse (Citations.doc_date d)) as [t|e'] eqn:P; cbn [bind] in E; [|discriminate].
    destruct (IH _ E) as (cs' & -> & F). exists (Citations.citation_of D d t :: cs').
    rewrite <- app_assoc. split; [reflexivity|]. constructor; [exists t; split; [exact P | reflexivity] | exact F].
Qed.

Lemma citations_loop_complete {D} (parse : string -> result D)
    (docs : list Citations.RetrievedDoc) (acc : list (Citations.Citation D)) :
  Forall (fun p => exists t, parse (Citations.doc_date p) = Ok t) docs ->
  exists cs, Citations.build_citations_loop D parse docs acc = Ok cs.
Proof.
  revert acc. induction docs as [|d docs IH]; intros acc F; cbn [Citations.build_citations_loop].
  - exists acc. reflexivity.
  - inversion F as [|? ? [t T] F']. rewrite T. cbn [bind]. apply IH. exact F'.
Qed.

Lemma Forall2_map_eq {A B C : Type} (R : A -> B -> Prop) (f : B -> C) (g : A -> C) xs ys :
  Forall2 R xs ys -> (forall x y, R x y -> f y = g x) -> map f ys = map g xs.
Proof.
  intros F H. induction F as [|x y xs ys Rxy _ IH]; [reflexivity|].
  cbn [map]. rewrite (H x y Rxy), IH. reflexivity.
Qed.

Lemma citation_snippet {D} (d : Citations.RetrievedDoc) (t : D) :
  let c := Citations.citation_of D d t in
  ((py_len (Citations.doc_content d) <= 200)%nat -> Citations.snippet D c = Citations.doc_content d) /\
  ((200 < py_len (Citations.doc_content d))%nat ->
     exists p, Citations.snippet D c = (p ++ "...")%string /\
               String.prefix p (Citations.doc_content d) = true /\ py_len p = 200%nat) /\
  (py_len (Citations.snippet D c) <= 203)%nat.
Proof.
  cbv zeta. cbn [Citations.citation_of Citations.snippet]. unfold py_slice_to. cbn [Z.leb Z.compare Z.to_nat].
  destruct (Nat.ltb_spec 200 (py_len (Citations.doc_content d))) as [L|L].
  - split; [intro; lia|]. split.
    + intros _. exists (utf8_take 200 (Citations.doc_content d)).
      split; [reflexivity|]. split; [apply utf8_take_prefix|].
      rewrite py_len_utf8_take. apply Nat.min_l. lia.
    + rewrite py_len_append, py_len_utf8_take, Nat.min_l by lia.
      change (py_len "...") with 3%nat. lia.
  - split; [reflexivity|]. split; [intro; lia | lia].
Qed.

(** X23: [_build_citations] raises exactly when the date of some document
    does not parse, with the exception [datetime.fromisoformat] raises on
    the first such date; it returns exactly when every date parses. Then it
    has made one citation per document, in order, with the document's id,
    type, parsed date, score and author; a content of at most 200 code
    points is the snippet unchanged, and a longer one is cut to a prefix of
    exactly 200 code points followed by "...", so no snippet is longer than
    203 code points. *)
Theorem build_citations_snippets {D} (fromisoformat : string -> result D)
    (docs : list Citations.RetrievedDoc) :
  (forall e, Citations._build_citations D fromisoformat docs = Raise e <->
     exists pre d post, docs = (pre ++ d :: post)%list /\
       Forall (fun p => exists t, fromisoformat (Citations.doc_date p) = Ok t) pre /\
       fromisoformat (Citations.doc_date d) = Raise e) /\
  ((exists cs, Citations._build_citations D fromisoformat docs = Ok cs) <->
     Forall (fun p => exists t, fromisoformat (Citations.doc_date p) = Ok t) docs) /\
  (forall cs, Citations._build_citations D fromisoformat docs = Ok cs ->
     map (Citations.source_id D) cs = map Citations.doc_id docs /\
     map (Citations.source_type D) cs = map Citations.doc_type docs /\
     map (Citations.relevance_score D) cs = map Citations.doc_relevance_score docs /\
     map (Citations.author D) cs = map Citations.doc_author docs /\
     Forall2 (fun d c =>
               fromisoformat (Citations.doc_date d) = Ok (Citations.source_date D c) /\
               ((py_len (Citations.doc_content d) <= 200)%nat -> Citations.snippet D c = Citations.doc_content d) /\
               ((200 < py_len (Citations.doc_content d))%nat ->
                  exists p, Citations.snippet D c = (p ++ "...")%string /\
                            String.prefix p (Citations.doc_content d) = true /\ py_len p = 200%nat) /\
               (py_len (Citations.snippet D c) <= 203)%nat)
       docs cs).
Proof.
  unfold Citations._build_citations.
  split; [intro e; apply citations_loop_raise|]. split.
  - split.
    + intros [cs E]. destruct (citations_loop_ok fromisoformat docs [] cs E) as (cs' & _ & F).
      clear E. induction F as [|d c docs cs' [t [T _]] _ IH]; constructor; [exists t; exact T | exact IH].
    + apply citations_loop_complete.
  - intros cs E. destruct (citations_loop_ok fromisoformat docs [] cs E) as (cs' & -> & F).
    cbn [app]. clear E.
    repeat split;
      try (eapply Forall2_map_eq; [exact F | intros d c (t & _ & ->); reflexivity]).
    induction F as [|d c docs cs' (t & T & ->) _ IH]; constructor; [|exact IH].
    split; [exact T | apply (citation_snippet d t)].
Qed.
